(** * Warehouse / locker availability checks of the tariff calculator

  A shallow embedding of the React hooks [useWarehouseCheck] (in its
  several revisions) and [useRegionBasedTariffCalculator], and the
  properties of the availability index and of the tariff eligibility
  evaluator that the specification states about them. *)

From Stdlib Require Import List NArith ZArith Bool String Ascii Lia.
Import ListNotations.


(* ===================================================================== *)
(** ** JavaScript strings and the built-ins the hooks call *)
(* ===================================================================== *)

Module JS.

(** A JavaScript string is a sequence of UTF-16 code units. *)
Definition str := list N.

(** A source literal written with ASCII characters only. *)
Fixpoint lit (s : string) : str :=
  match s with
  | EmptyString => []
  | String a r => N_of_ascii a :: lit r
  end.

(** [a === b] on strings. *)
Fixpoint str_eqb (a b : str) : bool :=
  match a, b with
  | [], [] => true
  | x :: a', y :: b' => N.eqb x y && str_eqb a' b'
  | _, _ => false
  end.

(** Truthiness of a string value: only the empty string is falsy. *)
Definition truthy (s : str) : bool :=
  match s with [] => false | _ :: _ => true end.

(** Truthiness of a [string | null] value. *)
Definition truthy_opt (s : option str) : bool :=
  match s with None => false | Some s => truthy s end.

Definition in_range (lo hi c : N) : bool := N.leb lo c && N.leb c hi.

(** WhiteSpace and LineTerminator code points: what [trim] strips and
    what the regular-expression class [\s] matches. *)
Definition isWhiteSpace (c : N) : bool :=
  in_range 9 13 c || N.eqb c 32 || N.eqb c 160 || N.eqb c 5760
  || in_range 8192 8202 c || N.eqb c 8232 || N.eqb c 8233
  || N.eqb c 8239 || N.eqb c 8287 || N.eqb c 12288 || N.eqb c 65279.

Fixpoint dropWhile (p : N -> bool) (s : str) : str :=
  match s with
  | [] => []
  | c :: r => if p c then dropWhile p r else s
  end.

Definition trimStart (s : str) : str := dropWhile isWhiteSpace s.
Definition trimEnd (s : str) : str := rev (dropWhile isWhiteSpace (rev s)).

(** [String.prototype.trim]. *)
Definition trim (s : str) : str := trimEnd (trimStart s).

(** [s.startsWith(p)]. *)
Fixpoint startsWith (s p : str) : bool :=
  match p, s with
  | [], _ => true
  | x :: p', y :: s' => N.eqb x y && startsWith s' p'
  | _ :: _, [] => false
  end.

(** [s.endsWith(p)]. *)
Definition endsWith (s p : str) : bool := startsWith (rev s) (rev p).

(** [s.includes(p)]: [p] occurs in [s] as a contiguous run. *)
Fixpoint includes (s p : str) : bool :=
  startsWith s p ||
  match s with
  | [] => false
  | _ :: r => includes r p
  end.

(** [s.split(sep)] for a one-unit separator: never the empty array. *)
Fixpoint split (sep : N) (s : str) : list str :=
  match s with
  | [] => [[]]
  | c :: r =>
      if N.eqb c sep then [] :: split sep r
      else match split sep r with
           | [] => [[c]]
           | w :: ws => (c :: w) :: ws
           end
  end.

(** [a || b] on [string | null | undefined] operands. *)
Definition or_else (a b : option str) : option str :=
  if truthy_opt a then a else b.

End JS.
Import JS.


(* ===================================================================== *)
(** ** Numbers as [parseFloat] reads them *)
(* ===================================================================== *)

(** A Number value, kept as the decimal quantity it was read from: [Dec neg
    m e] stands for the Number nearest to (-1)^neg * m * 10^e.  Only the
    comparisons with zero that the form validation makes are interpreted;
    they do not depend on how the quantity is rounded except at the
    underflow threshold, which [gt0] accounts for. *)
Inductive Num :=
| NaN
| Infinity (neg : bool)
| Dec (neg : bool) (m : N) (e : Z).

Definition isNaN (n : Num) : bool :=
  match n with NaN => true | _ => false end.

(** [n > 0].  A positive decimal quantity denotes a positive Number unless
    it rounds to zero: binary64 rounds every quantity up to and including
    2^-1075 (half of the least subnormal, ties to even) to +0. *)
Definition gt0 (n : Num) : bool :=
  match n with
  | NaN => false
  | Infinity neg => negb neg
  | Dec neg m e =>
      negb neg &&
      (if (0 <=? e)%Z then (0 <? m)%N
       else (10 ^ Z.to_N (- e) <? m * 2 ^ 1075)%N)
  end.

(** [n <= 0]: false for NaN, the complement of [n > 0] otherwise. *)
Definition le0 (n : Num) : bool := negb (isNaN n) && negb (gt0 n).

(** Truthiness of a Number: NaN and the two zeros are falsy.  A decimal
    quantity denotes a zero exactly when its magnitude rounds to zero. *)
Definition truthyNum (n : Num) : bool :=
  match n with
  | NaN => false
  | Infinity _ => true
  | Dec _ m e => gt0 (Dec false m e)
  end.

(** Truthiness of a [number | null | undefined] value. *)
Definition truthyNum_opt (n : option Num) : bool :=
  match n with None => false | Some n => truthyNum n end.

(* ===================================================================== *)
(** ** Data model ([@shared/api]) *)
(* ===================================================================== *)

(** Modelled from the spec: the declarations of [@shared/api] are not among
    the sources; the records below carry the fields the hooks read
    (ServicePoint: id, display name, city name; City: id, display name,
    coordinates; region-scoped city: per-language names and the id of the
    matching API city). *)
Module Warehouse.
Record t := { id : Z; name : str; city : str }.
End Warehouse.

Module City.
Record t := {
  id : Z;
  name : str;
  center_latitude : option Num;
  center_longitude : option Num
}.
End City.

Module RegionCity.
Record Names := { ru : option str; en : option str; uz : option str }.
Record t := { shipox_id : Z; names : Names }.
End RegionCity.

(** Modelled from the spec: the six tariff types, a closed enumeration of
    string constants in [@shared/api]; the hooks compare and scan them as
    strings. *)
Definition OFFICE_OFFICE : str := lit "OFFICE_OFFICE".
Definition OFFICE_DOOR : str := lit "OFFICE_DOOR".
Definition DOOR_OFFICE : str := lit "DOOR_OFFICE".
Definition OFFICE_POSTAMAT : str := lit "OFFICE_POSTAMAT".
Definition DOOR_POSTAMAT : str := lit "DOOR_POSTAMAT".
Definition DOOR_DOOR : str := lit "DOOR_DOOR".

Definition tariffTypes : list str :=
  [OFFICE_OFFICE; OFFICE_DOOR; DOOR_OFFICE; OFFICE_POSTAMAT; DOOR_POSTAMAT;
   DOOR_DOOR].

(** What [useI18n()] hands to the hooks: the message table [t], the
    formatter and the current language. *)
Record I18n := {
  noWarehouses : str;
  noOriginWarehouse : str;
  noDestinationWarehouse : str;
  noOriginWarehouseAndDestinationLocker : str;
  noDestinationLocker : str;
  fillAllFields : str;
  correctWeight : str;
  calculationError : str;
  formatMessage : str -> list (string * option str) -> str;
  language : RegionCity.Names -> option str
}.

(** The object [{ show, message }] a warning check returns. *)
Record Warning := { show : bool; message : str }.

Definition noWarning : Warning := {| show := false; message := [] |}.
Definition warn (m : str) : Warning := {| show := true; message := m |}.

(** [name || EmptyString] on an optional string. *)
Definition orEmpty (s : option str) : str :=
  match s with Some s => s | None => [] end.

(** An [if] statement whose branches may [return]: [Some w] when it
    returned [w], [None] when control falls through to the next statement. *)
Definition orReturn (stmt : option Warning) (next : Warning) : Warning :=
  match stmt with Some w => w | None => next end.

Notation "stmt 'FALLTHROUGH' next" := (orReturn stmt next)
  (at level 200, right associativity, only parsing).

(* ===================================================================== *)
(** ** Hook state and the effects of [fetchData] *)
(* ===================================================================== *)

(** The four [useState] cells of [useWarehouseCheck]. *)
Record HookState := {
  warehouses : list Warehouse.t;
  lockers : list Warehouse.t;
  loading : bool;
  error : option str
}.

(** The initial values passed to [useState]. *)
Definition initialState : HookState :=
  {| warehouses := []; lockers := []; loading := false; error := None |}.

(** The state of a hook that has loaded the given lists without error. *)
Definition loadedWith (ws ls : list Warehouse.t) : HookState :=
  {| warehouses := ws; lockers := ls; loading := false; error := None |}.

(** The [data] property of a parsed response body. *)
Inductive JsonData :=
| DataMissing
| DataObject (list_ : option (list Warehouse.t))
| DataArray (items : list Warehouse.t).

(** What [await fetch(url)] does: it rejects, or yields a response with its
    [ok] flag; [body] is what [await response.json()] yields, [None] when
    that rejects or parses to [null] (reading [.data] of it throws). *)
Inductive Fetch :=
| Rejected
| Response (ok : bool) (body : option JsonData).

(** State and exceptions: a computation maps the state to a result
    ([None]: an exception was thrown) and the state it leaves. *)
Module Eff.
Section Monad.
Variable S : Type.
Definition M (A : Type) : Type := S -> option A * S.
Definition ret {A} (a : A) : M A := fun s => (Some a, s).
Definition throw {A} : M A := fun s => (None, s).
Definition bind {A B} (c : M A) (k : A -> M B) : M B :=
  fun s => match c s with
           | (Some a, s') => k a s'
           | (None, s') => (None, s')
           end.
(** [try { body } catch { handler } finally { cleanup }]. *)
Definition tryCatchFinally (body handler cleanup : M unit) : M unit :=
  fun s => match body s with
           | (Some _, s1) => cleanup s1
           | (None, s1) =>
               match handler s1 with
               | (Some _, s2) => cleanup s2
               | (None, s2) => (None, snd (cleanup s2))
               end
           end.
(** A state update through a [useState] setter. *)
Definition modify (f : S -> S) : M unit := fun s => (Some tt, f s).
(** [console.log(...)], [console.error(...)]: no effect on the state. *)
Definition console_error : M unit := ret tt.
Definition exec (c : M unit) (s : S) : S := snd (c s).
End Monad.
Arguments ret {S A} a.
Arguments throw {S A}.
Arguments bind {S A B} c k.
Arguments tryCatchFinally {S} body handler cleanup.
Arguments modify {S} f.
Arguments console_error {S}.
Arguments exec {S} c s.
End Eff.

Definition setWarehouses (l : list Warehouse.t) : Eff.M HookState unit :=
  Eff.modify (fun s => {| warehouses := l; lockers := lockers s;
                          loading := loading s; error := error s |}).
Definition setLockers (l : list Warehouse.t) : Eff.M HookState unit :=
  Eff.modify (fun s => {| warehouses := warehouses s; lockers := l;
                          loading := loading s; error := error s |}).
Definition setLoading (b : bool) : Eff.M HookState unit :=
  Eff.modify (fun s => {| warehouses := warehouses s; lockers := lockers s;
                          loading := b; error := error s |}).
Definition setError (e : option str) : Eff.M HookState unit :=
  Eff.modify (fun s => {| warehouses := warehouses s; lockers := lockers s;
                          loading := loading s; error := e |}).

(** [await fetch(url)] against the outcome the network gives. *)
Definition await_fetch {S} (f : Fetch) : Eff.M S (bool * option JsonData) :=
  match f with
  | Rejected => Eff.throw
  | Response ok body => Eff.ret (ok, body)
  end.

(** [await response.json()]. *)
Definition await_json {S A} (body : option A) : Eff.M S A :=
  match body with
  | None => Eff.throw
  | Some d => Eff.ret d
  end.

Declare Scope eff_scope.
Delimit Scope eff_scope with eff.
Notation "x <- c ;; k" := (Eff.bind c (fun x => k))
  (at level 61, c at next level, right associativity) : eff_scope.
Notation "c ;;; k" := (Eff.bind c (fun _ => k))
  (at level 61, right associativity) : eff_scope.

(** [data.data?.list || []]. *)
Definition list_or_empty (d : JsonData) : list Warehouse.t :=
  match d with
  | DataObject (Some l) => l
  | _ => []
  end.

(** What a revision of [part_001] reads from a body and stores in a list
    cell: a list of points or, when [data] is an object without a [list],
    that object itself, which is no array. *)
Inductive Stored :=
| StoredPoints (l : list Warehouse.t)
| StoredData.

(** [data.data?.list || data.data || []]. *)
Definition list_or_data_or_empty (d : JsonData) : Stored :=
  match d with
  | DataObject (Some l) => StoredPoints l
  | DataObject None => StoredData
  | DataArray l => StoredPoints l
  | DataMissing => StoredPoints []
  end.

(** The four cells of the second revision of [part_001], whose setters are
    handed what was read without a look at it. *)
Record Cells := {
  warehousesCell : Stored;
  lockersCell : Stored;
  cellsLoading : bool;
  cellsError : option str
}.

(** The initial values passed to [useState]. *)
Definition initialCells : Cells :=
  {| warehousesCell := StoredPoints []; lockersCell := StoredPoints [];
     cellsLoading := false; cellsError := None |}.

(** The points of a cell that holds a list.  A cell that holds a data
    object has no points: it is told apart by [StoredData], and the
    predicates are not defined on it. *)
Definition pointsOf (s : Stored) : list Warehouse.t :=
  match s with
  | StoredPoints l => l
  | StoredData => []
  end.

(** The cells read at the declared type of the state. *)
Definition typedState (c : Cells) : HookState :=
  {| warehouses := pointsOf (warehousesCell c);
     lockers := pointsOf (lockersCell c);
     loading := cellsLoading c;
     error := cellsError c |}.

(** The switch that closes every revision of [shouldDisableCalculation],
    on the three availability flags, with the value of its [default]
    branch. *)
Definition disableSwitch (tariffType : str) (dflt : bool)
  (originHasWarehouse destinationHasWarehouse destinationHasLocker : bool)
  : bool :=
  if str_eqb tariffType OFFICE_OFFICE then
    negb originHasWarehouse || negb destinationHasWarehouse
  else if str_eqb tariffType OFFICE_DOOR then negb originHasWarehouse
  else if str_eqb tariffType DOOR_OFFICE then negb destinationHasWarehouse
  else if str_eqb tariffType OFFICE_POSTAMAT then
    negb originHasWarehouse || negb destinationHasLocker
  else if str_eqb tariffType DOOR_POSTAMAT then negb destinationHasLocker
  else if str_eqb tariffType DOOR_DOOR then false
  else dflt.


(* ===================================================================== *)
(** ** [src/client/hooks/useWarehouseCheck.ts]: exact match, names by id *)
(* ===================================================================== *)

Module UseWarehouseCheck.

(** The message of the [catch] branch, in code units. *)
Definition loadError : str :=
  [1054; 1096; 1080; 1073; 1082; 1072; 32; 1087; 1088; 1080; 32; 1079; 1072;
   1075; 1088; 1091; 1079; 1082; 1077; 32; 1076; 1072; 1085; 1085; 1099;
   1093]%N.

Local Open Scope eff_scope.

(** [fetchData], run against the outcomes of the two requests. *)
Definition fetchData (warehousesFetch lockersFetch : Fetch)
  : Eff.M HookState unit :=
  setLoading true ;;;
  Eff.tryCatchFinally
    (warehousesResponse <- await_fetch warehousesFetch ;;
     lockersResponse <- await_fetch lockersFetch ;;
     (if fst warehousesResponse then
        data <- await_json (snd warehousesResponse) ;;
        setWarehouses (list_or_empty data)
      else Eff.console_error) ;;;
     (if fst lockersResponse then
        data <- await_json (snd lockersResponse) ;;
        setLockers (list_or_empty data)
      else Eff.console_error))
    (Eff.console_error ;;; setError (Some loadError))
    (setLoading false).

(** The state once the mount effect has run. *)
Definition mounted (warehousesFetch lockersFetch : Fetch) : HookState :=
  Eff.exec (fetchData warehousesFetch lockersFetch) initialState.

Section Hook.
Variable i18n : I18n.
Variable cities : list City.t.
Variable st : HookState.

Definition getCityNameById (id : option Z) : option str :=
  match id with
  | None => None
  | Some i =>
      if Z.eqb i 0 then None
      else match find (fun c => Z.eqb (City.id c) i) cities with
           | Some found => if truthy (City.name found)
                           then Some (City.name found) else None
           | None => None
           end
  end.

Definition hasWarehouse (cityName : option str) : bool :=
  match cityName with
  | None => false
  | Some cityName =>
      if negb (truthy cityName) then false
      else existsb (fun w => str_eqb (Warehouse.city w) cityName)
                   (warehouses st)
  end.

Definition hasLocker (cityName : option str) : bool :=
  match cityName with
  | None => false
  | Some cityName =>
      if negb (truthy cityName) then false
      else existsb (fun l => str_eqb (Warehouse.city l) cityName)
                   (lockers st)
  end.

(** [city?.id || null]. *)
Definition idOrNull (c : option City.t) : option Z :=
  match c with
  | None => None
  | Some c => if Z.eqb (City.id c) 0 then None else Some (City.id c)
  end.

Definition shouldShowWarehouseWarning
  (originCity destinationCity : option City.t) (tariffType : option str)
  : Warning :=
  if negb (truthy_opt tariffType) || loading st then noWarning
  else
    let tariffType := orEmpty tariffType in
    let originCityName := getCityNameById (idOrNull originCity) in
    let destinationCityName := getCityNameById (idOrNull destinationCity) in
    let originHasWarehouse := hasWarehouse originCityName in
    let destinationHasWarehouse := hasWarehouse destinationCityName in
    let destinationHasLocker := hasLocker destinationCityName in
    let fmt := formatMessage i18n in
    (if str_eqb tariffType OFFICE_OFFICE then
       if negb originHasWarehouse && negb destinationHasWarehouse then
         Some (warn (noWarehouses i18n))
       else if negb originHasWarehouse then
         Some (warn (fmt (noOriginWarehouse i18n)
                         [("city"%string, Some (orEmpty originCityName))]))
       else if negb destinationHasWarehouse then
         Some (warn (fmt (noDestinationWarehouse i18n)
                         [("city"%string, Some (orEmpty destinationCityName))]))
       else None
     else None)
    FALLTHROUGH
    (if str_eqb tariffType OFFICE_DOOR && negb originHasWarehouse then
       Some (warn (fmt (noOriginWarehouse i18n)
                       [("city"%string, Some (orEmpty originCityName))]))
     else None)
    FALLTHROUGH
    (if str_eqb tariffType OFFICE_POSTAMAT then
       if negb originHasWarehouse && negb destinationHasLocker then
         Some (warn (fmt (noOriginWarehouseAndDestinationLocker i18n)
                         [("originCity"%string, Some (orEmpty originCityName));
                          ("destinationCity"%string,
                           Some (orEmpty destinationCityName))]))
       else if negb originHasWarehouse then
         Some (warn (fmt (noOriginWarehouse i18n)
                         [("city"%string, Some (orEmpty originCityName))]))
       else if negb destinationHasLocker then
         Some (warn (fmt (noDestinationLocker i18n)
                         [("city"%string, Some (orEmpty destinationCityName))]))
       else None
     else None)
    FALLTHROUGH
    (if str_eqb tariffType DOOR_OFFICE && negb destinationHasWarehouse then
       Some (warn (fmt (noDestinationWarehouse i18n)
                       [("city"%string, Some (orEmpty destinationCityName))]))
     else None)
    FALLTHROUGH
    (if str_eqb tariffType DOOR_POSTAMAT && negb destinationHasLocker then
       Some (warn (fmt (noDestinationLocker i18n)
                       [("city"%string, Some (orEmpty destinationCityName))]))
     else None)
    FALLTHROUGH
    noWarning.

Definition shouldDisableCalculation
  (originCity destinationCity : option City.t) (tariffType : option str)
  : bool :=
  match originCity, destinationCity with
  | Some originCity, Some destinationCity =>
      if negb (truthy_opt tariffType) || loading st then true
      else
        let originCityName := getCityNameById (Some (City.id originCity)) in
        let destinationCityName :=
          getCityNameById (Some (City.id destinationCity)) in
        disableSwitch (orEmpty tariffType) true
          (hasWarehouse originCityName)
          (hasWarehouse destinationCityName)
          (hasLocker destinationCityName)
  | _, _ => true
  end.

End Hook.
End UseWarehouseCheck.

(** [city?.name || null]. *)
Definition nameOrNull (c : option City.t) : option str :=
  match c with
  | None => None
  | Some c => if truthy (City.name c) then Some (City.name c) else None
  end.

(** [city?.name || EmptyString], the city parameter of a message. *)
Definition nameOrEmpty (c : option City.t) : str :=
  match c with
  | None => []
  | Some c => City.name c
  end.

(* ===================================================================== *)
(** ** [src/unnamed/part_000]: exact match, names read from the city *)
(* ===================================================================== *)

Module RevByName.

Definition loadError : str := lit "Failed to load data".

Local Open Scope eff_scope.

Definition fetchData (warehousesFetch lockersFetch : Fetch)
  : Eff.M HookState unit :=
  setLoading true ;;;
  Eff.tryCatchFinally
    (warehousesResponse <- await_fetch warehousesFetch ;;
     lockersResponse <- await_fetch lockersFetch ;;
     (if fst warehousesResponse then
        warehousesData <- await_json (snd warehousesResponse) ;;
        setWarehouses (list_or_empty warehousesData)
      else Eff.ret tt) ;;;
     (if fst lockersResponse then
        lockersData <- await_json (snd lockersResponse) ;;
        setLockers (list_or_empty lockersData)
      else Eff.ret tt))
    (Eff.console_error ;;; setError (Some loadError))
    (setLoading false).

Definition mounted (warehousesFetch lockersFetch : Fetch) : HookState :=
  Eff.exec (fetchData warehousesFetch lockersFetch) initialState.

Section Hook.
Variable i18n : I18n.
Variable st : HookState.

Definition hasWarehouse (cityName : option str) : bool :=
  match cityName with
  | None => false
  | Some cityName =>
      if negb (truthy cityName) then false
      else existsb (fun w => str_eqb (Warehouse.city w) cityName)
                   (warehouses st)
  end.

Definition hasLocker (cityName : option str) : bool :=
  match cityName with
  | None => false
  | Some cityName =>
      if negb (truthy cityName) then false
      else existsb (fun l => str_eqb (Warehouse.city l) cityName)
                   (lockers st)
  end.

Definition shouldShowWarehouseWarning
  (originCity destinationCity : option City.t) (tariffType : option str)
  : Warning :=
  if negb (truthy_opt tariffType) || loading st then noWarning
  else
    let tariffType := orEmpty tariffType in
    let originCityName := nameOrNull originCity in
    let destinationCityName := nameOrNull destinationCity in
    let originHasWarehouse := hasWarehouse originCityName in
    let destinationHasWarehouse := hasWarehouse destinationCityName in
    let destinationHasLocker := hasLocker destinationCityName in
    let fmt := formatMessage i18n in
    (if str_eqb tariffType OFFICE_OFFICE then
       if negb originHasWarehouse && negb destinationHasWarehouse then
         Some (warn (noWarehouses i18n))
       else if negb originHasWarehouse then
         Some (warn (fmt (noOriginWarehouse i18n)
                         [("city"%string, Some (orEmpty originCityName))]))
       else if negb destinationHasWarehouse then
         Some (warn (fmt (noDestinationWarehouse i18n)
                         [("city"%string, Some (orEmpty destinationCityName))]))
       else None
     else None)
    FALLTHROUGH
    (if str_eqb tariffType OFFICE_DOOR && negb originHasWarehouse then
       Some (warn (fmt (noOriginWarehouse i18n)
                       [("city"%string, Some (orEmpty originCityName))]))
     else None)
    FALLTHROUGH
    (if str_eqb tariffType OFFICE_POSTAMAT then
       if negb originHasWarehouse && negb destinationHasLocker then
         Some (warn (fmt (noOriginWarehouseAndDestinationLocker i18n)
                         [("originCity"%string, Some (orEmpty originCityName));
                          ("destinationCity"%string,
                           Some (orEmpty destinationCityName))]))
       else if negb originHasWarehouse then
         Some (warn (fmt (noOriginWarehouse i18n)
                         [("city"%string, Some (orEmpty originCityName))]))
       else if negb destinationHasLocker then
         Some (warn (fmt (noDestinationLocker i18n)
                         [("city"%string, Some (orEmpty destinationCityName))]))
       else None
     else None)
    FALLTHROUGH
    (if str_eqb tariffType DOOR_OFFICE && negb destinationHasWarehouse then
       Some (warn (fmt (noDestinationWarehouse i18n)
                       [("city"%string, Some (orEmpty destinationCityName))]))
     else None)
    FALLTHROUGH
    (if str_eqb tariffType DOOR_POSTAMAT && negb destinationHasLocker then
       Some (warn (fmt (noDestinationLocker i18n)
                       [("city"%string, Some (orEmpty destinationCityName))]))
     else None)
    FALLTHROUGH
    noWarning.

Definition shouldDisableCalculation
  (originCity destinationCity : option City.t) (tariffType : option str)
  : bool :=
  match originCity, destinationCity with
  | Some _, Some _ =>
      if negb (truthy_opt tariffType) || loading st then true
      else
        let originCityName := nameOrNull originCity in
        let destinationCityName := nameOrNull destinationCity in
        disableSwitch (orEmpty tariffType) true
          (hasWarehouse originCityName)
          (hasWarehouse destinationCityName)
          (hasLocker destinationCityName)
  | _, _ => true
  end.

End Hook.
End RevByName.

(** The array [checkedTariffs] of the later revisions. *)
Definition checkedTariffs : list str :=
  [OFFICE_OFFICE; OFFICE_DOOR; DOOR_OFFICE; OFFICE_POSTAMAT; DOOR_POSTAMAT].

(** The [list.map(...)] of the debug output in the first and the third
    revision of [part_001]: a [TypeError] when what was read is the data
    object and not an array. *)
Definition debugMap (s : Stored) : Eff.M HookState (list Warehouse.t) :=
  match s with
  | StoredPoints l => Eff.ret l
  | StoredData => Eff.throw
  end.

(** [fetchData] of the first and the third revision of [part_001]: each
    list is requested, checked, logged and stored before the next request
    is made. *)
Definition fetchDataLogged (loadError : str)
  (warehousesFetch lockersFetch : Fetch) : Eff.M HookState unit :=
  (setLoading true ;;;
   Eff.tryCatchFinally
     (warehousesResponse <- await_fetch warehousesFetch ;;
      (if fst warehousesResponse then
         warehousesData <- await_json (snd warehousesResponse) ;;
         warehousesList <- debugMap (list_or_data_or_empty warehousesData) ;;
         setWarehouses warehousesList
       else Eff.console_error) ;;;
      lockersResponse <- await_fetch lockersFetch ;;
      (if fst lockersResponse then
         lockersData <- await_json (snd lockersResponse) ;;
         lockersList <- debugMap (list_or_data_or_empty lockersData) ;;
         setLockers lockersList
       else Eff.console_error))
     (Eff.console_error ;;; setError (Some loadError))
     (setLoading false))%eff.

(* ===================================================================== *)
(** ** [src/unnamed/part_001], second revision: trimmed, lower-cased match *)
(* ===================================================================== *)

Module RevTrim.

Definition loadError : str := lit "Failed to load warehouse and locker data".

Definition setWarehouses (s : Stored) : Eff.M Cells unit :=
  Eff.modify (fun c => {| warehousesCell := s; lockersCell := lockersCell c;
                          cellsLoading := cellsLoading c;
                          cellsError := cellsError c |}).
Definition setLockers (s : Stored) : Eff.M Cells unit :=
  Eff.modify (fun c => {| warehousesCell := warehousesCell c;
                          lockersCell := s;
                          cellsLoading := cellsLoading c;
                          cellsError := cellsError c |}).
Definition setLoading (b : bool) : Eff.M Cells unit :=
  Eff.modify (fun c => {| warehousesCell := warehousesCell c;
                          lockersCell := lockersCell c;
                          cellsLoading := b; cellsError := cellsError c |}).
Definition setError (e : option str) : Eff.M Cells unit :=
  Eff.modify (fun c => {| warehousesCell := warehousesCell c;
                          lockersCell := lockersCell c;
                          cellsLoading := cellsLoading c; cellsError := e |}).

(** [fetchData]: each list is requested, checked and stored, as it was
    read, before the next request is made. *)
Definition fetchData (warehousesFetch lockersFetch : Fetch)
  : Eff.M Cells unit :=
  (setLoading true ;;;
   Eff.tryCatchFinally
     (warehousesResponse <- await_fetch warehousesFetch ;;
      (if fst warehousesResponse then
         warehousesData <- await_json (snd warehousesResponse) ;;
         setWarehouses (list_or_data_or_empty warehousesData)
       else Eff.console_error) ;;;
      lockersResponse <- await_fetch lockersFetch ;;
      (if fst lockersResponse then
         lockersData <- await_json (snd lockersResponse) ;;
         setLockers (list_or_data_or_empty lockersData)
       else Eff.console_error))
     (Eff.console_error ;;; setError (Some loadError))
     (setLoading false))%eff.

(** The cells once the mount effect has run. *)
Definition mountedCells (warehousesFetch lockersFetch : Fetch) : Cells :=
  Eff.exec (fetchData warehousesFetch lockersFetch) initialCells.

(** Those cells at the declared type of the state. *)
Definition mounted (warehousesFetch lockersFetch : Fetch) : HookState :=
  typedState (mountedCells warehousesFetch lockersFetch).

Section Hook.
(** [String.prototype.toLowerCase] of the runtime. *)
Variable toLowerCase : str -> str.
Variable i18n : I18n.
Variable st : HookState.

Definition hasWarehouse (cityName : option str) : bool :=
  match cityName with
  | None => false
  | Some cityName =>
      if negb (truthy cityName) || Nat.eqb (List.length (warehouses st)) 0
      then false
      else
        let cleanCityName := toLowerCase (trim cityName) in
        existsb (fun warehouse =>
                   str_eqb (toLowerCase (trim (Warehouse.city warehouse)))
                           cleanCityName)
                (warehouses st)
  end.

Definition hasLocker (cityName : option str) : bool :=
  match cityName with
  | None => false
  | Some cityName =>
      if negb (truthy cityName) || Nat.eqb (List.length (lockers st)) 0
      then false
      else
        let cleanCityName := toLowerCase (trim cityName) in
        existsb (fun locker =>
                   str_eqb (toLowerCase (trim (Warehouse.city locker)))
                           cleanCityName)
                (lockers st)
  end.

Definition shouldShowWarehouseWarning
  (originCity destinationCity : option City.t) (tariffType : option str)
  : Warning :=
  if negb (truthy_opt tariffType) || loading st then noWarning
  else
    let tariffType := orEmpty tariffType in
    if negb (existsb (str_eqb tariffType) checkedTariffs) then noWarning
    else
    let originHasWarehouse := hasWarehouse (nameOrNull originCity) in
    let destinationHasWarehouse := hasWarehouse (nameOrNull destinationCity) in
    let destinationHasLocker := hasLocker (nameOrNull destinationCity) in
    let fmt := formatMessage i18n in
    (if str_eqb tariffType OFFICE_OFFICE then
       if negb originHasWarehouse && negb destinationHasWarehouse then
         Some (warn (noWarehouses i18n))
       else if negb originHasWarehouse then
         Some (warn (fmt (noOriginWarehouse i18n)
                         [("city"%string, Some (nameOrEmpty originCity))]))
       else if negb destinationHasWarehouse then
         Some (warn (fmt (noDestinationWarehouse i18n)
                         [("city"%string, Some (nameOrEmpty destinationCity))]))
       else None
     else None)
    FALLTHROUGH
    (if str_eqb tariffType OFFICE_DOOR && negb originHasWarehouse then
       Some (warn (fmt (noOriginWarehouse i18n)
                       [("city"%string, Some (nameOrEmpty originCity))]))
     else None)
    FALLTHROUGH
    (if str_eqb tariffType OFFICE_POSTAMAT then
       if negb originHasWarehouse && negb destinationHasLocker then
         Some (warn (fmt (noOriginWarehouseAndDestinationLocker i18n)
                         [("originCity"%string, Some (nameOrEmpty originCity));
                          ("destinationCity"%string,
                           Some (nameOrEmpty destinationCity))]))
       else if negb originHasWarehouse then
         Some (warn (fmt (noOriginWarehouse i18n)
                         [("city"%string, Some (nameOrEmpty originCity))]))
       else if negb destinationHasLocker then
         Some (warn (fmt (noDestinationLocker i18n)
                         [("city"%string, Some (nameOrEmpty destinationCity))]))
       else None
     else None)
    FALLTHROUGH
    (if str_eqb tariffType DOOR_OFFICE && negb destinationHasWarehouse then
       Some (warn (fmt (noDestinationWarehouse i18n)
                       [("city"%string, Some (nameOrEmpty destinationCity))]))
     else None)
    FALLTHROUGH
    (if str_eqb tariffType DOOR_POSTAMAT && negb destinationHasLocker then
       Some (warn (fmt (noDestinationLocker i18n)
                       [("city"%string, Some (nameOrEmpty destinationCity))]))
     else None)
    FALLTHROUGH
    noWarning.

Definition shouldDisableCalculation
  (originCity destinationCity : option City.t) (tariffType : option str)
  : bool :=
  match originCity, destinationCity with
  | Some originCity, Some destinationCity =>
      if negb (truthy_opt tariffType) || loading st then true
      else
        disableSwitch (orEmpty tariffType) false
          (hasWarehouse (Some (City.name originCity)))
          (hasWarehouse (Some (City.name destinationCity)))
          (hasLocker (Some (City.name destinationCity)))
  | _, _ => true
  end.

End Hook.
End RevTrim.

(* ===================================================================== *)
(** ** Regular expressions of [normalizeCityName] *)
(* ===================================================================== *)

(** The value a fuzzy revision may be handed as a city: the declared
    [City], or a region-scoped city with a [names] object. *)
Inductive AnyCity :=
| PlainCity (c : City.t)
| RegionScoped (r : RegionCity.t).

(** [getDisplayName(city)] of the fuzzy revisions. *)
Definition getDisplayName (city : option AnyCity) : option str :=
  match city with
  | None => None
  | Some (RegionScoped r) =>
      let names := RegionCity.names r in
      or_else (RegionCity.ru names)
              (or_else (RegionCity.en names) (RegionCity.uz names))
  | Some (PlainCity c) =>
      if truthy (City.name c) then Some (City.name c) else None
  end.

(** [city?.name || EmptyString] on such a value. *)
Definition plainNameOrEmpty (city : option AnyCity) : str :=
  match city with
  | Some (PlainCity c) => City.name c
  | _ => []
  end.

(** The class [a-zA-Z], Cyrillic small a to ya, the five further Cyrillic
    letters listed, and [\s]; the first replacement deletes every code unit
    outside it. *)
Definition keptChar (c : N) : bool :=
  in_range 97 122 c || in_range 65 90 c || in_range 1072 1103 c
  || N.eqb c 1105 || N.eqb c 1118 || N.eqb c 1179 || N.eqb c 1171
  || N.eqb c 1203 || isWhiteSpace c.

(** [replace(/\s+/g, " ")]: every maximal run of white space becomes one
    space; [inRun] tells that the previous unit was white space. *)
Fixpoint collapseSpaces (inRun : bool) (s : str) : str :=
  match s with
  | [] => []
  | c :: r =>
      if isWhiteSpace c then
        if inRun then collapseSpaces true r else 32%N :: collapseSpaces true r
      else c :: collapseSpaces false r
  end.

(** Canonical form under the [i] flag, on the units that survive the first
    replacement: a small Latin or Cyrillic letter is compared through its
    capital. *)
Definition canonicalize (c : N) : N :=
  if in_range 97 122 c then (c - 32)%N
  else if in_range 1072 1103 c then (c - 32)%N
  else c.

(** Does the literal [pat] match at the head of [s], ignoring case? *)
Fixpoint matchesAt (s pat : str) : bool :=
  match pat, s with
  | [], _ => true
  | p :: pat', c :: s' =>
      N.eqb (canonicalize c) (canonicalize p) && matchesAt s' pat'
  | _ :: _, [] => false
  end.

(** The length of the first alternative that matches at the head of [s]. *)
Fixpoint firstAlternative (alts : list str) (s : str) : option nat :=
  match alts with
  | [] => None
  | a :: rest =>
      if matchesAt s a then Some (List.length a) else firstAlternative rest s
  end.

(** [replace(/(a1|a2|...)/gi, EmptyString)]: scanning from the left, each
    match is deleted and the scan resumes after it; [skip] counts the units
    of the current match still to delete. *)
Fixpoint deleteMatches (alts : list str) (skip : nat) (s : str) : str :=
  match s with
  | [] => []
  | c :: r =>
      match skip with
      | S k => deleteMatches alts k r
      | O =>
          match firstAlternative alts s with
          | Some (S k) => deleteMatches alts k r
          | _ => c :: deleteMatches alts O r
          end
      end
  end.

Definition gorod : str := [1075; 1086; 1088; 1086; 1076]%N.
Definition rayon : str := [1088; 1072; 1081; 1086; 1085]%N.

(** The words [split(" ")] gives that are longer than two units. *)
Definition longWords (s : str) : list str :=
  filter (fun w => Nat.ltb 2 (List.length w)) (split 32 s).

(* ===================================================================== *)
(** ** [src/unnamed/part_001], third revision: normalized, partial and
       word-wise match *)
(* ===================================================================== *)

Module RevFuzzy.

Definition loadError : str := lit "Failed to load warehouse and locker data".

Definition fetchData := fetchDataLogged loadError.

Definition mounted (warehousesFetch lockersFetch : Fetch) : HookState :=
  Eff.exec (fetchData warehousesFetch lockersFetch) initialState.

Definition suffixes : list str :=
  [gorod; lit "city"; lit "shahri"; lit "tumani"; lit "viloyati";
   lit "oblast"; lit "region"].

Section Hook.
Variable toLowerCase : str -> str.
Variable i18n : I18n.
Variable st : HookState.

Definition normalizeCityName (name : str) : str :=
  trim
    (deleteMatches suffixes 0
       (collapseSpaces false
          (filter keptChar (toLowerCase (trim name))))).

(** The callback of [some]: equal, one contains the other, or two long
    words of which one contains the other. *)
Definition cityMatches (normalizedSearchCity : str) (w : Warehouse.t) : bool :=
  let normalizedCity := normalizeCityName (Warehouse.city w) in
  if str_eqb normalizedCity normalizedSearchCity then true
  else if includes normalizedCity normalizedSearchCity
          || includes normalizedSearchCity normalizedCity then true
  else
    let searchWords := longWords normalizedSearchCity in
    let cityWords := longWords normalizedCity in
    existsb (fun searchWord =>
               existsb (fun cityWord =>
                          includes cityWord searchWord
                          || includes searchWord cityWord)
                       cityWords)
            searchWords.

Definition hasWarehouse (cityName : option str) : bool :=
  match cityName with
  | None => false
  | Some cityName =>
      if negb (truthy cityName) || Nat.eqb (List.length (warehouses st)) 0
      then false
      else
        let normalizedSearchCity := normalizeCityName cityName in
        existsb (cityMatches normalizedSearchCity) (warehouses st)
  end.

Definition hasLocker (cityName : option str) : bool :=
  match cityName with
  | None => false
  | Some cityName =>
      if negb (truthy cityName) || Nat.eqb (List.length (lockers st)) 0
      then false
      else
        let normalizedSearchCity := normalizeCityName cityName in
        existsb (cityMatches normalizedSearchCity) (lockers st)
  end.

Definition shouldShowWarehouseWarning
  (originCity destinationCity : option AnyCity) (tariffType : option str)
  : Warning :=
  if negb (truthy_opt tariffType) || loading st then noWarning
  else
    let tariffType := orEmpty tariffType in
    if negb (existsb (str_eqb tariffType) checkedTariffs) then noWarning
    else
    let originCityName := getDisplayName originCity in
    let destinationCityName := getDisplayName destinationCity in
    let originHasWarehouse := hasWarehouse originCityName in
    let destinationHasWarehouse := hasWarehouse destinationCityName in
    let destinationHasLocker := hasLocker destinationCityName in
    let fmt := formatMessage i18n in
    (if str_eqb tariffType OFFICE_OFFICE then
       if negb originHasWarehouse && negb destinationHasWarehouse then
         Some (warn (noWarehouses i18n))
       else if negb originHasWarehouse then
         Some (warn (fmt (noOriginWarehouse i18n)
                         [("city"%string, Some (orEmpty originCityName))]))
       else if negb destinationHasWarehouse then
         Some (warn (fmt (noDestinationWarehouse i18n)
                         [("city"%string, Some (orEmpty destinationCityName))]))
       else None
     else None)
    FALLTHROUGH
    (if str_eqb tariffType OFFICE_DOOR && negb originHasWarehouse then
       Some (warn (fmt (noOriginWarehouse i18n)
                       [("city"%string, Some (plainNameOrEmpty originCity))]))
     else None)
    FALLTHROUGH
    (if str_eqb tariffType OFFICE_POSTAMAT then
       if negb originHasWarehouse && negb destinationHasLocker then
         Some (warn (fmt (noOriginWarehouseAndDestinationLocker i18n)
                         [("originCity"%string, Some (orEmpty originCityName));
                          ("destinationCity"%string,
                           Some (orEmpty destinationCityName))]))
       else if negb originHasWarehouse then
         Some (warn (fmt (noOriginWarehouse i18n)
                         [("city"%string, Some (orEmpty originCityName))]))
       else if negb destinationHasLocker then
         Some (warn (fmt (noDestinationLocker i18n)
                         [("city"%string, Some (orEmpty destinationCityName))]))
       else None
     else None)
    FALLTHROUGH
    (if str_eqb tariffType DOOR_OFFICE && negb destinationHasWarehouse then
       Some (warn (fmt (noDestinationWarehouse i18n)
                       [("city"%string,
                         Some (plainNameOrEmpty destinationCity))]))
     else None)
    FALLTHROUGH
    (if str_eqb tariffType DOOR_POSTAMAT && negb destinationHasLocker then
       Some (warn (fmt (noDestinationLocker i18n)
                       [("city"%string,
                         Some (plainNameOrEmpty destinationCity))]))
     else None)
    FALLTHROUGH
    noWarning.

Definition shouldDisableCalculation
  (originCity destinationCity : option AnyCity) (tariffType : option str)
  : bool :=
  match originCity, destinationCity with
  | Some _, Some _ =>
      if negb (truthy_opt tariffType) || loading st then true
      else
        let originCityName := getDisplayName originCity in
        let destinationCityName := getDisplayName destinationCity in
        disableSwitch (orEmpty tariffType) false
          (hasWarehouse originCityName)
          (hasWarehouse destinationCityName)
          (hasLocker destinationCityName)
  | _, _ => true
  end.

End Hook.
End RevFuzzy.

(* ===================================================================== *)
(** ** [src/unnamed/part_001], first revision: case-insensitive match
       first, then the normalized search *)
(* ===================================================================== *)

Module RevFuzzyExactFirst.

Definition loadError : str := lit "Failed to load warehouse and locker data".

Definition fetchData := fetchDataLogged loadError.

Definition mounted (warehousesFetch lockersFetch : Fetch) : HookState :=
  Eff.exec (fetchData warehousesFetch lockersFetch) initialState.

Definition suffixes : list str :=
  [gorod; lit "city"; lit "shahri"; lit "tumani"; lit "viloyati";
   lit "oblast"; lit "region"; rayon; lit "district"].

(** The Russian adjective endings of the last replacement. *)
Definition endings : list str :=
  [[1089; 1082; 1080; 1081]; [1085; 1089; 1082; 1080; 1081];
   [1089; 1082; 1072; 1103]; [1085; 1089; 1082; 1072; 1103];
   [1089; 1082; 1086; 1077]; [1085; 1089; 1082; 1086; 1077]]%N.

Section Hook.
Variable toLowerCase : str -> str.
Variable i18n : I18n.
Variable st : HookState.

Definition normalizeCityName (name : str) : str :=
  trim
    (deleteMatches endings 0
       (deleteMatches suffixes 0
          (collapseSpaces false
             (filter keptChar (toLowerCase (trim name)))))).

(** The word test of the warehouse search. *)
Definition wordMatch (searchWords warehouseWords : list str) : bool :=
  existsb (fun searchWord =>
             existsb (fun warehouseWord =>
                        if str_eqb searchWord warehouseWord then true
                        else if Nat.leb 4 (List.length searchWord)
                                && Nat.leb 4 (List.length warehouseWord)
                        then includes searchWord warehouseWord
                             || includes warehouseWord searchWord
                        else false)
                     warehouseWords)
          searchWords.

(** The [for ... of] loop over the warehouses; it stops at the first
    match. *)
Fixpoint searchWarehouses (normalizedSearchCity : str)
  (ws : list Warehouse.t) : bool :=
  match ws with
  | [] => false
  | warehouse :: rest =>
      let normalizedWarehouseCity :=
        normalizeCityName (Warehouse.city warehouse) in
      if str_eqb normalizedWarehouseCity normalizedSearchCity then true
      else if includes normalizedWarehouseCity normalizedSearchCity then true
      else if includes normalizedSearchCity normalizedWarehouseCity then true
      else if wordMatch (longWords normalizedSearchCity)
                        (longWords normalizedWarehouseCity) then true
      else searchWarehouses normalizedSearchCity rest
  end.

(** The loop over the lockers. *)
Fixpoint searchLockers (normalizedSearchCity : str)
  (ls : list Warehouse.t) : bool :=
  match ls with
  | [] => false
  | locker :: rest =>
      let normalizedLockerCity := normalizeCityName (Warehouse.city locker) in
      if str_eqb normalizedLockerCity normalizedSearchCity
         || includes normalizedLockerCity normalizedSearchCity
         || includes normalizedSearchCity normalizedLockerCity then true
      else searchLockers normalizedSearchCity rest
  end.

Definition hasWarehouse (cityName : option str) : bool :=
  match cityName with
  | None => false
  | Some cityName =>
      if negb (truthy cityName) || Nat.eqb (List.length (warehouses st)) 0
      then false
      else
        match find (fun w => str_eqb (toLowerCase (Warehouse.city w))
                                     (toLowerCase cityName))
                   (warehouses st) with
        | Some exactMatch => true
        | None => searchWarehouses (normalizeCityName cityName) (warehouses st)
        end
  end.

Definition hasLocker (cityName : option str) : bool :=
  match cityName with
  | None => false
  | Some cityName =>
      if negb (truthy cityName) || Nat.eqb (List.length (lockers st)) 0
      then false
      else
        match find (fun l => str_eqb (toLowerCase (Warehouse.city l))
                                     (toLowerCase cityName))
                   (lockers st) with
        | Some exactMatch => true
        | None => searchLockers (normalizeCityName cityName) (lockers st)
        end
  end.

Definition shouldShowWarehouseWarning
  (originCity destinationCity : option AnyCity) (tariffType : option str)
  : Warning :=
  if negb (truthy_opt tariffType) || loading st then noWarning
  else
    let tariffType := orEmpty tariffType in
    if negb (existsb (str_eqb tariffType) checkedTariffs) then noWarning
    else
    let originCityName := getDisplayName originCity in
    let destinationCityName := getDisplayName destinationCity in
    let originHasWarehouse := hasWarehouse originCityName in
    let destinationHasWarehouse := hasWarehouse destinationCityName in
    let destinationHasLocker := hasLocker destinationCityName in
    let fmt := formatMessage i18n in
    (if str_eqb tariffType OFFICE_OFFICE then
       if negb originHasWarehouse && negb destinationHasWarehouse then
         Some (warn (noWarehouses i18n))
       else if negb originHasWarehouse then
         Some (warn (fmt (noOriginWarehouse i18n)
                         [("city"%string, Some (orEmpty originCityName))]))
       else if negb destinationHasWarehouse then
         Some (warn (fmt (noDestinationWarehouse i18n)
                         [("city"%string, Some (orEmpty destinationCityName))]))
       else None
     else None)
    FALLTHROUGH
    (if str_eqb tariffType OFFICE_DOOR && negb originHasWarehouse then
       Some (warn (fmt (noOriginWarehouse i18n)
                       [("city"%string, Some (plainNameOrEmpty originCity))]))
     else None)
    FALLTHROUGH
    (if str_eqb tariffType OFFICE_POSTAMAT then
       if negb originHasWarehouse && negb destinationHasLocker then
         Some (warn (fmt (noOriginWarehouseAndDestinationLocker i18n)
                         [("originCity"%string, Some (orEmpty originCityName));
                          ("destinationCity"%string,
                           Some (orEmpty destinationCityName))]))
       else if negb originHasWarehouse then
         Some (warn (fmt (noOriginWarehouse i18n)
                         [("city"%string, Some (orEmpty originCityName))]))
       else if negb destinationHasLocker then
         Some (warn (fmt (noDestinationLocker i18n)
                         [("city"%string, Some (orEmpty destinationCityName))]))
       else None
     else None)
    FALLTHROUGH
    (if str_eqb tariffType DOOR_OFFICE && negb destinationHasWarehouse then
       Some (warn (fmt (noDestinationWarehouse i18n)
                       [("city"%string,
                         Some (plainNameOrEmpty destinationCity))]))
     else None)
    FALLTHROUGH
    (if str_eqb tariffType DOOR_POSTAMAT && negb destinationHasLocker then
       Some (warn (fmt (noDestinationLocker i18n)
                       [("city"%string,
                         Some (plainNameOrEmpty destinationCity))]))
     else None)
    FALLTHROUGH
    noWarning.

Definition shouldDisableCalculation
  (originCity destinationCity : option AnyCity) (tariffType : option str)
  : bool :=
  match originCity, destinationCity with
  | Some _, Some _ =>
      if negb (truthy_opt tariffType) || loading st then true
      else
        let originCityName := getDisplayName originCity in
        let destinationCityName := getDisplayName destinationCity in
        disableSwitch (orEmpty tariffType) false
          (hasWarehouse originCityName)
          (hasWarehouse destinationCityName)
          (hasLocker destinationCityName)
  | _, _ => true
  end.

End Hook.
End RevFuzzyExactFirst.

(* ===================================================================== *)
(** ** [parseFloat] *)
(* ===================================================================== *)

Definition isDigit (c : N) : bool := in_range 48 57 c.

(** Reads the decimal digits at the head of [s] onto the value [acc]:
    the value, the number of digits read and the rest of the string. *)
Fixpoint readDigits (s : str) (acc : N) (count : nat) : N * nat * str :=
  match s with
  | c :: r =>
      if isDigit c then readDigits r (acc * 10 + (c - 48))%N (S count)
      else (acc, count, s)
  | [] => (acc, count, [])
  end.

(** An optional sign at the head of [s]. *)
Definition readSign (s : str) : bool * str :=
  match s with
  | c :: r =>
      if N.eqb c 45 then (true, r)
      else if N.eqb c 43 then (false, r)
      else (false, s)
  | [] => (false, [])
  end.

(** The exponent part, taken only when at least one digit follows the
    letter and its optional sign. *)
Definition readExponent (neg : bool) (m : N) (e0 : Z) (rest : str) : Num :=
  match rest with
  | c :: r =>
      if N.eqb c 101 || N.eqb c 69 then
        let (eneg, r') := readSign r in
        let '(ev, ne, _) := readDigits r' 0 0 in
        if Nat.eqb ne 0 then Dec neg m e0
        else Dec neg m (if eneg then e0 - Z.of_N ev else e0 + Z.of_N ev)%Z
      else Dec neg m e0
  | [] => Dec neg m e0
  end.

(** [parseFloat(s)]: leading white space is skipped and the longest prefix
    that is a decimal literal is read; whatever follows it is ignored. *)
Definition parseFloat (s : str) : Num :=
  let (neg, s2) := readSign (trimStart s) in
  if startsWith s2 (lit "Infinity") then Infinity neg
  else
    let '(i, ni, s3) := readDigits s2 0 0 in
    let noFraction := if Nat.eqb ni 0 then NaN else readExponent neg i 0 s3 in
    match s3 with
    | c :: s4 =>
        if N.eqb c 46 then
          let '(m, nf, s5) := readDigits s4 i 0 in
          if Nat.eqb ni 0 && Nat.eqb nf 0 then NaN
          else readExponent neg m (- Z.of_nat nf) s5
        else noFraction
    | [] => noFraction
    end.

(* ===================================================================== *)
(** ** [src/client/hooks/useRegionBasedTariffCalculator.ts] *)
(* ===================================================================== *)

Module UseRegionBasedTariffCalculator.

(** The part of the object [useWarehouseCheck()] returns that this hook
    calls. *)
Record WarehouseData := {
  hasWarehouse : option str -> bool;
  hasLocker : option str -> bool
}.

Record RegionBasedTariffCalculatorForm := {
  originCity : option RegionCity.t;
  destinationCity : option RegionCity.t;
  tariffType : option str;
  weight : str
}.

Inductive WarningType := info | warning.

Record WarehouseWarning := { show : bool; type : WarningType; message : str }.

(** The body posted to [/api/calculate-tariff]. *)
Record TariffRequest := {
  from_latitude : option Num;
  from_longitude : option Num;
  to_latitude : option Num;
  to_longitude : option Num;
  req_weight : Num;
  tariff_type : option str
}.

Section Hook.
(** The response type of the tariff endpoint. *)
Variable TariffCalculationResponse : Type.
Variable i18n : I18n.
Variable form : RegionBasedTariffCalculatorForm.
Variable apiCities : list City.t.
Variable warehouseData : option WarehouseData.

Definition findApiCityByShipoxId (regionCity : RegionCity.t) : option City.t :=
  find (fun city => Z.eqb (City.id city) (RegionCity.shipox_id regionCity))
       apiCities.

Definition convertedOriginCity : option City.t :=
  match originCity form with
  | Some c => findApiCityByShipoxId c
  | None => None
  end.

Definition convertedDestinationCity : option City.t :=
  match destinationCity form with
  | Some c => findApiCityByShipoxId c
  | None => None
  end.

(** [regionCity.names[language] || regionCity.names.en]. *)
Definition getDisplayName (regionCity : RegionCity.t) : option str :=
  or_else (language i18n (RegionCity.names regionCity))
          (RegionCity.en (RegionCity.names regionCity)).

Definition noWarehouseWarning : WarehouseWarning :=
  {| show := false; type := info; message := [] |}.

Definition createWarehouseWarning : WarehouseWarning :=
  match originCity form, destinationCity form, tariffType form,
        convertedOriginCity, convertedDestinationCity, warehouseData with
  | Some formOrigin, Some formDestination, Some tariff,
    Some origin, Some destination, Some data =>
      if negb (truthy tariff) then noWarehouseWarning
      else
      let requiresWarehouseCheck := includes tariff (lit "OFFICE") in
      if negb requiresWarehouseCheck then noWarehouseWarning
      else
      let hasOriginWarehouse := hasWarehouse data (Some (City.name origin)) in
      let hasDestinationWarehouse :=
        hasWarehouse data (Some (City.name destination)) in
      let hasOriginLocker := hasLocker data (Some (City.name origin)) in
      let hasDestinationLocker :=
        hasLocker data (Some (City.name destination)) in
      let hasOriginServices := hasOriginWarehouse || hasOriginLocker in
      let hasDestinationServices :=
        hasDestinationWarehouse || hasDestinationLocker in
      let needsOriginOffice := startsWith tariff (lit "OFFICE") in
      let needsDestinationOffice := endsWith tariff (lit "OFFICE") in
      if needsOriginOffice && needsDestinationOffice
         && negb hasOriginServices && negb hasDestinationServices then
        {| show := true; type := warning;
           message := formatMessage i18n (noWarehouses i18n)
                        [("origin"%string, getDisplayName formOrigin);
                         ("destination"%string,
                          getDisplayName formDestination)] |}
      else if needsOriginOffice && negb hasOriginServices then
        {| show := true; type := warning;
           message := formatMessage i18n (noOriginWarehouse i18n)
                        [("city"%string, getDisplayName formOrigin)] |}
      else if needsDestinationOffice && negb hasDestinationServices then
        {| show := true; type := warning;
           message := formatMessage i18n (noDestinationWarehouse i18n)
                        [("city"%string, getDisplayName formDestination)] |}
      else noWarehouseWarning
  | _, _, _, _, _, _ => noWarehouseWarning
  end.

(** The truthiness of what [isFormValid()] returns. *)
Definition isFormValid : bool :=
  let weightNumber := parseFloat (weight form) in
  match originCity form, destinationCity form with
  | Some _, Some _ =>
      truthy_opt (tariffType form) && truthy (weight form)
      && negb (isNaN weightNumber) && gt0 weightNumber
  | _, _ => false
  end.

(** The truthiness of what [canCalculate()] returns. *)
Definition canCalculate : bool :=
  isFormValid
  && match convertedOriginCity, convertedDestinationCity with
     | Some origin, Some destination =>
         truthyNum_opt (City.center_latitude origin)
         && truthyNum_opt (City.center_longitude origin)
         && truthyNum_opt (City.center_latitude destination)
         && truthyNum_opt (City.center_longitude destination)
     | _, _ => false
     end.

Definition isCalculationDisabled : bool :=
  match originCity form, destinationCity form, tariffType form,
        convertedOriginCity, convertedDestinationCity, warehouseData with
  | Some _, Some _, Some tariff, Some origin, Some destination, Some data =>
      if negb (truthy tariff) then false
      else
      let needsOriginOffice := startsWith tariff (lit "OFFICE") in
      let needsDestinationOffice :=
        endsWith tariff (lit "OFFICE") || endsWith tariff (lit "POSTAMAT") in
      if negb needsOriginOffice && negb needsDestinationOffice then false
      else
      let hasOriginWarehouse := hasWarehouse data (Some (City.name origin)) in
      let hasDestinationWarehouse :=
        hasWarehouse data (Some (City.name destination)) in
      let hasOriginLocker := hasLocker data (Some (City.name origin)) in
      let hasDestinationLocker :=
        hasLocker data (Some (City.name destination)) in
      let hasOriginServices := hasOriginWarehouse || hasOriginLocker in
      let hasDestinationServices :=
        hasDestinationWarehouse || hasDestinationLocker in
      if needsOriginOffice && negb hasOriginServices then true
      else if needsDestinationOffice && negb hasDestinationServices then true
      else false
  | _, _, _, _, _, _ => false
  end.

(** The state cells [calculateTariff] writes, and with them the request
    bodies it has posted. *)
Record CalcState := {
  result : option TariffCalculationResponse;
  loading : bool;
  error : option str;
  posted : list TariffRequest
}.

(** What the tariff endpoint does with a request: the [fetch] rejects, or
    a response arrives with its [ok] flag and, when its body parses, the
    parsed body. *)
Inductive Reply :=
| NoReply
| Reply_ (ok : bool) (body : option TariffCalculationResponse).

Definition setResult (r : option TariffCalculationResponse)
  : Eff.M CalcState unit :=
  Eff.modify (fun s => {| result := r; loading := loading s;
                          error := error s; posted := posted s |}).
Definition setLoading (b : bool) : Eff.M CalcState unit :=
  Eff.modify (fun s => {| result := result s; loading := b;
                          error := error s; posted := posted s |}).
Definition setError (e : option str) : Eff.M CalcState unit :=
  Eff.modify (fun s => {| result := result s; loading := loading s;
                          error := e; posted := posted s |}).

(** [await fetch(url, { method: POST, body })]. *)
Definition post (server : TariffRequest -> Reply) (body : TariffRequest)
  : Eff.M CalcState (bool * option TariffCalculationResponse) :=
  fun s =>
    let s' := {| result := result s; loading := loading s; error := error s;
                 posted := posted s ++ [body] |} in
    match server body with
    | NoReply => (None, s')
    | Reply_ ok b => (Some (ok, b), s')
    end.

(** Reading a property of [city!]: a [TypeError] when the city is null. *)
Definition deref (city : option City.t) : Eff.M CalcState City.t :=
  match city with
  | Some c => Eff.ret c
  | None => Eff.throw
  end.

Local Open Scope eff_scope.

Definition calculateTariff (server : TariffRequest -> Reply)
  : Eff.M CalcState unit :=
  if negb isFormValid then setError (Some (fillAllFields i18n))
  else
    let originApiCity := convertedOriginCity in
    let destinationApiCity := convertedDestinationCity in
    let weightNumber := parseFloat (weight form) in
    if isNaN weightNumber || le0 weightNumber
    then setError (Some (correctWeight i18n))
    else
      setLoading true ;;;
      setError None ;;;
      Eff.tryCatchFinally
        (origin <- deref originApiCity ;;
         destination <- deref destinationApiCity ;;
         response <- post server
           {| from_latitude := City.center_latitude origin;
              from_longitude := City.center_longitude origin;
              to_latitude := City.center_latitude destination;
              to_longitude := City.center_longitude destination;
              req_weight := weightNumber;
              tariff_type := tariffType form |} ;;
         if negb (fst response) then Eff.throw
         else
           data <- await_json (snd response) ;;
           setResult (Some data))
        (setError (Some (calculationError i18n)))
        (setLoading false).

End Hook.

(** The cells the mount effect [loadCities] writes. *)
Record CitiesState := {
  apiCities : list City.t;
  citiesLoading : bool
}.

(** The initial values passed to [useState]. *)
Definition initialCities : CitiesState :=
  {| apiCities := []; citiesLoading := false |}.

(** What [await fetch(url)] of the cities does: it rejects, or yields a
    response with its [ok] flag; [body] is what [await response.json()]
    yields: [None] when that rejects or parses to [null], otherwise the
    [data] property, [None] when it is missing. *)
Inductive CitiesFetch :=
| CitiesRejected
| CitiesResponse (ok : bool) (body : option (option (list City.t))).

Definition setApiCities (l : list City.t) : Eff.M CitiesState unit :=
  Eff.modify (fun s => {| apiCities := l; citiesLoading := citiesLoading s |}).
Definition setCitiesLoading (b : bool) : Eff.M CitiesState unit :=
  Eff.modify (fun s => {| apiCities := apiCities s; citiesLoading := b |}).

Definition loadCities (citiesFetch : CitiesFetch) : Eff.M CitiesState unit :=
  (setCitiesLoading true ;;;
   Eff.tryCatchFinally
     (response <- match citiesFetch with
                  | CitiesRejected => Eff.throw
                  | CitiesResponse ok body => Eff.ret (ok, body)
                  end ;;
      if fst response then
        data <- await_json (snd response) ;;
        setApiCities (match data with Some l => l | None => [] end)
      else Eff.console_error)
     Eff.console_error
     (setCitiesLoading false))%eff.

(** The cities once the mount effect has run. *)
Definition mountedCities (citiesFetch : CitiesFetch) : CitiesState :=
  Eff.exec (loadCities citiesFetch) initialCities.

Arguments result {TariffCalculationResponse} c.
Arguments loading {TariffCalculationResponse} c.
Arguments error {TariffCalculationResponse} c.
Arguments posted {TariffCalculationResponse} c.
Arguments NoReply {TariffCalculationResponse}.
Arguments Reply_ {TariffCalculationResponse} ok body.
Arguments calculateTariff {TariffCalculationResponse} i18n form apiCities
  server.

End UseRegionBasedTariffCalculator.

(** The number a run of decimal digits denotes. *)
Definition digitsValue (ds : str) : N :=
  fold_left (fun acc c => (acc * 10 + (c - 48))%N) ds 0%N.

(** What may follow the digits of a weight without being read as part of
    the number: nothing, or a unit that is not a digit, a point or the
    letter of an exponent. *)
Definition endsNumber (rest : str) : bool :=
  match rest with
  | [] => true
  | c :: _ => negb (isDigit c || N.eqb c 46 || N.eqb c 101 || N.eqb c 69)
  end.

Module Calc := UseRegionBasedTariffCalculator.

(** The availability predicates the calculator receives from a hook in the
    state [st]: of the revision of [part_000], and of the trimmed
    revision. *)
Definition byNameData (st : HookState) : Calc.WarehouseData :=
  {| Calc.hasWarehouse := RevByName.hasWarehouse st;
     Calc.hasLocker := RevByName.hasLocker st |}.

Definition trimData (toLowerCase : str -> str) (st : HookState)
  : Calc.WarehouseData :=
  {| Calc.hasWarehouse := RevTrim.hasWarehouse toLowerCase st;
     Calc.hasLocker := RevTrim.hasLocker toLowerCase st |}.

(** A letter that the first replacement of [normalizeCityName] keeps, or
    the space. *)
Definition letterOrSpace (c : N) : bool :=
  (keptChar c && negb (isWhiteSpace c)) || N.eqb c 32.

(** The first unit of a string, if any, is not white space. *)
Definition startsBlack (s : str) : Prop :=
  match s with [] => True | c :: _ => isWhiteSpace c = false end.

(** Does [fetchData] of the hook under [src/client/hooks] reach its
    [catch] branch?  A request rejects, or a response that is OK has a body
    that does not parse; the lockers request is made only when the
    warehouses request did not reject. *)
Definition reachesCatch (warehousesFetch lockersFetch : Fetch) : Prop :=
  warehousesFetch = Rejected
  \/ lockersFetch = Rejected
  \/ warehousesFetch = Response true None
  \/ lockersFetch = Response true None.

(* ===================================================================== *)
(** ** The lookups on whatever the cells hold at run time *)
(* ===================================================================== *)

(** A listed point as a response delivers it: its [city] may be missing. *)
Record RawPoint := { rawId : Z; rawName : str; rawCity : option str }.

(** What a list cell holds at run time, the setters being handed what the
    body carries: an array of such points, or a value that is not an
    array; [lengthIsZero] tells whether that value has a [length] that is
    0. *)
Inductive RawCell :=
| RawArray (pts : list RawPoint)
| NotArray (lengthIsZero : bool).

(** The two list cells. *)
Record RawState := { rawWarehouses : RawCell; rawLockers : RawCell }.

(** [cell.length === 0]. *)
Definition lengthIsZeroOf (cell : RawCell) : bool :=
  match cell with
  | RawArray pts => Nat.eqb (List.length pts) 0
  | NotArray z => z
  end.

(** A point of the declared type as the cell holds it, and a raw point at
    the declared type once its city is known. *)
Definition rawPoint (w : Warehouse.t) : RawPoint :=
  {| rawId := Warehouse.id w; rawName := Warehouse.name w;
     rawCity := Some (Warehouse.city w) |}.

Definition typedPoint (p : RawPoint) (city : str) : Warehouse.t :=
  {| Warehouse.id := rawId p; Warehouse.name := rawName p;
     Warehouse.city := city |}.

(** A state of the declared type as the cells hold it. *)
Definition rawState (st : HookState) : RawState :=
  {| rawWarehouses := RawArray (map rawPoint (warehouses st));
     rawLockers := RawArray (map rawPoint (lockers st)) |}.

(** [array.some(callback)] for a callback that may throw: the points are
    visited in order up to the first one accepted; [None] when the
    callback throws on a point that is visited. *)
Fixpoint someThrowing (callback : RawPoint -> option bool)
  (pts : list RawPoint) : option bool :=
  match pts with
  | [] => Some false
  | w :: rest =>
      match callback w with
      | None => None
      | Some true => Some true
      | Some false => someThrowing callback rest
      end
  end.

(** [src/client/hooks/useWarehouseCheck.ts], lines 52-60, on such cells:
    [None] for a [TypeError]. *)
Module UseWarehouseCheckRaw.

Definition hasWarehouse (st : RawState) (cityName : option str)
  : option bool :=
  match cityName with
  | None => Some false
  | Some cityName =>
      if negb (truthy cityName) then Some false
      else match rawWarehouses st with
           | NotArray _ => None
           | RawArray pts =>
               someThrowing
                 (fun w => match rawCity w with
                           | Some city => Some (str_eqb city cityName)
                           | None => Some false
                           end)
                 pts
           end
  end.

Definition hasLocker (st : RawState) (cityName : option str) : option bool :=
  match cityName with
  | None => Some false
  | Some cityName =>
      if negb (truthy cityName) then Some false
      else match rawLockers st with
           | NotArray _ => None
           | RawArray pts =>
               someThrowing
                 (fun l => match rawCity l with
                           | Some city => Some (str_eqb city cityName)
                           | None => Some false
                           end)
                 pts
           end
  end.

End UseWarehouseCheckRaw.

(** [src/unnamed/part_001], lines 769-871, on such cells: [None] for a
    [TypeError]. *)
Module RevFuzzyRaw.
Section Hook.
Variable toLowerCase : str -> str.

(** The callback of [some]: [normalizeCityName(point.city)] throws when
    the point has no city. *)
Definition callback (normalizedSearchCity : str) (point : RawPoint)
  : option bool :=
  match rawCity point with
  | None => None
  | Some city =>
      Some (RevFuzzy.cityMatches toLowerCase normalizedSearchCity
              (typedPoint point city))
  end.

Definition hasWarehouse (st : RawState) (cityName : option str)
  : option bool :=
  match cityName with
  | None => Some false
  | Some cityName =>
      if negb (truthy cityName) || lengthIsZeroOf (rawWarehouses st)
      then Some false
      else match rawWarehouses st with
           | NotArray _ => None
           | RawArray pts =>
               let normalizedSearchCity :=
                 RevFuzzy.normalizeCityName toLowerCase cityName in
               someThrowing (callback normalizedSearchCity) pts
           end
  end.

Definition hasLocker (st : RawState) (cityName : option str) : option bool :=
  match cityName with
  | None => Some false
  | Some cityName =>
      if negb (truthy cityName) || lengthIsZeroOf (rawLockers st)
      then Some false
      else match rawLockers st with
           | NotArray _ => None
           | RawArray pts =>
               let normalizedSearchCity :=
                 RevFuzzy.normalizeCityName toLowerCase cityName in
               someThrowing (callback normalizedSearchCity) pts
           end
  end.

End Hook.
End RevFuzzyRaw.

(** [src/unnamed/part_000], lines 39-47, on such cells. *)
Module RevByNameRaw.

Definition hasWarehouse (st : RawState) (cityName : option str)
  : option bool :=
  match cityName with
  | None => Some false
  | Some cityName =>
      if negb (truthy cityName) then Some false
      else match rawWarehouses st with
           | NotArray _ => None
           | RawArray pts =>
               someThrowing
                 (fun w => match rawCity w with
                           | Some city => Some (str_eqb city cityName)
                           | None => Some false
                           end)
                 pts
           end
  end.

Definition hasLocker (st : RawState) (cityName : option str) : option bool :=
  match cityName with
  | None => Some false
  | Some cityName =>
      if negb (truthy cityName) then Some false
      else match rawLockers st with
           | NotArray _ => None
           | RawArray pts =>
               someThrowing
                 (fun l => match rawCity l with
                           | Some city => Some (str_eqb city cityName)
                           | None => Some false
                           end)
                 pts
           end
  end.

End RevByNameRaw.

(** [src/unnamed/part_001], lines 506-527, on such cells. *)
Module RevTrimRaw.
Section Hook.
Variable toLowerCase : str -> str.

(** The callback of [some]: [point.city.trim()] throws when the point has
    no city. *)
Definition callback (cleanCityName : str) (point : RawPoint) : option bool :=
  match rawCity point with
  | None => None
  | Some city => Some (str_eqb (toLowerCase (trim city)) cleanCityName)
  end.

Definition hasWarehouse (st : RawState) (cityName : option str)
  : option bool :=
  match cityName with
  | None => Some false
  | Some cityName =>
      if negb (truthy cityName) || lengthIsZeroOf (rawWarehouses st)
      then Some false
      else
        let cleanCityName := toLowerCase (trim cityName) in
        match rawWarehouses st with
        | NotArray _ => None
        | RawArray pts => someThrowing (callback cleanCityName) pts
        end
  end.

Definition hasLocker (st : RawState) (cityName : option str) : option bool :=
  match cityName with
  | None => Some false
  | Some cityName =>
      if negb (truthy cityName) || lengthIsZeroOf (rawLockers st)
      then Some false
      else
        let cleanCityName := toLowerCase (trim cityName) in
        match rawLockers st with
        | NotArray _ => None
        | RawArray pts => someThrowing (callback cleanCityName) pts
        end
  end.

End Hook.
End RevTrimRaw.

(** [src/unnamed/part_001], lines 87-270, on such cells. *)
Module RevFuzzyExactFirstRaw.
Section Hook.
Variable toLowerCase : str -> str.

(** The callback of [find]: [point.city.toLowerCase()] throws when the
    point has no city. *)
Definition exactCallback (cityName : str) (point : RawPoint) : option bool :=
  match rawCity point with
  | None => None
  | Some city => Some (str_eqb (toLowerCase city) (toLowerCase cityName))
  end.

(** The [for ... of] loop over the warehouses. *)
Fixpoint searchWarehouses (normalizedSearchCity : str)
  (ws : list RawPoint) : option bool :=
  match ws with
  | [] => Some false
  | warehouse :: rest =>
      match rawCity warehouse with
      | None => None
      | Some city =>
          let normalizedWarehouseCity :=
            RevFuzzyExactFirst.normalizeCityName toLowerCase city in
          if str_eqb normalizedWarehouseCity normalizedSearchCity
          then Some true
          else if includes normalizedWarehouseCity normalizedSearchCity
          then Some true
          else if includes normalizedSearchCity normalizedWarehouseCity
          then Some true
          else if RevFuzzyExactFirst.wordMatch
                    (longWords normalizedSearchCity)
                    (longWords normalizedWarehouseCity)
          then Some true
          else searchWarehouses normalizedSearchCity rest
      end
  end.

(** The loop over the lockers. *)
Fixpoint searchLockers (normalizedSearchCity : str)
  (ls : list RawPoint) : option bool :=
  match ls with
  | [] => Some false
  | locker :: rest =>
      match rawCity locker with
      | None => None
      | Some city =>
          let normalizedLockerCity :=
            RevFuzzyExactFirst.normalizeCityName toLowerCase city in
          if str_eqb normalizedLockerCity normalizedSearchCity
             || includes normalizedLockerCity normalizedSearchCity
             || includes normalizedSearchCity normalizedLockerCity
          then Some true
          else searchLockers normalizedSearchCity rest
      end
  end.

Definition hasWarehouse (st : RawState) (cityName : option str)
  : option bool :=
  match cityName with
  | None => Some false
  | Some cityName =>
      if negb (truthy cityName) || lengthIsZeroOf (rawWarehouses st)
      then Some false
      else
        match rawWarehouses st with
        | NotArray _ => None
        | RawArray pts =>
            match someThrowing (exactCallback cityName) pts with
            | None => None
            | Some true => Some true
            | Some false =>
                searchWarehouses
                  (RevFuzzyExactFirst.normalizeCityName toLowerCase cityName)
                  pts
            end
        end
  end.

Definition hasLocker (st : RawState) (cityName : option str) : option bool :=
  match cityName with
  | None => Some false
  | Some cityName =>
      if negb (truthy cityName) || lengthIsZeroOf (rawLockers st)
      then Some false
      else
        match rawLockers st with
        | NotArray _ => None
        | RawArray pts =>
            match someThrowing (exactCallback cityName) pts with
            | None => None
            | Some true => Some true
            | Some false =>
                searchLockers
                  (RevFuzzyExactFirst.normalizeCityName toLowerCase cityName)
                  pts
            end
        end
  end.

End Hook.
End RevFuzzyExactFirstRaw.

(** What the lookups of the second revision of [part_001] find in a cell
    after the mount effect: the points as stored or, for a data object
    stored as read, a value that is no array; [lengthIsZero] tells whether
    that object carries a [length] that is 0. *)
Definition rawCell (lengthIsZero : bool) (s : Stored) : RawCell :=
  match s with
  | StoredPoints l => RawArray (map rawPoint l)
  | StoredData => NotArray lengthIsZero
  end.

Definition rawCells (lengthIsZero : bool) (c : Cells) : RawState :=
  {| rawWarehouses := rawCell lengthIsZero (warehousesCell c);
     rawLockers := rawCell lengthIsZero (lockersCell c) |}.

(* ===================================================================== *)
(** ** Concrete data for the examples *)
(* ===================================================================== *)

(** An instance of [toLowerCase] for concrete runs: the lower-case mapping
    of Basic Latin and of the basic Cyrillic capitals, the identity on
    every other code unit. *)
Definition lowerUnit (c : N) : N :=
  if in_range 65 90 c then (c + 32)%N
  else if in_range 1040 1071 c then (c + 32)%N
  else if in_range 1024 1039 c then (c + 80)%N
  else c.

Definition toLowerCaseBasic (s : str) : str := map lowerUnit s.

Module Sample.

Definition tashkentPoint : Warehouse.t :=
  {| Warehouse.id := 1; Warehouse.name := lit "Central";
     Warehouse.city := lit "Tashkent" |}.

Definition samarkandPoint : Warehouse.t :=
  {| Warehouse.id := 2; Warehouse.name := lit "Registan";
     Warehouse.city := lit "Samarkand" |}.

Definition tashkent : City.t :=
  {| City.id := 1; City.name := lit "Tashkent";
     City.center_latitude := Some (Dec false 413 (-1));
     City.center_longitude := Some (Dec false 692 (-1)) |}.

Definition samarkand : City.t :=
  {| City.id := 2; City.name := lit "Samarkand";
     City.center_latitude := Some (Dec false 396 (-1));
     City.center_longitude := Some (Dec false 669 (-1)) |}.

Definition cities : list City.t := [tashkent; samarkand].

Definition regionTashkent : RegionCity.t :=
  {| RegionCity.shipox_id := 1;
     RegionCity.names := {| RegionCity.ru := None;
                            RegionCity.en := Some (lit "Tashkent");
                            RegionCity.uz := Some (lit "Toshkent") |} |}.

Definition regionSamarkand : RegionCity.t :=
  {| RegionCity.shipox_id := 2;
     RegionCity.names := {| RegionCity.ru := None;
                            RegionCity.en := Some (lit "Samarkand");
                            RegionCity.uz := Some (lit "Samarqand") |} |}.

(** A message table whose entries are their own keys, with a formatter
    that appends the parameter values. *)
Definition i18n : I18n :=
  {| noWarehouses := lit "noWarehouses";
     noOriginWarehouse := lit "noOriginWarehouse";
     noDestinationWarehouse := lit "noDestinationWarehouse";
     noOriginWarehouseAndDestinationLocker :=
       lit "noOriginWarehouseAndDestinationLocker";
     noDestinationLocker := lit "noDestinationLocker";
     fillAllFields := lit "fillAllFields";
     correctWeight := lit "correctWeight";
     calculationError := lit "calculationError";
     formatMessage := fun m ps =>
       m ++ List.concat (map (fun p => 32%N :: orEmpty (snd p)) ps);
     language := RegionCity.en |}.

(** The availability predicates of a loaded exact-match index, as the
    calculator receives them. *)
Definition data (ws ls : list Warehouse.t)
  : UseRegionBasedTariffCalculator.WarehouseData :=
  {| UseRegionBasedTariffCalculator.hasWarehouse :=
       RevByName.hasWarehouse (loadedWith ws ls);
     UseRegionBasedTariffCalculator.hasLocker :=
       RevByName.hasLocker (loadedWith ws ls) |}.

(** A form from Tashkent to Samarkand. *)
Definition form (tariff : option str) (w : str)
  : UseRegionBasedTariffCalculator.RegionBasedTariffCalculatorForm :=
  {| UseRegionBasedTariffCalculator.originCity := Some regionTashkent;
     UseRegionBasedTariffCalculator.destinationCity := Some regionSamarkand;
     UseRegionBasedTariffCalculator.tariffType := tariff;
     UseRegionBasedTariffCalculator.weight := w |}.

(** A region-scoped city that no API city matches. *)
Definition regionElsewhere : RegionCity.t :=
  {| RegionCity.shipox_id := 99;
     RegionCity.names := {| RegionCity.ru := None;
                            RegionCity.en := Some (lit "Elsewhere");
                            RegionCity.uz := None |} |}.

(** A city object that carries the name of Tashkent under an id that is
    not among the cities. *)
Definition unlistedTashkent : City.t :=
  {| City.id := 7; City.name := lit "Tashkent";
     City.center_latitude := None; City.center_longitude := None |}.

(** A listed point that came without a city. *)
Definition pointWithoutCity : RawPoint :=
  {| rawId := 3; rawName := lit "Depot"; rawCity := None |}.

(** A state of the calculator with nothing stored. *)
Definition idle : Calc.CalcState unit :=
  {| Calc.result := None; Calc.loading := false; Calc.error := None;
     Calc.posted := [] |}.

End Sample.

(* ===================================================================== *)
(** * Properties *)
(* ===================================================================== *)

(** ** Concrete runs of the embedded functions *)

Example trim_example : trim (lit "  a b  ") = lit "a b".
Proof. reflexivity. Qed.

Example split_example :
  split 32 (lit "a b  c") = [lit "a"; lit "b"; []; lit "c"].
Proof. reflexivity. Qed.

Example parseFloat_examples :
  parseFloat (lit "5abc") = Dec false 5 0
  /\ parseFloat (lit " 12.50kg") = Dec false 1250 (-2)
  /\ parseFloat (lit ".5") = Dec false 5 (-1)
  /\ parseFloat (lit "5.e3") = Dec false 5 3
  /\ parseFloat (lit "-0") = Dec true 0 0
  /\ parseFloat (lit "abc") = NaN
  /\ parseFloat (lit ".") = NaN
  /\ parseFloat [] = NaN.
Proof. repeat split. Qed.

Example gt0_examples :
  gt0 (parseFloat (lit "5abc")) = true
  /\ gt0 (parseFloat (lit "0.0")) = false
  /\ gt0 (parseFloat (lit "-3")) = false
  /\ gt0 (parseFloat (lit "1e-400")) = false.
Proof. repeat split. Qed.

Example normalizeCityName_examples :
  RevFuzzy.normalizeCityName toLowerCaseBasic (lit "  Tashkent   City-2 ")
  = lit "tashkent"
  /\ RevFuzzy.normalizeCityName toLowerCaseBasic (lit "Andijon shahri")
     = lit "andijon"
  /\ RevFuzzy.normalizeCityName toLowerCaseBasic
       ([1043; 1086; 1088; 1086; 1076; 32]%N ++ lit "X")
     = lit "x".
Proof. repeat split. Qed.

(** With a warehouse in Tashkent only and no locker, OFFICE_DOOR from
    Tashkent to Samarkand is not disabled; with an empty index every
    tariff type that needs an office or a locker is. *)
Example shouldDisableCalculation_examples :
  UseWarehouseCheck.shouldDisableCalculation Sample.cities
    (loadedWith [Sample.tashkentPoint] [])
    (Some Sample.tashkent) (Some Sample.samarkand) (Some OFFICE_DOOR) = false
  /\ forallb
       (fun t => UseWarehouseCheck.shouldDisableCalculation Sample.cities
                   (loadedWith [] [])
                   (Some Sample.tashkent) (Some Sample.samarkand) (Some t))
       checkedTariffs = true.
Proof. split; reflexivity. Qed.

(** ** Strings *)

Lemma str_eqb_eq : forall a b, str_eqb a b = true <-> a = b.
Proof.
induction a as [|x a IH]; destruct b as [|y b]; simpl; split; intro H;
  try reflexivity; try discriminate.
- apply andb_true_iff in H. destruct H as [Hx Hr].
  apply N.eqb_eq in Hx. apply IH in Hr. subst. reflexivity.
- inversion H; subst. rewrite N.eqb_refl. simpl. apply IH. reflexivity.
Qed.

Lemma str_eqb_refl : forall a, str_eqb a a = true.
Proof. intro a. apply str_eqb_eq. reflexivity. Qed.

Lemma dropWhile_all : forall p s, forallb p s = true -> dropWhile p s = [].
Proof.
induction s as [|c r IH]; simpl; intro H; [reflexivity|].
apply andb_true_iff in H. destruct H as [Hc Hr]. rewrite Hc. auto.
Qed.

Lemma dropWhile_app_all :
forall p pre s, forallb p pre = true -> dropWhile p (pre ++ s) = dropWhile p s.
Proof.
induction pre as [|c r IH]; simpl; intros s H; [reflexivity|].
apply andb_true_iff in H. destruct H as [Hc Hr]. rewrite Hc. auto.
Qed.

Lemma dropWhile_app_keep :
forall p s t, dropWhile p s <> [] -> dropWhile p (s ++ t) = dropWhile p s ++ t.
Proof.
induction s as [|c r IH]; simpl; intros t H; [congruence|].
destruct (p c); [apply IH; assumption | reflexivity].
Qed.

Lemma dropWhile_nil_all : forall p s, dropWhile p s = [] -> forallb p s = true.
Proof.
induction s as [|c r IH]; simpl; intro H; [reflexivity|].
destruct (p c); [auto | discriminate].
Qed.

Lemma forallb_rev : forall (p : N -> bool) s, forallb p (rev s) = forallb p s.
Proof.
intros p s. induction s as [|c r IH]; simpl; [reflexivity|].
rewrite forallb_app, IH. simpl. rewrite andb_true_r. apply andb_comm.
Qed.

Lemma trimEnd_app_ws :
forall s post,
  forallb isWhiteSpace post = true -> trimEnd (s ++ post) = trimEnd s.
Proof.
intros s post H. unfold trimEnd. rewrite rev_app_distr.
rewrite dropWhile_app_all; [reflexivity|]. rewrite forallb_rev. exact H.
Qed.

(** Padding a string with white space on either side does not change what
  [trim] returns. *)
Lemma trim_pad :
forall pre s post,
  forallb isWhiteSpace pre = true -> forallb isWhiteSpace post = true ->
  trim (pre ++ s ++ post) = trim s.
Proof.
intros pre s post Hpre Hpost. unfold trim, trimStart.
rewrite dropWhile_app_all by exact Hpre.
destruct (dropWhile isWhiteSpace s) as [|c r] eqn:E.
- apply dropWhile_nil_all in E.
  rewrite dropWhile_all; [reflexivity|].
  rewrite forallb_app, E, Hpost. reflexivity.
- rewrite dropWhile_app_keep by (rewrite E; discriminate).
  rewrite E. apply trimEnd_app_ws. exact Hpost.
Qed.

(* ===================================================================== *)
(** ** Membership predicates under case and white-space variation *)
(* ===================================================================== *)

Lemma existsb_witness :
  forall (A : Type) (p : A -> bool) (l : list A) (x : A),
    In x l -> p x = true -> existsb p l = true.
Proof.
  intros A p l x Hin Hp. apply existsb_exists. exists x. split; assumption.
Qed.

Lemma truthy_nonempty : forall s : str, s <> [] -> truthy s = true.
Proof. intros [|c r] H; [congruence | reflexivity]. Qed.

Lemma in_length_nonzero :
  forall (A : Type) (x : A) (l : list A),
    In x l -> Nat.eqb (List.length l) 0 = false.
Proof. intros A x [|y l] H; [destruct H | reflexivity]. Qed.

(** In the trimmed, lower-cased revision a listed point is found by every
    non-empty query whose trimmed, lower-cased form is that of its city
    name. *)
Lemma RevTrim_found :
  forall toLowerCase (pts : list Warehouse.t) (w : Warehouse.t) (q : str),
    In w pts -> q <> [] ->
    toLowerCase (trim q) = toLowerCase (trim (Warehouse.city w)) ->
    (if negb (truthy q) || Nat.eqb (List.length pts) 0 then false
     else existsb (fun p => str_eqb (toLowerCase (trim (Warehouse.city p)))
                                    (toLowerCase (trim q))) pts) = true.
Proof.
  intros toLowerCase pts w q Hin Hq Heq.
  rewrite (truthy_nonempty _ Hq), (in_length_nonzero _ _ _ Hin). simpl.
  apply existsb_witness with (x := w); [exact Hin|].
  rewrite Heq. apply str_eqb_refl.
Qed.

(** C1 (as amended).  In the revision that trims and lower-cases both
    sides, a city name listed for a warehouse (resp. a locker) is found by
    every non-empty query made of white space, a string whose trimmed form
    lower-cases to the same string as the trimmed listed name, and white
    space again.  In the exact-match hook a non-empty listed name is found
    when queried verbatim. *)
Theorem C1_listed_name_found :
  forall (toLowerCase : str -> str) (st : HookState)
         (w : Warehouse.t) (pre core post : str),
    forallb isWhiteSpace pre = true ->
    forallb isWhiteSpace post = true ->
    toLowerCase (trim core) = toLowerCase (trim (Warehouse.city w)) ->
    pre ++ core ++ post <> [] ->
    (In w (warehouses st) ->
     RevTrim.hasWarehouse toLowerCase st (Some (pre ++ core ++ post)) = true)
    /\ (In w (lockers st) ->
        RevTrim.hasLocker toLowerCase st (Some (pre ++ core ++ post)) = true)
    /\ (In w (warehouses st) -> Warehouse.city w <> [] ->
        UseWarehouseCheck.hasWarehouse st (Some (Warehouse.city w)) = true)
    /\ (In w (lockers st) -> Warehouse.city w <> [] ->
        UseWarehouseCheck.hasLocker st (Some (Warehouse.city w)) = true).
Proof.
  intros toLowerCase st w pre core post Hpre Hpost Hcase Hne.
  assert (Hq : toLowerCase (trim (pre ++ core ++ post))
               = toLowerCase (trim (Warehouse.city w))).
  { rewrite trim_pad by assumption. exact Hcase. }
  repeat split.
  - intro Hin. unfold RevTrim.hasWarehouse.
    apply RevTrim_found with (w := w); assumption.
  - intro Hin. unfold RevTrim.hasLocker.
    apply RevTrim_found with (w := w); assumption.
  - intros Hin Hcity. unfold UseWarehouseCheck.hasWarehouse.
    rewrite (truthy_nonempty _ Hcity). simpl.
    apply existsb_witness with (x := w); [exact Hin | apply str_eqb_refl].
  - intros Hin Hcity. unfold UseWarehouseCheck.hasLocker.
    rewrite (truthy_nonempty _ Hcity). simpl.
    apply existsb_witness with (x := w); [exact Hin | apply str_eqb_refl].
Qed.

(** The amended C1 at the list [Tashkent] and the query [  tashKENT ]. *)
Lemma C1_listed_name_found_witness :
  RevTrim.hasWarehouse toLowerCaseBasic
    (loadedWith [Sample.tashkentPoint] [Sample.tashkentPoint])
    (Some (lit "  " ++ lit "tashKENT" ++ lit " ")) = true
  /\ RevTrim.hasLocker toLowerCaseBasic
       (loadedWith [Sample.tashkentPoint] [Sample.tashkentPoint])
       (Some (lit "  " ++ lit "tashKENT" ++ lit " ")) = true
  /\ UseWarehouseCheck.hasWarehouse
       (loadedWith [Sample.tashkentPoint] [Sample.tashkentPoint])
       (Some (lit "Tashkent")) = true
  /\ UseWarehouseCheck.hasLocker
       (loadedWith [Sample.tashkentPoint] [Sample.tashkentPoint])
       (Some (lit "Tashkent")) = true.
Proof.
  destruct (C1_listed_name_found toLowerCaseBasic
              (loadedWith [Sample.tashkentPoint] [Sample.tashkentPoint])
              Sample.tashkentPoint
              (lit "  ") (lit "tashKENT") (lit " "))
    as [Hw [Hl [Hew Hel]]].
  - reflexivity.
  - reflexivity.
  - reflexivity.
  - discriminate.
  - split; [|split; [|split]].
    + apply Hw. simpl. left. reflexivity.
    + apply Hl. simpl. left. reflexivity.
    + apply Hew; [simpl; left; reflexivity | discriminate].
    + apply Hel; [simpl; left; reflexivity | discriminate].
Defined.

(** C1 (as stated) fails on the exact-match hook: with [Tashkent] listed
    for a warehouse and for a locker, the same name in lower case, and the
    same name behind one space, are not found. *)
Lemma C1_exact_match_counterexample :
  In Sample.tashkentPoint
     (warehouses (loadedWith [Sample.tashkentPoint] [Sample.tashkentPoint]))
  /\ toLowerCaseBasic (lit "tashkent")
     = toLowerCaseBasic (Warehouse.city Sample.tashkentPoint)
  /\ trim (lit " Tashkent") = trim (Warehouse.city Sample.tashkentPoint)
  /\ UseWarehouseCheck.hasWarehouse
       (loadedWith [Sample.tashkentPoint] [Sample.tashkentPoint])
       (Some (lit "tashkent")) = false
  /\ UseWarehouseCheck.hasWarehouse
       (loadedWith [Sample.tashkentPoint] [Sample.tashkentPoint])
       (Some (lit " Tashkent")) = false
  /\ UseWarehouseCheck.hasLocker
       (loadedWith [Sample.tashkentPoint] [Sample.tashkentPoint])
       (Some (lit "tashkent")) = false
  /\ UseWarehouseCheck.hasLocker
       (loadedWith [Sample.tashkentPoint] [Sample.tashkentPoint])
       (Some (lit " Tashkent")) = false.
Proof.
  repeat split; try reflexivity. simpl. left. reflexivity.
Qed.

(* ===================================================================== *)
(** ** The disable check *)
(* ===================================================================== *)

Lemma disableSwitch_OFFICE_POSTAMAT :
  forall dflt o d l,
    disableSwitch OFFICE_POSTAMAT dflt o d l = negb o || negb l.
Proof. reflexivity. Qed.

Lemma disableSwitch_DOOR_DOOR :
  forall dflt o d l, disableSwitch DOOR_DOOR dflt o d l = false.
Proof. reflexivity. Qed.

Lemma orb_negb_true_iff :
  forall a b, negb a || negb b = true <-> a = false \/ b = false.
Proof. intros [|] [|]; simpl; intuition congruence. Qed.

(** C2 (as amended).  In every revision of the availability hook
    [shouldDisableCalculation] returns true when the origin city is null
    and when the destination city is null, for every tariff type and every
    state of the index; [isCalculationDisabled] of the calculator returns
    false in both cases. *)
Theorem C2_null_city :
  forall (toLowerCase : str -> str) (cities : list City.t) (st : HookState)
         (c : option City.t) (a : option AnyCity) (t : option str),
    UseWarehouseCheck.shouldDisableCalculation cities st None c t = true
    /\ UseWarehouseCheck.shouldDisableCalculation cities st c None t = true
    /\ RevByName.shouldDisableCalculation st None c t = true
    /\ RevByName.shouldDisableCalculation st c None t = true
    /\ RevTrim.shouldDisableCalculation toLowerCase st None c t = true
    /\ RevTrim.shouldDisableCalculation toLowerCase st c None t = true
    /\ RevFuzzy.shouldDisableCalculation toLowerCase st None a t = true
    /\ RevFuzzy.shouldDisableCalculation toLowerCase st a None t = true
    /\ RevFuzzyExactFirst.shouldDisableCalculation toLowerCase st None a t
       = true
    /\ RevFuzzyExactFirst.shouldDisableCalculation toLowerCase st a None t
       = true
    /\ (forall r w apiCities data,
          Calc.isCalculationDisabled
            {| Calc.originCity := None; Calc.destinationCity := r;
               Calc.tariffType := t; Calc.weight := w |}
            apiCities data = false)
    /\ (forall r w apiCities data,
          Calc.isCalculationDisabled
            {| Calc.originCity := r; Calc.destinationCity := None;
               Calc.tariffType := t; Calc.weight := w |}
            apiCities data = false).
Proof.
  intros toLowerCase cities st c a t.
  repeat match goal with |- _ /\ _ => split end;
    try (destruct c; reflexivity); try (destruct a; reflexivity).
  intros r w apiCities data. destruct r; reflexivity.
Qed.

(** C2 (as stated) fails on the calculator: with no origin city selected
    [isCalculationDisabled] returns false, for a tariff that needs a
    warehouse at both ends and an empty index. *)
Lemma C2_isCalculationDisabled_counterexample :
  Calc.isCalculationDisabled
    {| Calc.originCity := None;
       Calc.destinationCity := Some Sample.regionSamarkand;
       Calc.tariffType := Some OFFICE_OFFICE;
       Calc.weight := lit "5" |}
    Sample.cities (Some (Sample.data [] [])) = false.
Proof. reflexivity. Qed.

(** C3 (as amended).  For OFFICE_POSTAMAT with both cities given and the
    index loaded, [shouldDisableCalculation] of the exact-match hook
    returns true exactly when the origin city has no warehouse or the
    destination city has no locker.  [isCalculationDisabled] of the
    calculator, once both cities are found among the API cities, returns
    true exactly when the origin has neither a warehouse nor a locker or
    the destination has neither. *)
Theorem C3_office_postamat :
  forall (cities : list City.t) (st : HookState) (o d : City.t),
    loading st = false ->
    (UseWarehouseCheck.shouldDisableCalculation cities st (Some o) (Some d)
       (Some OFFICE_POSTAMAT) = true
     <-> (UseWarehouseCheck.hasWarehouse st
            (UseWarehouseCheck.getCityNameById cities (Some (City.id o)))
          = false
          \/ UseWarehouseCheck.hasLocker st
               (UseWarehouseCheck.getCityNameById cities (Some (City.id d)))
             = false))
    /\ (forall form apiCities data ro rd co cd,
          Calc.originCity form = Some ro ->
          Calc.destinationCity form = Some rd ->
          Calc.tariffType form = Some OFFICE_POSTAMAT ->
          Calc.convertedOriginCity form apiCities = Some co ->
          Calc.convertedDestinationCity form apiCities = Some cd ->
          (Calc.isCalculationDisabled form apiCities (Some data) = true
           <-> ((Calc.hasWarehouse data (Some (City.name co)) = false
                 /\ Calc.hasLocker data (Some (City.name co)) = false)
                \/ (Calc.hasWarehouse data (Some (City.name cd)) = false
                    /\ Calc.hasLocker data (Some (City.name cd)) = false)))).
Proof.
  intros cities st o d Hload. split.
  - unfold UseWarehouseCheck.shouldDisableCalculation.
    rewrite Hload. cbn [truthy_opt OFFICE_POSTAMAT lit truthy negb orb orEmpty].
    rewrite disableSwitch_OFFICE_POSTAMAT. apply orb_negb_true_iff.
  - intros form apiCities data ro rd co cd Ho Hd Ht Hco Hcd.
    unfold Calc.isCalculationDisabled.
    rewrite Ho, Hd, Ht, Hco, Hcd.
    change (negb (truthy OFFICE_POSTAMAT)) with false.
    change (startsWith OFFICE_POSTAMAT (lit "OFFICE")) with true.
    change (endsWith OFFICE_POSTAMAT (lit "OFFICE")) with false.
    change (endsWith OFFICE_POSTAMAT (lit "POSTAMAT")) with true.
    cbn [negb orb andb].
    destruct (Calc.hasWarehouse data (Some (City.name co)));
      destruct (Calc.hasLocker data (Some (City.name co)));
      destruct (Calc.hasWarehouse data (Some (City.name cd)));
      destruct (Calc.hasLocker data (Some (City.name cd)));
      cbn; intuition congruence.
Qed.

(** The amended C3 from Tashkent to Samarkand: a warehouse in each city
    and no locker. *)
Lemma C3_office_postamat_witness :
  UseWarehouseCheck.shouldDisableCalculation Sample.cities
    (loadedWith [Sample.tashkentPoint; Sample.samarkandPoint] [])
    (Some Sample.tashkent) (Some Sample.samarkand) (Some OFFICE_POSTAMAT)
  = true
  /\ Calc.isCalculationDisabled
       (Sample.form (Some OFFICE_POSTAMAT) (lit "5")) Sample.cities
       (Some (Sample.data [] [])) = true.
Proof.
  destruct (C3_office_postamat Sample.cities
              (loadedWith [Sample.tashkentPoint; Sample.samarkandPoint] [])
              Sample.tashkent Sample.samarkand eq_refl) as [Hhook Hcalc].
  split.
  - apply Hhook. right. reflexivity.
  - apply (Hcalc (Sample.form (Some OFFICE_POSTAMAT) (lit "5")) Sample.cities
             (Sample.data [] []) Sample.regionTashkent Sample.regionSamarkand
             Sample.tashkent Sample.samarkand
             eq_refl eq_refl eq_refl eq_refl eq_refl).
    left. split; reflexivity.
Defined.

(** C3 (as stated) fails on the calculator: with a warehouse in Tashkent
    and in Samarkand and no locker anywhere, the destination lacks a locker
    and yet OFFICE_POSTAMAT is not disabled. *)
Lemma C3_isCalculationDisabled_counterexample :
  Calc.hasLocker
    (Sample.data [Sample.tashkentPoint; Sample.samarkandPoint] [])
    (Some (City.name Sample.samarkand)) = false
  /\ Calc.convertedDestinationCity
       (Sample.form (Some OFFICE_POSTAMAT) (lit "5")) Sample.cities
     = Some Sample.samarkand
  /\ Calc.isCalculationDisabled
       (Sample.form (Some OFFICE_POSTAMAT) (lit "5")) Sample.cities
       (Some (Sample.data [Sample.tashkentPoint; Sample.samarkandPoint] []))
     = false.
Proof. split; [|split]; reflexivity. Qed.

(** C4 (as amended).  For DOOR_DOOR with both cities given and the index
    loaded, [shouldDisableCalculation] returns false in every revision,
    whatever the warehouse and locker lists hold; [isCalculationDisabled]
    of the calculator returns false for DOOR_DOOR in every state of the
    form. *)
Theorem C4_door_door :
  forall (toLowerCase : str -> str) (cities : list City.t) (st : HookState)
         (o d : City.t) (ao ad : AnyCity),
    loading st = false ->
    UseWarehouseCheck.shouldDisableCalculation cities st (Some o) (Some d)
      (Some DOOR_DOOR) = false
    /\ RevByName.shouldDisableCalculation st (Some o) (Some d)
         (Some DOOR_DOOR) = false
    /\ RevTrim.shouldDisableCalculation toLowerCase st (Some o) (Some d)
         (Some DOOR_DOOR) = false
    /\ RevFuzzy.shouldDisableCalculation toLowerCase st (Some ao) (Some ad)
         (Some DOOR_DOOR) = false
    /\ RevFuzzyExactFirst.shouldDisableCalculation toLowerCase st (Some ao)
         (Some ad) (Some DOOR_DOOR) = false
    /\ (forall ro rd w apiCities data,
          Calc.isCalculationDisabled
            {| Calc.originCity := ro; Calc.destinationCity := rd;
               Calc.tariffType := Some DOOR_DOOR; Calc.weight := w |}
            apiCities data = false).
Proof.
  intros toLowerCase cities st o d ao ad Hload.
  unfold UseWarehouseCheck.shouldDisableCalculation,
    RevByName.shouldDisableCalculation, RevTrim.shouldDisableCalculation,
    RevFuzzy.shouldDisableCalculation,
    RevFuzzyExactFirst.shouldDisableCalculation.
  rewrite Hload.
  cbn [truthy_opt DOOR_DOOR lit truthy negb orb orEmpty].
  rewrite !disableSwitch_DOOR_DOOR.
  repeat match goal with |- _ /\ _ => split end; try reflexivity.
  intros ro rd w apiCities data. unfold Calc.isCalculationDisabled.
  cbn [Calc.originCity Calc.destinationCity Calc.tariffType].
  destruct ro; [|reflexivity]. destruct rd; [|reflexivity].
  destruct (Calc.convertedOriginCity _ _); [|reflexivity].
  destruct (Calc.convertedDestinationCity _ _); [|reflexivity].
  destruct data; reflexivity.
Qed.

(** The amended C4 on an empty index. *)
Lemma C4_door_door_witness :
  UseWarehouseCheck.shouldDisableCalculation Sample.cities
    (loadedWith [] []) (Some Sample.tashkent) (Some Sample.samarkand)
    (Some DOOR_DOOR) = false.
Proof.
  apply (C4_door_door toLowerCaseBasic Sample.cities (loadedWith [] [])
           Sample.tashkent Sample.samarkand
           (PlainCity Sample.tashkent) (PlainCity Sample.samarkand) eq_refl).
Defined.

(** C4 (as stated) fails on the availability hook: DOOR_DOOR is blocked
    while a city is missing, and while the index is loading. *)
Lemma C4_shouldDisableCalculation_counterexample :
  UseWarehouseCheck.shouldDisableCalculation Sample.cities
    (loadedWith [Sample.tashkentPoint] [Sample.tashkentPoint])
    None (Some Sample.samarkand) (Some DOOR_DOOR) = true
  /\ UseWarehouseCheck.shouldDisableCalculation Sample.cities
       {| warehouses := [Sample.tashkentPoint];
          lockers := [Sample.tashkentPoint];
          loading := true; error := None |}
       (Some Sample.tashkent) (Some Sample.samarkand) (Some DOOR_DOOR)
     = true.
Proof. split; reflexivity. Qed.

(* ===================================================================== *)
(** ** Loading the index *)
(* ===================================================================== *)

Lemma exact_lookup_listed :
  forall (pts : list Warehouse.t) (p : Warehouse.t),
    In p pts -> Warehouse.city p <> [] ->
    (if negb (truthy (Warehouse.city p)) then false
     else existsb (fun w => str_eqb (Warehouse.city w) (Warehouse.city p)) pts)
    = true.
Proof.
  intros pts p Hin Hcity. rewrite (truthy_nonempty _ Hcity). simpl.
  apply existsb_witness with (x := p); [exact Hin | apply str_eqb_refl].
Qed.

Lemma exact_lookup_only_listed :
  forall (pts : list Warehouse.t) (q : option str),
    match q with
    | None => false
    | Some n =>
        if negb (truthy n) then false
        else existsb (fun w => str_eqb (Warehouse.city w) n) pts
    end = true ->
    exists n p, q = Some n /\ In p pts /\ Warehouse.city p = n.
Proof.
  intros pts q H. destruct q as [n|]; [|discriminate].
  destruct (negb (truthy n)); [discriminate|].
  apply existsb_exists in H. destruct H as [p [Hin Hp]].
  exists n, p. repeat split; [exact Hin | apply str_eqb_eq; exact Hp].
Qed.

(** C5 (as amended).  When the warehouses request is answered with a
    status that is not OK and the lockers request with an OK status and a
    body that carries the list [l] as [data.list], the mount effect leaves
    the warehouse list empty and stores [l] as the locker list, with no
    error: [hasWarehouse] is false for every query, and [hasLocker] finds
    every non-empty city name of [l] and nothing that [l] does not name.
    The same holds with the two lists exchanged.  An OK body of another
    shape (an array as [data], no [data], no [list]) stores an empty
    list.  This is so in the hook under [src/client/hooks] and in the
    revision of [part_000]. *)
Theorem C5_partial_load :
  forall (failed : option JsonData) (l : list Warehouse.t) (p : Warehouse.t)
         (q : option str),
    let notOk := Response false failed in
    let listed := Response true (Some (DataObject (Some l))) in
    (UseWarehouseCheck.mounted notOk listed
     = {| warehouses := []; lockers := l; loading := false; error := None |}
     /\ UseWarehouseCheck.hasWarehouse
          (UseWarehouseCheck.mounted notOk listed) q = false
     /\ (In p l -> Warehouse.city p <> [] ->
         UseWarehouseCheck.hasLocker (UseWarehouseCheck.mounted notOk listed)
           (Some (Warehouse.city p)) = true)
     /\ (UseWarehouseCheck.hasLocker
           (UseWarehouseCheck.mounted notOk listed) q = true ->
         exists n p', q = Some n /\ In p' l /\ Warehouse.city p' = n)
     /\ UseWarehouseCheck.mounted listed notOk
        = {| warehouses := l; lockers := []; loading := false;
             error := None |}
     /\ UseWarehouseCheck.hasLocker
          (UseWarehouseCheck.mounted listed notOk) q = false
     /\ (In p l -> Warehouse.city p <> [] ->
         UseWarehouseCheck.hasWarehouse
           (UseWarehouseCheck.mounted listed notOk)
           (Some (Warehouse.city p)) = true))
    /\ (RevByName.mounted notOk listed
        = {| warehouses := []; lockers := l; loading := false;
             error := None |}
        /\ RevByName.hasWarehouse (RevByName.mounted notOk listed) q = false
        /\ (In p l -> Warehouse.city p <> [] ->
            RevByName.hasLocker (RevByName.mounted notOk listed)
              (Some (Warehouse.city p)) = true)
        /\ (RevByName.hasLocker (RevByName.mounted notOk listed) q = true ->
            exists n p', q = Some n /\ In p' l /\ Warehouse.city p' = n)
        /\ RevByName.mounted listed notOk
           = {| warehouses := l; lockers := []; loading := false;
                error := None |}
        /\ RevByName.hasLocker (RevByName.mounted listed notOk) q = false
        /\ (In p l -> Warehouse.city p <> [] ->
            RevByName.hasWarehouse (RevByName.mounted listed notOk)
              (Some (Warehouse.city p)) = true))
    /\ (forall shape,
          shape = DataArray l \/ shape = DataMissing
          \/ shape = DataObject None ->
          UseWarehouseCheck.mounted notOk (Response true (Some shape))
          = {| warehouses := []; lockers := []; loading := false;
               error := None |}
          /\ RevByName.mounted notOk (Response true (Some shape))
             = {| warehouses := []; lockers := []; loading := false;
                  error := None |}).
Proof.
  intros failed l p q notOk listed.
  assert (H1 : UseWarehouseCheck.mounted notOk listed
               = {| warehouses := []; lockers := l; loading := false;
                    error := None |}) by reflexivity.
  assert (H2 : UseWarehouseCheck.mounted listed notOk
               = {| warehouses := l; lockers := []; loading := false;
                    error := None |}) by reflexivity.
  assert (H3 : RevByName.mounted notOk listed
               = {| warehouses := []; lockers := l; loading := false;
                    error := None |}) by reflexivity.
  assert (H4 : RevByName.mounted listed notOk
               = {| warehouses := l; lockers := []; loading := false;
                    error := None |}) by reflexivity.
  rewrite H1, H2, H3, H4.
  split; [|split].
  - repeat match goal with |- _ /\ _ => split end;
      try reflexivity;
      try (destruct q as [[|c r]|]; reflexivity);
      try (intros Hin Hcity; apply (exact_lookup_listed l p Hin Hcity));
      intro H; apply (exact_lookup_only_listed l q H).
  - repeat match goal with |- _ /\ _ => split end;
      try reflexivity;
      try (destruct q as [[|c r]|]; reflexivity);
      try (intros Hin Hcity; apply (exact_lookup_listed l p Hin Hcity));
      intro H; apply (exact_lookup_only_listed l q H).
  - intros shape [E | [E | E]]; subst shape; split; reflexivity.
Qed.

(** The amended C5 with the locker list [Tashkent, Samarkand] behind a
    warehouses response that is not OK. *)
Lemma C5_partial_load_witness :
  UseWarehouseCheck.mounted (Response false None)
    (Response true
       (Some (DataObject (Some [Sample.tashkentPoint;
                                Sample.samarkandPoint]))))
  = {| warehouses := [];
       lockers := [Sample.tashkentPoint; Sample.samarkandPoint];
       loading := false; error := None |}
  /\ UseWarehouseCheck.hasLocker
       (UseWarehouseCheck.mounted (Response false None)
          (Response true
             (Some (DataObject (Some [Sample.tashkentPoint;
                                      Sample.samarkandPoint])))))
       (Some (lit "Samarkand")) = true
  /\ UseWarehouseCheck.hasWarehouse
       (UseWarehouseCheck.mounted (Response false None)
          (Response true
             (Some (DataObject (Some [Sample.tashkentPoint;
                                      Sample.samarkandPoint])))))
       (Some (lit "Samarkand")) = false
  /\ UseWarehouseCheck.mounted (Response false None)
       (Response true
          (Some (DataArray [Sample.tashkentPoint; Sample.samarkandPoint])))
     = {| warehouses := []; lockers := []; loading := false;
          error := None |}.
Proof.
  destruct (C5_partial_load None
              [Sample.tashkentPoint; Sample.samarkandPoint]
              Sample.samarkandPoint (Some (lit "Samarkand")))
    as [[Hstate [Hnone [Hfound _]]] [_ Hshape]].
  split; [exact Hstate|]. split; [|split; [exact Hnone|]].
  - apply Hfound; [simpl; tauto | discriminate].
  - apply (Hshape (DataArray [Sample.tashkentPoint; Sample.samarkandPoint])).
    left. reflexivity.
Defined.

(** C5 (as stated) fails when the warehouses request fails by rejecting,
    or by a body that does not parse: the locker list that the lockers
    request would deliver is never stored, and [hasLocker] is false for a
    city that list names. *)
Lemma C5_rejected_fetch_counterexample :
  lockers (UseWarehouseCheck.mounted Rejected
             (Response true (Some (DataObject (Some [Sample.tashkentPoint])))))
  = []
  /\ UseWarehouseCheck.hasLocker
       (UseWarehouseCheck.mounted Rejected
          (Response true (Some (DataObject (Some [Sample.tashkentPoint])))))
       (Some (lit "Tashkent")) = false
  /\ UseWarehouseCheck.hasLocker
       (UseWarehouseCheck.mounted (Response true None)
          (Response true (Some (DataObject (Some [Sample.tashkentPoint])))))
       (Some (lit "Tashkent")) = false
  /\ UseWarehouseCheck.hasLocker
       (loadedWith [] [Sample.tashkentPoint]) (Some (lit "Tashkent"))
     = true
  /\ RevByName.hasLocker
       (RevByName.mounted Rejected
          (Response true (Some (DataObject (Some [Sample.tashkentPoint])))))
       (Some (lit "Tashkent")) = false.
Proof. repeat match goal with |- _ /\ _ => split end; reflexivity. Qed.

(* ===================================================================== *)
(** ** The warning *)
(* ===================================================================== *)

(** C6.  For OFFICE_OFFICE with the index loaded: when neither city has a
    warehouse the warning is shown and its message is the combined message
    [noWarehouses] of the table, as it stands, not a message about one
    city; when only the origin lacks a warehouse the message is
    [noOriginWarehouse] formatted with the origin name, and when only the
    destination lacks one it is [noDestinationWarehouse] formatted with
    the destination name.  This holds in the hook under [src/client/hooks]
    and in the third revision of [part_001]. *)
Theorem C6_office_office_warning :
  forall (toLowerCase : str -> str) (i18n : I18n) (cities : list City.t)
         (st : HookState) (o d : option City.t) (ao ad : option AnyCity),
    loading st = false ->
    let oname := UseWarehouseCheck.getCityNameById cities
                   (UseWarehouseCheck.idOrNull o) in
    let dname := UseWarehouseCheck.getCityNameById cities
                   (UseWarehouseCheck.idOrNull d) in
    let ow := UseWarehouseCheck.hasWarehouse st oname in
    let dw := UseWarehouseCheck.hasWarehouse st dname in
    let aow := RevFuzzy.hasWarehouse toLowerCase st (getDisplayName ao) in
    let adw := RevFuzzy.hasWarehouse toLowerCase st (getDisplayName ad) in
    (ow = false -> dw = false ->
     UseWarehouseCheck.shouldShowWarehouseWarning i18n cities st o d
       (Some OFFICE_OFFICE)
     = {| show := true; message := noWarehouses i18n |})
    /\ (ow = false -> dw = true ->
        UseWarehouseCheck.shouldShowWarehouseWarning i18n cities st o d
          (Some OFFICE_OFFICE)
        = {| show := true;
             message := formatMessage i18n (noOriginWarehouse i18n)
                          [("city"%string, Some (orEmpty oname))] |})
    /\ (ow = true -> dw = false ->
        UseWarehouseCheck.shouldShowWarehouseWarning i18n cities st o d
          (Some OFFICE_OFFICE)
        = {| show := true;
             message := formatMessage i18n (noDestinationWarehouse i18n)
                          [("city"%string, Some (orEmpty dname))] |})
    /\ (aow = false -> adw = false ->
        RevFuzzy.shouldShowWarehouseWarning toLowerCase i18n st ao ad
          (Some OFFICE_OFFICE)
        = {| show := true; message := noWarehouses i18n |})
    /\ (aow = false -> adw = true ->
        RevFuzzy.shouldShowWarehouseWarning toLowerCase i18n st ao ad
          (Some OFFICE_OFFICE)
        = {| show := true;
             message := formatMessage i18n (noOriginWarehouse i18n)
                          [("city"%string,
                            Some (orEmpty (getDisplayName ao)))] |})
    /\ (aow = true -> adw = false ->
        RevFuzzy.shouldShowWarehouseWarning toLowerCase i18n st ao ad
          (Some OFFICE_OFFICE)
        = {| show := true;
             message := formatMessage i18n (noDestinationWarehouse i18n)
                          [("city"%string,
                            Some (orEmpty (getDisplayName ad)))] |}).
Proof.
  intros toLowerCase i18n cities st o d ao ad Hload oname dname ow dw aow adw.
  unfold UseWarehouseCheck.shouldShowWarehouseWarning,
    RevFuzzy.shouldShowWarehouseWarning.
  rewrite Hload. cbv zeta.
  fold oname dname. fold ow dw. fold aow adw.
  repeat match goal with |- _ /\ _ => split end;
    intros H1 H2; rewrite H1, H2; reflexivity.
Qed.

(** C6 with a warehouse in Tashkent only, or none: the three messages in
    the exact-match hook, and in the third revision of [part_001] with a
    region-scoped Samarkand. *)
Lemma C6_office_office_warning_witness :
  (UseWarehouseCheck.shouldShowWarehouseWarning Sample.i18n Sample.cities
     (loadedWith [] []) (Some Sample.tashkent) (Some Sample.samarkand)
     (Some OFFICE_OFFICE)
   = {| show := true; message := lit "noWarehouses" |}
   /\ UseWarehouseCheck.shouldShowWarehouseWarning Sample.i18n Sample.cities
        (loadedWith [Sample.tashkentPoint] [])
        (Some Sample.tashkent) (Some Sample.samarkand) (Some OFFICE_OFFICE)
      = {| show := true;
           message := lit "noDestinationWarehouse Samarkand" |}
   /\ UseWarehouseCheck.shouldShowWarehouseWarning Sample.i18n Sample.cities
        (loadedWith [Sample.tashkentPoint] [])
        (Some Sample.samarkand) (Some Sample.tashkent) (Some OFFICE_OFFICE)
      = {| show := true; message := lit "noOriginWarehouse Samarkand" |})
  /\ (RevFuzzy.shouldShowWarehouseWarning toLowerCaseBasic Sample.i18n
        (loadedWith [] [])
        (Some (PlainCity Sample.tashkent))
        (Some (RegionScoped Sample.regionSamarkand)) (Some OFFICE_OFFICE)
      = {| show := true; message := lit "noWarehouses" |}
      /\ RevFuzzy.shouldShowWarehouseWarning toLowerCaseBasic Sample.i18n
           (loadedWith [Sample.tashkentPoint] [])
           (Some (PlainCity Sample.tashkent))
           (Some (RegionScoped Sample.regionSamarkand)) (Some OFFICE_OFFICE)
         = {| show := true;
              message := lit "noDestinationWarehouse Samarkand" |}
      /\ RevFuzzy.shouldShowWarehouseWarning toLowerCaseBasic Sample.i18n
           (loadedWith [Sample.tashkentPoint] [])
           (Some (RegionScoped Sample.regionSamarkand))
           (Some (PlainCity Sample.tashkent)) (Some OFFICE_OFFICE)
         = {| show := true;
              message := lit "noOriginWarehouse Samarkand" |}).
Proof.
  pose proof (C6_office_office_warning toLowerCaseBasic Sample.i18n
                Sample.cities (loadedWith [] [])
                (Some Sample.tashkent) (Some Sample.samarkand)
                (Some (PlainCity Sample.tashkent))
                (Some (RegionScoped Sample.regionSamarkand)) eq_refl) as E.
  pose proof (C6_office_office_warning toLowerCaseBasic Sample.i18n
                Sample.cities (loadedWith [Sample.tashkentPoint] [])
                (Some Sample.tashkent) (Some Sample.samarkand)
                (Some (PlainCity Sample.tashkent))
                (Some (RegionScoped Sample.regionSamarkand)) eq_refl) as T.
  pose proof (C6_office_office_warning toLowerCaseBasic Sample.i18n
                Sample.cities (loadedWith [Sample.tashkentPoint] [])
                (Some Sample.samarkand) (Some Sample.tashkent)
                (Some (RegionScoped Sample.regionSamarkand))
                (Some (PlainCity Sample.tashkent)) eq_refl) as S.
  cbv zeta in E, T, S.
  destruct E as [E1 [_ [_ [E4 _]]]].
  destruct T as [_ [_ [T3 [_ [_ T6]]]]].
  destruct S as [_ [S2 [_ [_ [S5 _]]]]].
  split; split; [|split| |split].
  - exact (E1 eq_refl eq_refl).
  - exact (T3 eq_refl eq_refl).
  - exact (S2 eq_refl eq_refl).
  - exact (E4 eq_refl eq_refl).
  - exact (T6 eq_refl eq_refl).
  - exact (S5 eq_refl eq_refl).
Defined.

(* ===================================================================== *)
(** ** Null, empty and unlisted queries *)
(* ===================================================================== *)

Lemma someThrowing_typed :
  forall (g : RawPoint -> option bool) (f : Warehouse.t -> bool)
         (ws : list Warehouse.t),
    (forall w, g (rawPoint w) = Some (f w)) ->
    someThrowing g (map rawPoint ws) = Some (existsb f ws).
Proof.
  intros g f ws H. induction ws as [|w r IH]; [reflexivity|].
  simpl. rewrite H. destruct (f w); [reflexivity | exact IH].
Qed.

Lemma find_existsb :
  forall (A : Type) (f : A -> bool) (l : list A) (x : bool),
    match find f l with Some _ => true | None => x end
    = if existsb f l then true else x.
Proof.
  intros A f l x. induction l as [|a r IH]; [reflexivity|].
  simpl. destruct (f a); [reflexivity | exact IH].
Qed.

Lemma searchWarehouses_typed :
  forall (toLowerCase : str -> str) (ns : str) (ws : list Warehouse.t),
    RevFuzzyExactFirstRaw.searchWarehouses toLowerCase ns (map rawPoint ws)
    = Some (RevFuzzyExactFirst.searchWarehouses toLowerCase ns ws).
Proof.
  intros toLowerCase ns ws. induction ws as [|[i nm c] r IH]; [reflexivity|].
  cbn [map rawPoint RevFuzzyExactFirstRaw.searchWarehouses
       RevFuzzyExactFirst.searchWarehouses rawCity Warehouse.city].
  cbv zeta.
  destruct (str_eqb _ ns); [reflexivity|].
  destruct (includes _ ns); [reflexivity|].
  destruct (includes ns _); [reflexivity|].
  destruct (RevFuzzyExactFirst.wordMatch _ _); [reflexivity | exact IH].
Qed.

Lemma searchLockers_typed :
  forall (toLowerCase : str -> str) (ns : str) (ls : list Warehouse.t),
    RevFuzzyExactFirstRaw.searchLockers toLowerCase ns (map rawPoint ls)
    = Some (RevFuzzyExactFirst.searchLockers toLowerCase ns ls).
Proof.
  intros toLowerCase ns ls. induction ls as [|[i nm c] r IH]; [reflexivity|].
  cbn [map rawPoint RevFuzzyExactFirstRaw.searchLockers
       RevFuzzyExactFirst.searchLockers rawCity Warehouse.city].
  cbv zeta.
  destruct (str_eqb _ ns || includes _ ns || includes ns _);
    [reflexivity | exact IH].
Qed.

(** On a state of the declared type the exact-match lookups never throw,
    and they return what the predicates of the embedding return. *)
Lemma exact_lookups_on_typed_state :
  forall (st : HookState) (q : option str),
    UseWarehouseCheckRaw.hasWarehouse (rawState st) q
    = Some (UseWarehouseCheck.hasWarehouse st q)
    /\ UseWarehouseCheckRaw.hasLocker (rawState st) q
       = Some (UseWarehouseCheck.hasLocker st q)
    /\ RevByNameRaw.hasWarehouse (rawState st) q
       = Some (RevByName.hasWarehouse st q)
    /\ RevByNameRaw.hasLocker (rawState st) q
       = Some (RevByName.hasLocker st q).
Proof.
  intros st q. destruct q as [n|]; [|repeat split].
  unfold UseWarehouseCheckRaw.hasWarehouse, UseWarehouseCheckRaw.hasLocker,
    RevByNameRaw.hasWarehouse, RevByNameRaw.hasLocker,
    UseWarehouseCheck.hasWarehouse, UseWarehouseCheck.hasLocker,
    RevByName.hasWarehouse, RevByName.hasLocker, rawState.
  cbn [rawWarehouses rawLockers].
  destruct (negb (truthy n)); [repeat split|].
  repeat split; apply someThrowing_typed; intro w; reflexivity.
Qed.

(** The same for the lookups of the three revisions of [part_001]. *)
Lemma folding_lookups_on_typed_state :
  forall (toLowerCase : str -> str) (st : HookState) (q : option str),
    RevFuzzyExactFirstRaw.hasWarehouse toLowerCase (rawState st) q
    = Some (RevFuzzyExactFirst.hasWarehouse toLowerCase st q)
    /\ RevFuzzyExactFirstRaw.hasLocker toLowerCase (rawState st) q
       = Some (RevFuzzyExactFirst.hasLocker toLowerCase st q)
    /\ RevTrimRaw.hasWarehouse toLowerCase (rawState st) q
       = Some (RevTrim.hasWarehouse toLowerCase st q)
    /\ RevTrimRaw.hasLocker toLowerCase (rawState st) q
       = Some (RevTrim.hasLocker toLowerCase st q)
    /\ RevFuzzyRaw.hasWarehouse toLowerCase (rawState st) q
       = Some (RevFuzzy.hasWarehouse toLowerCase st q)
    /\ RevFuzzyRaw.hasLocker toLowerCase (rawState st) q
       = Some (RevFuzzy.hasLocker toLowerCase st q).
Proof.
  intros toLowerCase st q.
  assert (Hcb : forall ns w,
            RevFuzzyRaw.callback toLowerCase ns (rawPoint w)
            = Some (RevFuzzy.cityMatches toLowerCase ns w)).
  { intros ns [i nm c]. reflexivity. }
  assert (Hexact : forall n ws,
            match someThrowing
                    (RevFuzzyExactFirstRaw.exactCallback toLowerCase n)
                    (map rawPoint ws) with
            | None => None
            | Some true => Some true
            | Some false => Some false
            end
            = Some (existsb
                      (fun w => str_eqb (toLowerCase (Warehouse.city w))
                                        (toLowerCase n)) ws)).
  { intros n ws. rewrite someThrowing_typed
      with (f := fun w => str_eqb (toLowerCase (Warehouse.city w))
                                  (toLowerCase n)).
    - destruct (existsb _ ws); reflexivity.
    - intro w. reflexivity. }
  destruct q as [n|]; [|repeat split].
  unfold RevFuzzyExactFirstRaw.hasWarehouse, RevFuzzyExactFirstRaw.hasLocker,
    RevTrimRaw.hasWarehouse, RevTrimRaw.hasLocker,
    RevFuzzyRaw.hasWarehouse, RevFuzzyRaw.hasLocker,
    RevFuzzyExactFirst.hasWarehouse, RevFuzzyExactFirst.hasLocker,
    RevTrim.hasWarehouse, RevTrim.hasLocker,
    RevFuzzy.hasWarehouse, RevFuzzy.hasLocker, rawState, lengthIsZeroOf.
  cbn [rawWarehouses rawLockers]. rewrite !length_map.
  destruct (negb (truthy n)); [repeat split|]. cbn [orb]. cbv zeta.
  split; [|split; [|split; [|split; [|split]]]].
  - destruct (Nat.eqb (List.length (warehouses st)) 0); [reflexivity|].
    rewrite find_existsb.
    rewrite someThrowing_typed
      with (f := fun w => str_eqb (toLowerCase (Warehouse.city w))
                                  (toLowerCase n));
      [|intro w; reflexivity].
    destruct (existsb _ (warehouses st)); [reflexivity|].
    apply searchWarehouses_typed.
  - destruct (Nat.eqb (List.length (lockers st)) 0); [reflexivity|].
    rewrite find_existsb.
    rewrite someThrowing_typed
      with (f := fun w => str_eqb (toLowerCase (Warehouse.city w))
                                  (toLowerCase n));
      [|intro w; reflexivity].
    destruct (existsb _ (lockers st)); [reflexivity|].
    apply searchLockers_typed.
  - destruct (Nat.eqb (List.length (warehouses st)) 0); [reflexivity|].
    apply someThrowing_typed. intro w. reflexivity.
  - destruct (Nat.eqb (List.length (lockers st)) 0); [reflexivity|].
    apply someThrowing_typed. intro w. reflexivity.
  - destruct (Nat.eqb (List.length (warehouses st)) 0); [reflexivity|].
    apply someThrowing_typed. apply Hcb.
  - destruct (Nat.eqb (List.length (lockers st)) 0); [reflexivity|].
    apply someThrowing_typed. apply Hcb.
Qed.

(** C7 (as amended).  In every revision [hasWarehouse] and [hasLocker]
    return false, and do not throw, for the null query and for the empty
    string whatever the two cells hold, and for every query when the cell
    they read holds the empty array.  On a state of the declared type
    (each cell an array of points that carry a city) they never throw, for
    any query: there they return the value of the predicates of this
    development. *)
Theorem C7_null_empty_queries :
  forall (toLowerCase : str -> str) (raw : RawState) (other : RawCell)
         (st : HookState) (q : option str),
    (UseWarehouseCheckRaw.hasWarehouse raw None = Some false
     /\ UseWarehouseCheckRaw.hasWarehouse raw (Some []) = Some false
     /\ UseWarehouseCheckRaw.hasLocker raw None = Some false
     /\ UseWarehouseCheckRaw.hasLocker raw (Some []) = Some false
     /\ RevByNameRaw.hasWarehouse raw None = Some false
     /\ RevByNameRaw.hasWarehouse raw (Some []) = Some false
     /\ RevByNameRaw.hasLocker raw None = Some false
     /\ RevByNameRaw.hasLocker raw (Some []) = Some false
     /\ RevFuzzyExactFirstRaw.hasWarehouse toLowerCase raw None = Some false
     /\ RevFuzzyExactFirstRaw.hasWarehouse toLowerCase raw (Some [])
        = Some false
     /\ RevFuzzyExactFirstRaw.hasLocker toLowerCase raw None = Some false
     /\ RevFuzzyExactFirstRaw.hasLocker toLowerCase raw (Some []) = Some false
     /\ RevTrimRaw.hasWarehouse toLowerCase raw None = Some false
     /\ RevTrimRaw.hasWarehouse toLowerCase raw (Some []) = Some false
     /\ RevTrimRaw.hasLocker toLowerCase raw None = Some false
     /\ RevTrimRaw.hasLocker toLowerCase raw (Some []) = Some false
     /\ RevFuzzyRaw.hasWarehouse toLowerCase raw None = Some false
     /\ RevFuzzyRaw.hasWarehouse toLowerCase raw (Some []) = Some false
     /\ RevFuzzyRaw.hasLocker toLowerCase raw None = Some false
     /\ RevFuzzyRaw.hasLocker toLowerCase raw (Some []) = Some false)
    /\ (UseWarehouseCheckRaw.hasWarehouse
          {| rawWarehouses := RawArray []; rawLockers := other |} q
        = Some false
        /\ UseWarehouseCheckRaw.hasLocker
             {| rawWarehouses := other; rawLockers := RawArray [] |} q
           = Some false
        /\ RevByNameRaw.hasWarehouse
             {| rawWarehouses := RawArray []; rawLockers := other |} q
           = Some false
        /\ RevByNameRaw.hasLocker
             {| rawWarehouses := other; rawLockers := RawArray [] |} q
           = Some false
        /\ RevFuzzyExactFirstRaw.hasWarehouse toLowerCase
             {| rawWarehouses := RawArray []; rawLockers := other |} q
           = Some false
        /\ RevFuzzyExactFirstRaw.hasLocker toLowerCase
             {| rawWarehouses := other; rawLockers := RawArray [] |} q
           = Some false
        /\ RevTrimRaw.hasWarehouse toLowerCase
             {| rawWarehouses := RawArray []; rawLockers := other |} q
           = Some false
        /\ RevTrimRaw.hasLocker toLowerCase
             {| rawWarehouses := other; rawLockers := RawArray [] |} q
           = Some false
        /\ RevFuzzyRaw.hasWarehouse toLowerCase
             {| rawWarehouses := RawArray []; rawLockers := other |} q
           = Some false
        /\ RevFuzzyRaw.hasLocker toLowerCase
             {| rawWarehouses := other; rawLockers := RawArray [] |} q
           = Some false)
    /\ (UseWarehouseCheckRaw.hasWarehouse (rawState st) q
        = Some (UseWarehouseCheck.hasWarehouse st q)
        /\ UseWarehouseCheckRaw.hasLocker (rawState st) q
           = Some (UseWarehouseCheck.hasLocker st q)
        /\ RevByNameRaw.hasWarehouse (rawState st) q
           = Some (RevByName.hasWarehouse st q)
        /\ RevByNameRaw.hasLocker (rawState st) q
           = Some (RevByName.hasLocker st q)
        /\ RevFuzzyExactFirstRaw.hasWarehouse toLowerCase (rawState st) q
           = Some (RevFuzzyExactFirst.hasWarehouse toLowerCase st q)
        /\ RevFuzzyExactFirstRaw.hasLocker toLowerCase (rawState st) q
           = Some (RevFuzzyExactFirst.hasLocker toLowerCase st q)
        /\ RevTrimRaw.hasWarehouse toLowerCase (rawState st) q
           = Some (RevTrim.hasWarehouse toLowerCase st q)
        /\ RevTrimRaw.hasLocker toLowerCase (rawState st) q
           = Some (RevTrim.hasLocker toLowerCase st q)
        /\ RevFuzzyRaw.hasWarehouse toLowerCase (rawState st) q
           = Some (RevFuzzy.hasWarehouse toLowerCase st q)
        /\ RevFuzzyRaw.hasLocker toLowerCase (rawState st) q
           = Some (RevFuzzy.hasLocker toLowerCase st q)).
Proof.
  intros toLowerCase raw other st q.
  split; [repeat split|].
  split; [destruct q as [[|c r]|]; repeat split|].
  destruct (exact_lookups_on_typed_state st q) as [E1 [E2 [E3 E4]]].
  destruct (folding_lookups_on_typed_state toLowerCase st q)
    as [F1 [F2 [F3 [F4 [F5 F6]]]]].
  repeat split; assumption.
Qed.

(** C7 (as stated) fails on what the cells can hold.  In the second
    revision of [part_001] a warehouses body whose [data] is an object
    without a [list] is stored as read, and [hasWarehouse] then throws for
    a query that is not empty; so does every revision on a cell that holds
    a value other than an array.  In the three revisions of [part_001] a
    listed point without a city makes the lookups throw. *)
Lemma C7_lookup_throws_counterexample :
  rawCells false
    (RevTrim.mountedCells (Response true (Some (DataObject None)))
       (Response true (Some (DataObject (Some [Sample.tashkentPoint])))))
  = {| rawWarehouses := NotArray false;
       rawLockers := RawArray [rawPoint Sample.tashkentPoint] |}
  /\ RevTrimRaw.hasWarehouse toLowerCaseBasic
       (rawCells false
          (RevTrim.mountedCells (Response true (Some (DataObject None)))
             (Response true
                (Some (DataObject (Some [Sample.tashkentPoint]))))))
       (Some (lit "Tashkent")) = None
  /\ RevTrimRaw.hasLocker toLowerCaseBasic
       (rawCells false
          (RevTrim.mountedCells (Response true (Some (DataObject None)))
             (Response true
                (Some (DataObject (Some [Sample.tashkentPoint]))))))
       (Some (lit "Tashkent")) = Some true
  /\ UseWarehouseCheckRaw.hasWarehouse
       {| rawWarehouses := NotArray false; rawLockers := RawArray [] |}
       (Some (lit "Tashkent")) = None
  /\ RevByNameRaw.hasLocker
       {| rawWarehouses := RawArray []; rawLockers := NotArray false |}
       (Some (lit "Tashkent")) = None
  /\ RevFuzzyExactFirstRaw.hasWarehouse toLowerCaseBasic
       {| rawWarehouses := RawArray [Sample.pointWithoutCity];
          rawLockers := RawArray [] |}
       (Some (lit "Tashkent")) = None
  /\ RevTrimRaw.hasLocker toLowerCaseBasic
       {| rawWarehouses := RawArray [];
          rawLockers := RawArray [Sample.pointWithoutCity] |}
       (Some (lit "Tashkent")) = None
  /\ RevFuzzyRaw.hasWarehouse toLowerCaseBasic
       {| rawWarehouses := RawArray [Sample.pointWithoutCity];
          rawLockers := RawArray [] |}
       (Some (lit "Tashkent")) = None
  /\ RevFuzzyRaw.hasLocker toLowerCaseBasic
       {| rawWarehouses := RawArray [];
          rawLockers := RawArray [Sample.pointWithoutCity] |}
       (Some (lit "Tashkent")) = None.
Proof. repeat split. Qed.

(* ===================================================================== *)
(** ** Warning and disable check agree *)
(* ===================================================================== *)

Lemma getCityNameById_idOrNull :
  forall cities (c : City.t),
    UseWarehouseCheck.getCityNameById cities
      (UseWarehouseCheck.idOrNull (Some c))
    = UseWarehouseCheck.getCityNameById cities (Some (City.id c)).
Proof.
  intros cities c. unfold UseWarehouseCheck.idOrNull.
  destruct (Z.eqb (City.id c) 0) eqn:E; [|reflexivity].
  simpl. rewrite E. reflexivity.
Qed.

(** Deciding a comparison of the tariff type with one of the constants:
    when it holds the tariff type is replaced by the constant. *)
Ltac tariff_case t C :=
  let E := fresh "E" in
  destruct (str_eqb t C) eqn:E;
  [ apply str_eqb_eq in E; subst t | ].

(** C8.  In the exact-match hook, for an origin city, a destination city
    and a tariff type that are not null and with the index loaded: when
    [shouldShowWarehouseWarning] returns a warning to show,
    [shouldDisableCalculation] returns true. *)
Theorem C8_warning_implies_disabled :
  forall (i18n : I18n) (cities : list City.t) (st : HookState)
         (o d : City.t) (t : str),
    loading st = false ->
    show (UseWarehouseCheck.shouldShowWarehouseWarning i18n cities st
            (Some o) (Some d) (Some t)) = true ->
    UseWarehouseCheck.shouldDisableCalculation cities st
      (Some o) (Some d) (Some t) = true.
Proof.
  intros i18n cities st o d t Hload.
  unfold UseWarehouseCheck.shouldShowWarehouseWarning,
    UseWarehouseCheck.shouldDisableCalculation.
  rewrite Hload, !getCityNameById_idOrNull. cbv zeta.
  cbn [truthy_opt orEmpty].
  destruct (truthy t); cbn [negb orb]; [|discriminate].
  set (ow := UseWarehouseCheck.hasWarehouse st _).
  set (dw := UseWarehouseCheck.hasWarehouse st _).
  set (dl := UseWarehouseCheck.hasLocker st _).
  unfold disableSwitch, orReturn.
  tariff_case t OFFICE_OFFICE.
  { destruct ow, dw; cbn; congruence. }
  tariff_case t OFFICE_DOOR.
  { destruct ow; cbn; congruence. }
  tariff_case t DOOR_OFFICE.
  { destruct dw; cbn; congruence. }
  tariff_case t OFFICE_POSTAMAT.
  { destruct ow, dl; cbn; congruence. }
  tariff_case t DOOR_POSTAMAT.
  { destruct dl; cbn; congruence. }
  cbn. discriminate.
Qed.

(** C8 for OFFICE_DOOR out of Samarkand, where no warehouse is listed. *)
Lemma C8_warning_implies_disabled_witness :
  UseWarehouseCheck.shouldDisableCalculation Sample.cities
    (loadedWith [Sample.tashkentPoint] [])
    (Some Sample.samarkand) (Some Sample.tashkent) (Some OFFICE_DOOR) = true.
Proof.
  apply (C8_warning_implies_disabled Sample.i18n Sample.cities
           (loadedWith [Sample.tashkentPoint] [])
           Sample.samarkand Sample.tashkent OFFICE_DOOR eq_refl).
  reflexivity.
Defined.

(* ===================================================================== *)
(** ** The calculator: warning without block, and the weight field *)
(* ===================================================================== *)

(** C9.  [createWarehouseWarning] returns a warning that is not shown for
    every tariff type that does not contain OFFICE, whatever the form, the
    API cities and the availability data are; DOOR_POSTAMAT and DOOR_DOOR
    are such tariff types.  Yet for DOOR_POSTAMAT, when both cities are
    found and the destination has neither a warehouse nor a locker,
    [isCalculationDisabled] returns true: the calculation is blocked and
    no warning is shown. *)
Theorem C9_blocked_without_warning :
  forall (i18n : I18n) (form : Calc.RegionBasedTariffCalculatorForm)
         (apiCities : list City.t) (data : option Calc.WarehouseData),
    (forall t, Calc.tariffType form = Some t ->
               includes t (lit "OFFICE") = false ->
               Calc.show (Calc.createWarehouseWarning i18n form apiCities data)
               = false)
    /\ includes DOOR_POSTAMAT (lit "OFFICE") = false
    /\ includes DOOR_DOOR (lit "OFFICE") = false
    /\ (forall ro rd co cd wd,
          Calc.originCity form = Some ro ->
          Calc.destinationCity form = Some rd ->
          Calc.tariffType form = Some DOOR_POSTAMAT ->
          Calc.convertedOriginCity form apiCities = Some co ->
          Calc.convertedDestinationCity form apiCities = Some cd ->
          data = Some wd ->
          Calc.hasWarehouse wd (Some (City.name cd)) = false ->
          Calc.hasLocker wd (Some (City.name cd)) = false ->
          Calc.isCalculationDisabled form apiCities data = true
          /\ Calc.show (Calc.createWarehouseWarning i18n form apiCities data)
             = false).
Proof.
  intros i18n form apiCities data.
  assert (Hshow : forall t, Calc.tariffType form = Some t ->
                    includes t (lit "OFFICE") = false ->
                    Calc.show (Calc.createWarehouseWarning i18n form
                                 apiCities data) = false).
  { intros t Ht Hinc. unfold Calc.createWarehouseWarning. rewrite Ht.
    destruct (Calc.originCity form); [|reflexivity].
    destruct (Calc.destinationCity form); [|reflexivity].
    destruct (Calc.convertedOriginCity form apiCities); [|reflexivity].
    destruct (Calc.convertedDestinationCity form apiCities); [|reflexivity].
    destruct data; [|reflexivity].
    destruct (negb (truthy t)); [reflexivity|].
    rewrite Hinc. reflexivity. }
  split; [exact Hshow|]. split; [reflexivity|]. split; [reflexivity|].
  intros ro rd co cd wd Ho Hd Ht Hco Hcd Hdata Hw Hl. split.
  - unfold Calc.isCalculationDisabled.
    rewrite Ho, Hd, Ht, Hco, Hcd, Hdata.
    change (negb (truthy DOOR_POSTAMAT)) with false.
    change (startsWith DOOR_POSTAMAT (lit "OFFICE")) with false.
    change (endsWith DOOR_POSTAMAT (lit "OFFICE")) with false.
    change (endsWith DOOR_POSTAMAT (lit "POSTAMAT")) with true.
    cbv zeta. rewrite Hw, Hl. reflexivity.
  - apply (Hshow DOOR_POSTAMAT Ht). reflexivity.
Qed.

(** C9 from Tashkent to Samarkand with DOOR_POSTAMAT and an index that
    lists Tashkent only. *)
Lemma C9_blocked_without_warning_witness :
  Calc.isCalculationDisabled
    (Sample.form (Some DOOR_POSTAMAT) (lit "5")) Sample.cities
    (Some (Sample.data [Sample.tashkentPoint] [Sample.tashkentPoint])) = true
  /\ Calc.show
       (Calc.createWarehouseWarning Sample.i18n
          (Sample.form (Some DOOR_POSTAMAT) (lit "5")) Sample.cities
          (Some (Sample.data [Sample.tashkentPoint] [Sample.tashkentPoint])))
     = false.
Proof.
  apply (proj2 (proj2 (proj2
           (C9_blocked_without_warning Sample.i18n
              (Sample.form (Some DOOR_POSTAMAT) (lit "5")) Sample.cities
              (Some (Sample.data [Sample.tashkentPoint]
                                 [Sample.tashkentPoint])))))
           Sample.regionTashkent Sample.regionSamarkand
           Sample.tashkent Sample.samarkand
           (Sample.data [Sample.tashkentPoint] [Sample.tashkentPoint])
           eq_refl eq_refl eq_refl eq_refl eq_refl eq_refl eq_refl eq_refl).
Defined.

Lemma isDigit_not_space : forall c, isDigit c = true -> isWhiteSpace c = false.
Proof.
  intros c H. unfold isDigit, in_range in H.
  apply andb_true_iff in H. destruct H as [H1 H2].
  apply N.leb_le in H1. apply N.leb_le in H2.
  unfold isWhiteSpace, in_range.
  repeat match goal with
         | |- context [N.leb ?a ?b] =>
             destruct (N.leb_spec a b); try lia
         | |- context [N.eqb ?a ?b] =>
             destruct (N.eqb_spec a b); try lia
         end; reflexivity.
Qed.

Lemma readDigits_app :
  forall ds acc n rest,
    forallb isDigit ds = true -> endsNumber rest = true ->
    readDigits (ds ++ rest) acc n
    = (fold_left (fun a c => (a * 10 + (c - 48))%N) ds acc,
       (n + List.length ds)%nat, rest).
Proof.
  induction ds as [|c r IH]; intros acc n rest Hds Hrest.
  - simpl. rewrite Nat.add_0_r. destruct rest as [|c r]; [reflexivity|].
    simpl in *. apply negb_true_iff in Hrest.
    apply orb_false_iff in Hrest. destruct Hrest as [Hrest _].
    apply orb_false_iff in Hrest. destruct Hrest as [Hrest _].
    apply orb_false_iff in Hrest. destruct Hrest as [Hrest _].
    rewrite Hrest. reflexivity.
  - simpl in Hds. apply andb_true_iff in Hds. destruct Hds as [Hc Hr].
    simpl. rewrite Hc. rewrite IH by assumption.
    rewrite Nat.add_succ_r. reflexivity.
Qed.

(** [parseFloat] reads a run of digits and ignores what follows it. *)
Lemma parseFloat_digits_prefix :
  forall ds rest,
    ds <> [] -> forallb isDigit ds = true -> endsNumber rest = true ->
    parseFloat (ds ++ rest) = Dec false (digitsValue ds) 0.
Proof.
  intros ds rest Hne Hds Hrest. unfold parseFloat.
  destruct ds as [|c r]; [congruence|].
  assert (Hc : isDigit c = true).
  { simpl in Hds. apply andb_true_iff in Hds. tauto. }
  assert (Hrange : (48 <= c <= 57)%N).
  { unfold isDigit, in_range in Hc. apply andb_true_iff in Hc.
    destruct Hc as [H1 H2]. apply N.leb_le in H1. apply N.leb_le in H2. lia. }
  assert (Htrim : trimStart ((c :: r) ++ rest) = (c :: r) ++ rest).
  { unfold trimStart. simpl. rewrite (isDigit_not_space _ Hc). reflexivity. }
  rewrite Htrim.
  assert (Hsign : readSign ((c :: r) ++ rest) = (false, (c :: r) ++ rest)).
  { simpl. destruct (N.eqb_spec c 45); [lia|].
    destruct (N.eqb_spec c 43); [lia | reflexivity]. }
  rewrite Hsign.
  assert (Hinf : startsWith ((c :: r) ++ rest) (lit "Infinity") = false).
  { change (startsWith ((c :: r) ++ rest) (lit "Infinity"))
      with (N.eqb 73 c && startsWith (r ++ rest) (lit "nfinity")).
    destruct (N.eqb_spec 73 c); [lia | reflexivity]. }
  rewrite Hinf. rewrite readDigits_app by assumption.
  unfold digitsValue. simpl List.length. rewrite Nat.add_0_l.
  cbv zeta. cbn [Nat.eqb].
  destruct rest as [|x rest'].
  - reflexivity.
  - simpl in Hrest. apply negb_true_iff in Hrest.
    apply orb_false_iff in Hrest. destruct Hrest as [Hrest He2].
    apply orb_false_iff in Hrest. destruct Hrest as [Hrest He1].
    apply orb_false_iff in Hrest. destruct Hrest as [_ Hpt].
    rewrite Hpt. unfold readExponent. rewrite He1, He2. reflexivity.
Qed.

Lemma gt0_not_NaN : forall n, gt0 n = true -> isNaN n = false.
Proof.
  intros [| neg | neg m e] H; [discriminate | reflexivity | reflexivity].
Qed.

Lemma gt0_parse_truthy : forall w, gt0 (parseFloat w) = true -> truthy w = true.
Proof. intros [|c r] H; [discriminate | reflexivity]. Qed.

(** C10.  With both cities and a tariff type selected, [isFormValid]
    accepts every weight string that [parseFloat] reads as a positive
    number, and [parseFloat] reads a run of digits followed by characters
    that are not part of a number (as in [5abc]) as the number of the
    digits.  When both cities are found among the API cities
    [calculateTariff] then posts one request whose weight is the number
    read, and stores no validation message: the error it leaves is null or
    the calculation error, and after an OK reply with a body the result is
    that body. *)
Theorem C10_weight_with_trailing_characters :
  forall (R : Type) (i18n : I18n) (ro rd : RegionCity.t) (t w : str)
         (apiCities : list City.t) (co cd : City.t)
         (server : Calc.TariffRequest -> Calc.Reply R) (s : Calc.CalcState R),
    let form := {| Calc.originCity := Some ro; Calc.destinationCity := Some rd;
                   Calc.tariffType := Some t; Calc.weight := w |} in
    let request :=
      {| Calc.from_latitude := City.center_latitude co;
         Calc.from_longitude := City.center_longitude co;
         Calc.to_latitude := City.center_latitude cd;
         Calc.to_longitude := City.center_longitude cd;
         Calc.req_weight := parseFloat w;
         Calc.tariff_type := Some t |} in
    let final := Eff.exec (Calc.calculateTariff i18n form apiCities server) s in
    t <> [] ->
    gt0 (parseFloat w) = true ->
    Calc.isFormValid form = true
    /\ (forall ds rest,
          ds <> [] -> forallb isDigit ds = true -> endsNumber rest = true ->
          parseFloat (ds ++ rest) = Dec false (digitsValue ds) 0)
    /\ (Calc.convertedOriginCity form apiCities = Some co ->
        Calc.convertedDestinationCity form apiCities = Some cd ->
        Calc.posted final = Calc.posted s ++ [request]
        /\ (Calc.error final = None
            \/ Calc.error final = Some (calculationError i18n))
        /\ (forall body, server request = Calc.Reply_ true (Some body) ->
              Calc.result final = Some body /\ Calc.error final = None
              /\ Calc.loading final = false)).
Proof.
  intros R i18n ro rd t w apiCities co cd server s form request final Ht Hgt.
  assert (Hvalid : Calc.isFormValid form = true).
  { unfold Calc.isFormValid, form. cbn [Calc.originCity Calc.destinationCity
      Calc.tariffType Calc.weight truthy_opt].
    rewrite Hgt, (gt0_not_NaN _ Hgt), (gt0_parse_truthy _ Hgt),
      (truthy_nonempty _ Ht). reflexivity. }
  split; [exact Hvalid|].
  split; [intros ds rest; apply parseFloat_digits_prefix|].
  intros Hco Hcd.
  assert (Hfinal :
    final = match server request with
            | Calc.Reply_ true (Some body) =>
                {| Calc.result := Some body; Calc.loading := false;
                   Calc.error := None;
                   Calc.posted := Calc.posted s ++ [request] |}
            | _ =>
                {| Calc.result := Calc.result s; Calc.loading := false;
                   Calc.error := Some (calculationError i18n);
                   Calc.posted := Calc.posted s ++ [request] |}
            end).
  { unfold final, Calc.calculateTariff. rewrite Hvalid.
    cbn [negb Calc.weight form]. fold form.
    unfold le0. rewrite Hgt, (gt0_not_NaN _ Hgt). cbn [negb orb andb].
    rewrite Hco, Hcd. fold request.
    unfold Eff.exec, Eff.bind, Eff.tryCatchFinally, Calc.post, Calc.deref,
      Calc.setLoading, Calc.setError, Calc.setResult, Eff.modify, Eff.ret,
      Eff.bind.
    cbn [Calc.tariffType form]. fold request.
    destruct (server request) as [|[|] [body|]]; reflexivity. }
  rewrite Hfinal.
  destruct (server request) as [|[|] [body|]] eqn:Hreply;
    cbn [Calc.posted Calc.error Calc.result Calc.loading];
    (split; [reflexivity|]);
    (split; [first [left; reflexivity | right; reflexivity]|]);
    intros body' Hb; try discriminate.
  inversion Hb; subst. repeat split.
Qed.

(** C10 at the weight [5abc] from Tashkent to Samarkand, against an
    endpoint that never answers. *)
Lemma C10_weight_with_trailing_characters_witness :
  parseFloat (lit "5abc") = Dec false 5 0
  /\ Calc.isFormValid (Sample.form (Some OFFICE_DOOR) (lit "5abc")) = true
  /\ Calc.posted
       (Eff.exec
          (Calc.calculateTariff Sample.i18n
             (Sample.form (Some OFFICE_DOOR) (lit "5abc")) Sample.cities
             (fun _ => @Calc.NoReply unit))
          {| Calc.result := None; Calc.loading := false; Calc.error := None;
             Calc.posted := [] |})
     = [ {| Calc.from_latitude := Some (Dec false 413 (-1));
            Calc.from_longitude := Some (Dec false 692 (-1));
            Calc.to_latitude := Some (Dec false 396 (-1));
            Calc.to_longitude := Some (Dec false 669 (-1));
            Calc.req_weight := Dec false 5 0;
            Calc.tariff_type := Some OFFICE_DOOR |} ].
Proof.
  destruct (C10_weight_with_trailing_characters unit Sample.i18n
              Sample.regionTashkent Sample.regionSamarkand
              OFFICE_DOOR (lit "5abc") Sample.cities
              Sample.tashkent Sample.samarkand
              (fun _ => @Calc.NoReply unit)
              {| Calc.result := None; Calc.loading := false;
                 Calc.error := None; Calc.posted := [] |})
    as [Hvalid [Hparse Hsend]].
  - discriminate.
  - reflexivity.
  - split; [|split].
    + apply (Hparse (lit "5") (lit "abc")); [discriminate | reflexivity ..].
    + exact Hvalid.
    + destruct (Hsend eq_refl eq_refl) as [Hposted _]. exact Hposted.
Defined.

(* ===================================================================== *)
(** * Further properties of the hooks *)
(* ===================================================================== *)

(** ** The mount effects *)

Ltac each_fetch f :=
  destruct f as [|[|] [?|]].

(** X1.  Whatever the two requests do, [fetchData] leaves the loading flag
    off.  It records its load error exactly when a request rejects or an
    OK response has a body that does not parse; a status that is not OK
    records no error.  This holds in the hook under [src/client/hooks], in
    [part_000] and in the second revision of [part_001]. *)
Theorem X1_fetchData_loading_and_error :
  forall (wf lf : Fetch),
    (loading (UseWarehouseCheck.mounted wf lf) = false
     /\ (reachesCatch wf lf ->
         error (UseWarehouseCheck.mounted wf lf)
         = Some UseWarehouseCheck.loadError)
     /\ (~ reachesCatch wf lf ->
         error (UseWarehouseCheck.mounted wf lf) = None))
    /\ (loading (RevByName.mounted wf lf) = false
        /\ (reachesCatch wf lf ->
            error (RevByName.mounted wf lf) = Some RevByName.loadError)
        /\ (~ reachesCatch wf lf -> error (RevByName.mounted wf lf) = None))
    /\ (loading (RevTrim.mounted wf lf) = false
        /\ (reachesCatch wf lf ->
            error (RevTrim.mounted wf lf) = Some RevTrim.loadError)
        /\ (~ reachesCatch wf lf -> error (RevTrim.mounted wf lf) = None)).
Proof.
  intros wf lf. unfold reachesCatch.
  each_fetch wf; each_fetch lf;
    repeat match goal with |- _ /\ _ => split end;
    try reflexivity; intro H; try reflexivity;
    try (exfalso; apply H; tauto);
    try (exfalso; intuition discriminate).
Qed.

(** X1 with a warehouses response that is not found and a lockers body
    that does not parse. *)
Lemma X1_fetchData_loading_and_error_witness :
  error (UseWarehouseCheck.mounted (Response false None) (Response true None))
  = Some UseWarehouseCheck.loadError
  /\ error (UseWarehouseCheck.mounted (Response false None)
                                     (Response false None)) = None.
Proof.
  destruct (X1_fetchData_loading_and_error (Response false None)
              (Response true None)) as [[_ [Hyes _]] _].
  destruct (X1_fetchData_loading_and_error (Response false None)
              (Response false None)) as [[_ [_ Hno]] _].
  split.
  - apply Hyes. unfold reachesCatch. tauto.
  - apply Hno. unfold reachesCatch. intuition discriminate.
Defined.

(** X2.  In the hook under [src/client/hooks] and in [part_000] both
    requests are awaited before either list is stored: when the lockers
    request rejects, an OK warehouses response is discarded and both lists
    stay empty.  In the revisions of [part_001] the warehouses are stored
    before the lockers are requested: the list [l] of an OK warehouses
    body is kept whatever the lockers request does, whether the body
    carries it as [data.list] or as the array [data].  For a [data] object
    without a list, the second revision stores that object in the cell,
    and the first and the third throw in their debug output: they record
    the load error, store nothing and never request the lockers. *)
Theorem X2_fetchData_order_of_requests :
  forall (wf lf : Fetch) (l : list Warehouse.t),
    let listed := Response true (Some (DataObject (Some l))) in
    let array := Response true (Some (DataArray l)) in
    let bare := Response true (Some (DataObject None)) in
    UseWarehouseCheck.mounted wf Rejected
    = {| warehouses := []; lockers := []; loading := false;
         error := Some UseWarehouseCheck.loadError |}
    /\ RevByName.mounted wf Rejected
       = {| warehouses := []; lockers := []; loading := false;
            error := Some RevByName.loadError |}
    /\ (warehousesCell (RevTrim.mountedCells listed lf) = StoredPoints l
        /\ warehousesCell (RevTrim.mountedCells array lf) = StoredPoints l
        /\ warehousesCell (RevTrim.mountedCells bare lf) = StoredData
        /\ warehouses (RevTrim.mounted listed lf) = l
        /\ warehouses (RevTrim.mounted array lf) = l)
    /\ (warehouses (RevFuzzy.mounted listed lf) = l
        /\ warehouses (RevFuzzy.mounted array lf) = l
        /\ RevFuzzy.mounted bare lf
           = {| warehouses := []; lockers := []; loading := false;
                error := Some RevFuzzy.loadError |})
    /\ (warehouses (RevFuzzyExactFirst.mounted listed lf) = l
        /\ warehouses (RevFuzzyExactFirst.mounted array lf) = l
        /\ RevFuzzyExactFirst.mounted bare lf
           = {| warehouses := []; lockers := []; loading := false;
                error := Some RevFuzzyExactFirst.loadError |}).
Proof.
  intros wf lf l listed array bare.
  repeat match goal with |- _ /\ _ => split end;
    try (each_fetch wf; reflexivity);
    try reflexivity;
    destruct lf as [|[|] [[| [?|] | ?]|]]; reflexivity.
Qed.

(** X2 with the list [Tashkent] and a lockers request that rejects. *)
Lemma X2_fetchData_order_of_requests_witness :
  UseWarehouseCheck.mounted
    (Response true (Some (DataObject (Some [Sample.tashkentPoint]))))
    Rejected
  = {| warehouses := []; lockers := []; loading := false;
       error := Some UseWarehouseCheck.loadError |}
  /\ RevTrim.mountedCells
       (Response true (Some (DataArray [Sample.tashkentPoint]))) Rejected
     = {| warehousesCell := StoredPoints [Sample.tashkentPoint];
          lockersCell := StoredPoints []; cellsLoading := false;
          cellsError := Some RevTrim.loadError |}
  /\ warehouses
       (RevFuzzy.mounted
          (Response true (Some (DataObject (Some [Sample.tashkentPoint]))))
          Rejected)
     = [Sample.tashkentPoint]
  /\ RevFuzzy.mounted (Response true (Some (DataObject None)))
       (Response true (Some (DataObject (Some [Sample.tashkentPoint]))))
     = {| warehouses := []; lockers := []; loading := false;
          error := Some RevFuzzy.loadError |}.
Proof.
  destruct (X2_fetchData_order_of_requests
              (Response true (Some (DataObject (Some [Sample.tashkentPoint]))))
              Rejected [Sample.tashkentPoint])
    as [Hhook [_ [_ [[Hlisted _] _]]]].
  destruct (X2_fetchData_order_of_requests Rejected
              (Response true (Some (DataObject (Some [Sample.tashkentPoint]))))
              [Sample.tashkentPoint])
    as [_ [_ [_ [[_ [_ Hbare]] _]]]].
  split; [exact Hhook|]. split; [reflexivity|].
  split; [exact Hlisted | exact Hbare].
Defined.

(** ** The membership predicates *)

Lemma truthy_iff : forall s : str, truthy s = true <-> s <> [].
Proof. intros [|c r]; simpl; split; congruence. Qed.

(** The shape of the exact-match predicates. *)
Lemma exact_lookup_iff :
  forall (p : str -> Warehouse.t -> bool) (pts : list Warehouse.t)
         (q : option str),
    match q with
    | None => false
    | Some n => if negb (truthy n) then false else existsb (p n) pts
    end = true
    <-> exists n w, q = Some n /\ n <> [] /\ In w pts /\ p n w = true.
Proof.
  intros p pts q. split.
  - destruct q as [n|]; [|discriminate].
    destruct (truthy n) eqn:Hn; [|discriminate]. simpl.
    intro H. apply existsb_exists in H. destruct H as [w [Hin Hp]].
    exists n, w. repeat split; try assumption. apply truthy_iff. exact Hn.
  - intros [n [w [Hq [Hn [Hin Hp]]]]]. subst q.
    rewrite (truthy_nonempty _ Hn). simpl.
    apply existsb_exists. exists w. split; assumption.
Qed.

(** The shape of the predicates of the later revisions, which also test
    the length of the list. *)
Lemma guarded_lookup_iff :
  forall (p : str -> Warehouse.t -> bool) (pts : list Warehouse.t)
         (q : option str),
    match q with
    | None => false
    | Some n =>
        if negb (truthy n) || Nat.eqb (List.length pts) 0 then false
        else existsb (p n) pts
    end = true
    <-> exists n w, q = Some n /\ n <> [] /\ In w pts /\ p n w = true.
Proof.
  intros p pts q. rewrite <- exact_lookup_iff.
  destruct q as [n|]; [|tauto].
  destruct (truthy n); simpl; [|tauto].
  destruct pts as [|w r]; simpl; tauto.
Qed.

Lemma searchWarehouses_iff :
  forall toLowerCase ns ws,
    RevFuzzyExactFirst.searchWarehouses toLowerCase ns ws = true
    <-> exists w, In w ws
                  /\ RevFuzzyExactFirst.searchWarehouses toLowerCase ns [w]
                     = true.
Proof.
  intros toLowerCase ns ws. induction ws as [|w r IH].
  - simpl. split; [discriminate | intros [w [[] _]]].
  - split.
    + intro H.
      destruct (RevFuzzyExactFirst.searchWarehouses toLowerCase ns [w])
        eqn:Hw.
      * exists w. split; [left; reflexivity | exact Hw].
      * assert (Hr : RevFuzzyExactFirst.searchWarehouses toLowerCase ns r
                     = true).
        { revert H Hw. simpl.
          repeat match goal with
                 | |- context [if ?b then _ else _] => destruct b
                 end; congruence. }
        apply IH in Hr. destruct Hr as [w' [Hin Hw']].
        exists w'. split; [right; exact Hin | exact Hw'].
    + intros [w' [[Heq | Hin] Hw']].
      * subst w'. revert Hw'. simpl.
        repeat match goal with
               | |- context [if ?b then _ else _] => destruct b
               end; congruence.
      * assert (Hr : RevFuzzyExactFirst.searchWarehouses toLowerCase ns r
                     = true) by (apply IH; exists w'; split; assumption).
        simpl. rewrite Hr.
        repeat match goal with
               | |- context [if ?b then _ else _] => destruct b
               end; reflexivity.
Qed.

Lemma searchLockers_iff :
  forall toLowerCase ns ls,
    RevFuzzyExactFirst.searchLockers toLowerCase ns ls = true
    <-> exists l, In l ls
                  /\ RevFuzzyExactFirst.searchLockers toLowerCase ns [l]
                     = true.
Proof.
  intros toLowerCase ns ls. induction ls as [|l r IH].
  - simpl. split; [discriminate | intros [l [[] _]]].
  - split.
    + intro H.
      destruct (RevFuzzyExactFirst.searchLockers toLowerCase ns [l]) eqn:Hl.
      * exists l. split; [left; reflexivity | exact Hl].
      * assert (Hr : RevFuzzyExactFirst.searchLockers toLowerCase ns r
                     = true).
        { revert H Hl. simpl.
          repeat match goal with
                 | |- context [if ?b then _ else _] => destruct b
                 end; congruence. }
        apply IH in Hr. destruct Hr as [l' [Hin Hl']].
        exists l'. split; [right; exact Hin | exact Hl'].
    + intros [l' [[Heq | Hin] Hl']].
      * subst l'. revert Hl'. simpl.
        repeat match goal with
               | |- context [if ?b then _ else _] => destruct b
               end; congruence.
      * assert (Hr : RevFuzzyExactFirst.searchLockers toLowerCase ns r
                     = true) by (apply IH; exists l'; split; assumption).
        simpl. rewrite Hr.
        repeat match goal with
               | |- context [if ?b then _ else _] => destruct b
               end; reflexivity.
Qed.

(** The shape of the predicates of the first revision of [part_001]: the
    case-insensitive search, then the loop. *)
Lemma exactFirst_lookup_iff :
  forall (e : str -> Warehouse.t -> bool)
         (search : str -> list Warehouse.t -> bool)
         (pts : list Warehouse.t) (q : option str),
    (forall n l, search n l = true
                 <-> exists w, In w l /\ search n [w] = true) ->
    match q with
    | None => false
    | Some n =>
        if negb (truthy n) || Nat.eqb (List.length pts) 0 then false
        else match find (e n) pts with
             | Some _ => true
             | None => search n pts
             end
    end = true
    <-> exists n w, q = Some n /\ n <> [] /\ In w pts
                    /\ (e n w = true \/ search n [w] = true).
Proof.
  intros e search pts q Hsearch. split.
  - destruct q as [n|]; [|discriminate].
    destruct (truthy n) eqn:Hn; [|discriminate]. simpl.
    destruct (Nat.eqb (List.length pts) 0); [discriminate|].
    destruct (find (e n) pts) as [w|] eqn:Hfind.
    + intros _. apply find_some in Hfind. destruct Hfind as [Hin He].
      exists n, w. repeat split; try assumption; [|left; exact He].
      apply truthy_iff. exact Hn.
    + intro H. apply Hsearch in H. destruct H as [w [Hin Hw]].
      exists n, w. repeat split; try assumption; [|right; exact Hw].
      apply truthy_iff. exact Hn.
  - intros [n [w [Hq [Hn [Hin Hw]]]]]. subst q.
    rewrite (truthy_nonempty _ Hn), (in_length_nonzero _ _ _ Hin). simpl.
    destruct (find (e n) pts) as [w'|] eqn:Hfind; [reflexivity|].
    destruct Hw as [He | Hs].
    + pose proof (find_none _ _ Hfind w Hin) as Hno. congruence.
    + apply Hsearch. exists w. split; assumption.
Qed.

Lemma str_eqb_sym_iff : forall a b, str_eqb a b = true <-> b = a.
Proof. intros a b. rewrite str_eqb_eq. split; congruence. Qed.

(** The exact-match and the trimmed predicates as searches for a point
    that the comparison of the revision accepts. *)
Lemma plain_lookups_iff :
  forall (toLowerCase : str -> str) (st : HookState) (q : option str),
    let same n (w : Warehouse.t) := str_eqb (Warehouse.city w) n in
    let alike n (w : Warehouse.t) :=
      str_eqb (toLowerCase (trim (Warehouse.city w))) (toLowerCase (trim n)) in
    (UseWarehouseCheck.hasWarehouse st q = true
     <-> exists n w, q = Some n /\ n <> [] /\ In w (warehouses st)
                     /\ same n w = true)
    /\ (UseWarehouseCheck.hasLocker st q = true
        <-> exists n l, q = Some n /\ n <> [] /\ In l (lockers st)
                        /\ same n l = true)
    /\ (RevByName.hasWarehouse st q = true
        <-> exists n w, q = Some n /\ n <> [] /\ In w (warehouses st)
                        /\ same n w = true)
    /\ (RevByName.hasLocker st q = true
        <-> exists n l, q = Some n /\ n <> [] /\ In l (lockers st)
                        /\ same n l = true)
    /\ (RevTrim.hasWarehouse toLowerCase st q = true
        <-> exists n w, q = Some n /\ n <> [] /\ In w (warehouses st)
                        /\ alike n w = true)
    /\ (RevTrim.hasLocker toLowerCase st q = true
        <-> exists n l, q = Some n /\ n <> [] /\ In l (lockers st)
                        /\ alike n l = true).
Proof.
  intros toLowerCase st q same alike.
  repeat match goal with |- _ /\ _ => split end.
  1-4: apply (exact_lookup_iff same).
  1-2: apply (guarded_lookup_iff alike).
Qed.

(** X3.  The exact-match predicates answer true exactly for a non-empty
    query that is, unit for unit, the city name of a listed point; the
    predicates of the trimmed revision answer true exactly for a non-empty
    query whose trimmed, lower-cased form is that of a listed city name. *)
Theorem X3_lookup_sound_and_complete :
  forall (toLowerCase : str -> str) (st : HookState) (q : option str),
    (UseWarehouseCheck.hasWarehouse st q = true
     <-> exists n w, q = Some n /\ n <> [] /\ In w (warehouses st)
                     /\ Warehouse.city w = n)
    /\ (UseWarehouseCheck.hasLocker st q = true
        <-> exists n l, q = Some n /\ n <> [] /\ In l (lockers st)
                        /\ Warehouse.city l = n)
    /\ (RevByName.hasWarehouse st q = true
        <-> exists n w, q = Some n /\ n <> [] /\ In w (warehouses st)
                        /\ Warehouse.city w = n)
    /\ (RevByName.hasLocker st q = true
        <-> exists n l, q = Some n /\ n <> [] /\ In l (lockers st)
                        /\ Warehouse.city l = n)
    /\ (RevTrim.hasWarehouse toLowerCase st q = true
        <-> exists n w, q = Some n /\ n <> [] /\ In w (warehouses st)
                        /\ toLowerCase (trim (Warehouse.city w))
                           = toLowerCase (trim n))
    /\ (RevTrim.hasLocker toLowerCase st q = true
        <-> exists n l, q = Some n /\ n <> [] /\ In l (lockers st)
                        /\ toLowerCase (trim (Warehouse.city l))
                           = toLowerCase (trim n)).
Proof.
  intros toLowerCase st q.
  destruct (plain_lookups_iff toLowerCase st q)
    as [A1 [A2 [A3 [A4 [A5 A6]]]]]. cbv zeta in *.
  repeat match goal with |- _ /\ _ => split end;
    (etransitivity; [eassumption|]);
    split; intros [n [w [Hq [Hn [Hin H]]]]]; exists n, w;
    repeat split; try assumption; apply str_eqb_eq; exact H.
Qed.

Lemma fuzzy_hasWarehouse_iff :
  forall toLowerCase st q,
    RevFuzzy.hasWarehouse toLowerCase st q = true
    <-> exists n w, q = Some n /\ n <> [] /\ In w (warehouses st)
                    /\ RevFuzzy.cityMatches toLowerCase
                         (RevFuzzy.normalizeCityName toLowerCase n) w = true.
Proof.
  intros toLowerCase st q.
  apply (guarded_lookup_iff
           (fun n w => RevFuzzy.cityMatches toLowerCase
                         (RevFuzzy.normalizeCityName toLowerCase n) w)).
Qed.

Lemma fuzzy_hasLocker_iff :
  forall toLowerCase st q,
    RevFuzzy.hasLocker toLowerCase st q = true
    <-> exists n l, q = Some n /\ n <> [] /\ In l (lockers st)
                    /\ RevFuzzy.cityMatches toLowerCase
                         (RevFuzzy.normalizeCityName toLowerCase n) l = true.
Proof.
  intros toLowerCase st q.
  apply (guarded_lookup_iff
           (fun n w => RevFuzzy.cityMatches toLowerCase
                         (RevFuzzy.normalizeCityName toLowerCase n) w)).
Qed.

Lemma exactFirst_hasWarehouse_iff :
  forall toLowerCase st q,
    RevFuzzyExactFirst.hasWarehouse toLowerCase st q = true
    <-> exists n w,
          q = Some n /\ n <> [] /\ In w (warehouses st)
          /\ (str_eqb (toLowerCase (Warehouse.city w)) (toLowerCase n) = true
              \/ RevFuzzyExactFirst.searchWarehouses toLowerCase
                   (RevFuzzyExactFirst.normalizeCityName toLowerCase n) [w]
                 = true).
Proof.
  intros toLowerCase st q.
  apply (exactFirst_lookup_iff
           (fun n w => str_eqb (toLowerCase (Warehouse.city w))
                               (toLowerCase n))
           (fun n l => RevFuzzyExactFirst.searchWarehouses toLowerCase
                         (RevFuzzyExactFirst.normalizeCityName toLowerCase n)
                         l)).
  intros n l. apply searchWarehouses_iff.
Qed.

Lemma exactFirst_hasLocker_iff :
  forall toLowerCase st q,
    RevFuzzyExactFirst.hasLocker toLowerCase st q = true
    <-> exists n l,
          q = Some n /\ n <> [] /\ In l (lockers st)
          /\ (str_eqb (toLowerCase (Warehouse.city l)) (toLowerCase n) = true
              \/ RevFuzzyExactFirst.searchLockers toLowerCase
                   (RevFuzzyExactFirst.normalizeCityName toLowerCase n) [l]
                 = true).
Proof.
  intros toLowerCase st q.
  apply (exactFirst_lookup_iff
           (fun n w => str_eqb (toLowerCase (Warehouse.city w))
                               (toLowerCase n))
           (fun n l => RevFuzzyExactFirst.searchLockers toLowerCase
                         (RevFuzzyExactFirst.normalizeCityName toLowerCase n)
                         l)).
  intros n l. apply searchLockers_iff.
Qed.

(** Transferring a found point along an inclusion of lists. *)
Ltac found_along Hincl :=
  let n := fresh "n" in
  let w := fresh "w" in
  let Hq := fresh "Hq" in
  let Hn := fresh "Hn" in
  let Hin := fresh "Hin" in
  let Hp := fresh "Hp" in
  intros [n [w [Hq [Hn [Hin Hp]]]]];
  exists n, w; repeat split; try assumption; apply Hincl; exact Hin.

(** X4.  In every revision the answer of [hasWarehouse] and of
    [hasLocker] only grows with the list: when every point of one state is
    a point of another, a query found in the first is found in the second.
    The answer therefore does not depend on the order of the list nor on
    repeated entries. *)
Theorem X4_lookup_monotone :
  forall (toLowerCase : str -> str) (st st' : HookState) (q : option str),
    incl (warehouses st) (warehouses st') ->
    incl (lockers st) (lockers st') ->
    (UseWarehouseCheck.hasWarehouse st q = true ->
     UseWarehouseCheck.hasWarehouse st' q = true)
    /\ (UseWarehouseCheck.hasLocker st q = true ->
        UseWarehouseCheck.hasLocker st' q = true)
    /\ (RevByName.hasWarehouse st q = true ->
        RevByName.hasWarehouse st' q = true)
    /\ (RevByName.hasLocker st q = true -> RevByName.hasLocker st' q = true)
    /\ (RevTrim.hasWarehouse toLowerCase st q = true ->
        RevTrim.hasWarehouse toLowerCase st' q = true)
    /\ (RevTrim.hasLocker toLowerCase st q = true ->
        RevTrim.hasLocker toLowerCase st' q = true)
    /\ (RevFuzzy.hasWarehouse toLowerCase st q = true ->
        RevFuzzy.hasWarehouse toLowerCase st' q = true)
    /\ (RevFuzzy.hasLocker toLowerCase st q = true ->
        RevFuzzy.hasLocker toLowerCase st' q = true)
    /\ (RevFuzzyExactFirst.hasWarehouse toLowerCase st q = true ->
        RevFuzzyExactFirst.hasWarehouse toLowerCase st' q = true)
    /\ (RevFuzzyExactFirst.hasLocker toLowerCase st q = true ->
        RevFuzzyExactFirst.hasLocker toLowerCase st' q = true).
Proof.
  intros toLowerCase st st' q Hw Hl.
  destruct (plain_lookups_iff toLowerCase st q)
    as [A1 [A2 [A3 [A4 [A5 A6]]]]].
  destruct (plain_lookups_iff toLowerCase st' q)
    as [B1 [B2 [B3 [B4 [B5 B6]]]]].
  cbv zeta in *.
  repeat match goal with |- _ /\ _ => split end.
  - rewrite A1, B1. found_along Hw.
  - rewrite A2, B2. found_along Hl.
  - rewrite A3, B3. found_along Hw.
  - rewrite A4, B4. found_along Hl.
  - rewrite A5, B5. found_along Hw.
  - rewrite A6, B6. found_along Hl.
  - rewrite !fuzzy_hasWarehouse_iff. found_along Hw.
  - rewrite !fuzzy_hasLocker_iff. found_along Hl.
  - rewrite !exactFirst_hasWarehouse_iff. found_along Hw.
  - rewrite !exactFirst_hasLocker_iff. found_along Hl.
Qed.

(** X4 on a list that is reordered and repeats a point. *)
Lemma X4_lookup_monotone_witness :
  RevFuzzy.hasWarehouse toLowerCaseBasic
    (loadedWith [Sample.samarkandPoint; Sample.tashkentPoint;
                 Sample.tashkentPoint] [])
    (Some (lit "Tashkent city")) = true.
Proof.
  apply (X4_lookup_monotone toLowerCaseBasic
           (loadedWith [Sample.tashkentPoint] [])
           (loadedWith [Sample.samarkandPoint; Sample.tashkentPoint;
                        Sample.tashkentPoint] [])
           (Some (lit "Tashkent city"))).
  - intros w [Hw | []]. subst w. simpl. tauto.
  - intros w [].
  - reflexivity.
Defined.

Lemma normalize_alike :
  forall toLowerCase a b,
    toLowerCase (trim a) = toLowerCase (trim b) ->
    RevFuzzy.normalizeCityName toLowerCase a
    = RevFuzzy.normalizeCityName toLowerCase b
    /\ RevFuzzyExactFirst.normalizeCityName toLowerCase a
       = RevFuzzyExactFirst.normalizeCityName toLowerCase b.
Proof.
  intros toLowerCase a b H.
  unfold RevFuzzy.normalizeCityName, RevFuzzyExactFirst.normalizeCityName.
  rewrite H. split; reflexivity.
Qed.

(** X5.  Each later revision accepts what the earlier comparison accepts:
    a query that the exact-match hook finds is found by the trimmed
    revision, and a query that the trimmed revision finds is found by
    both normalizing revisions of [part_001]. *)
Theorem X5_revisions_grow_more_permissive :
  forall (toLowerCase : str -> str) (st : HookState) (q : option str),
    (UseWarehouseCheck.hasWarehouse st q = true ->
     RevTrim.hasWarehouse toLowerCase st q = true)
    /\ (UseWarehouseCheck.hasLocker st q = true ->
        RevTrim.hasLocker toLowerCase st q = true)
    /\ (RevTrim.hasWarehouse toLowerCase st q = true ->
        RevFuzzy.hasWarehouse toLowerCase st q = true
        /\ RevFuzzyExactFirst.hasWarehouse toLowerCase st q = true)
    /\ (RevTrim.hasLocker toLowerCase st q = true ->
        RevFuzzy.hasLocker toLowerCase st q = true
        /\ RevFuzzyExactFirst.hasLocker toLowerCase st q = true).
Proof.
  intros toLowerCase st q.
  destruct (plain_lookups_iff toLowerCase st q)
    as [A1 [A2 [_ [_ [A5 A6]]]]]. cbv zeta in *.
  repeat match goal with |- _ /\ _ => split end.
  - rewrite A1, A5. intros [n [w [Hq [Hn [Hin H]]]]].
    exists n, w. repeat split; try assumption.
    apply str_eqb_eq in H. rewrite H. apply str_eqb_refl.
  - rewrite A2, A6. intros [n [w [Hq [Hn [Hin H]]]]].
    exists n, w. repeat split; try assumption.
    apply str_eqb_eq in H. rewrite H. apply str_eqb_refl.
  - rewrite A5. intros [n [w [Hq [Hn [Hin H]]]]].
    apply str_eqb_eq in H. apply normalize_alike in H. destruct H as [H1 H2].
    split.
    + apply fuzzy_hasWarehouse_iff. exists n, w.
      repeat split; try assumption.
      unfold RevFuzzy.cityMatches. rewrite H1, str_eqb_refl. reflexivity.
    + apply exactFirst_hasWarehouse_iff. exists n, w.
      repeat split; try assumption. right.
      simpl. rewrite H2, str_eqb_refl. reflexivity.
  - rewrite A6. intros [n [w [Hq [Hn [Hin H]]]]].
    apply str_eqb_eq in H. apply normalize_alike in H. destruct H as [H1 H2].
    split.
    + apply fuzzy_hasLocker_iff. exists n, w.
      repeat split; try assumption.
      unfold RevFuzzy.cityMatches. rewrite H1, str_eqb_refl. reflexivity.
    + apply exactFirst_hasLocker_iff. exists n, w.
      repeat split; try assumption. right.
      simpl. rewrite H2, str_eqb_refl. reflexivity.
Qed.

(** X5 at a query in another letter case behind white space. *)
Lemma X5_revisions_grow_more_permissive_witness :
  RevFuzzy.hasWarehouse toLowerCaseBasic
    (loadedWith [Sample.tashkentPoint] []) (Some (lit " TASHKENT")) = true
  /\ RevFuzzyExactFirst.hasWarehouse toLowerCaseBasic
       (loadedWith [Sample.tashkentPoint] []) (Some (lit " TASHKENT")) = true.
Proof.
  apply (proj1 (proj2 (proj2
           (X5_revisions_grow_more_permissive toLowerCaseBasic
              (loadedWith [Sample.tashkentPoint] [])
              (Some (lit " TASHKENT")))))).
  reflexivity.
Defined.

Lemma includes_nil : forall s, includes s [] = true.
Proof. intros [|c r]; reflexivity. Qed.

(** X6.  In the normalizing revisions a non-empty query of which
    [normalizeCityName] leaves nothing (digits, punctuation, a bare
    suffix such as [city]) is found as soon as the list is not empty,
    whatever cities it lists: every normalized city contains the empty
    string. *)
Theorem X6_query_normalized_to_nothing :
  forall (toLowerCase : str -> str) (st : HookState) (n : str),
    n <> [] ->
    (RevFuzzy.normalizeCityName toLowerCase n = [] ->
     (warehouses st <> [] ->
      RevFuzzy.hasWarehouse toLowerCase st (Some n) = true)
     /\ (lockers st <> [] ->
         RevFuzzy.hasLocker toLowerCase st (Some n) = true))
    /\ (RevFuzzyExactFirst.normalizeCityName toLowerCase n = [] ->
        (warehouses st <> [] ->
         RevFuzzyExactFirst.hasWarehouse toLowerCase st (Some n) = true)
        /\ (lockers st <> [] ->
            RevFuzzyExactFirst.hasLocker toLowerCase st (Some n) = true)).
Proof.
  intros toLowerCase st n Hn. split; intro Hnorm; split; intro Hlist.
  - apply fuzzy_hasWarehouse_iff.
    destruct (warehouses st) as [|w r]; [congruence|].
    exists n, w. repeat split; try assumption; [left; reflexivity|].
    rewrite Hnorm. unfold RevFuzzy.cityMatches. rewrite includes_nil.
    destruct (str_eqb _ _); reflexivity.
  - apply fuzzy_hasLocker_iff.
    destruct (lockers st) as [|w r]; [congruence|].
    exists n, w. repeat split; try assumption; [left; reflexivity|].
    rewrite Hnorm. unfold RevFuzzy.cityMatches. rewrite includes_nil.
    destruct (str_eqb _ _); reflexivity.
  - apply exactFirst_hasWarehouse_iff.
    destruct (warehouses st) as [|w r]; [congruence|].
    exists n, w. repeat split; try assumption; [left; reflexivity|].
    right. rewrite Hnorm. simpl. rewrite includes_nil.
    destruct (str_eqb _ _); reflexivity.
  - apply exactFirst_hasLocker_iff.
    destruct (lockers st) as [|w r]; [congruence|].
    exists n, w. repeat split; try assumption; [left; reflexivity|].
    right. rewrite Hnorm. simpl. rewrite includes_nil.
    destruct (str_eqb _ _); reflexivity.
Qed.

(** X6 at the query [123] against a list that names Samarkand only. *)
Lemma X6_query_normalized_to_nothing_witness :
  RevFuzzy.hasWarehouse toLowerCaseBasic
    (loadedWith [Sample.samarkandPoint] []) (Some (lit "123")) = true
  /\ RevFuzzyExactFirst.hasWarehouse toLowerCaseBasic
       (loadedWith [Sample.samarkandPoint] []) (Some (lit "city")) = true.
Proof.
  split.
  - apply (proj1 (X6_query_normalized_to_nothing toLowerCaseBasic
             (loadedWith [Sample.samarkandPoint] []) (lit "123")
             ltac:(discriminate))); [reflexivity | discriminate].
  - apply (proj2 (X6_query_normalized_to_nothing toLowerCaseBasic
             (loadedWith [Sample.samarkandPoint] []) (lit "city")
             ltac:(discriminate))); [reflexivity | discriminate].
Defined.

(** ** [normalizeCityName] *)

Lemma dropWhile_idempotent :
  forall p s, dropWhile p (dropWhile p s) = dropWhile p s.
Proof.
  intros p s. induction s as [|c r IH]; [reflexivity|].
  simpl. destruct (p c) eqn:Hc; [exact IH|]. simpl. rewrite Hc. reflexivity.
Qed.

Lemma dropWhile_suffix :
  forall p s, exists pre, s = pre ++ dropWhile p s.
Proof.
  intros p s. induction s as [|c r [pre IH]]; [exists []; reflexivity|].
  simpl. destruct (p c).
  - exists (c :: pre). simpl. f_equal. exact IH.
  - exists []. reflexivity.
Qed.

Lemma trimStart_startsBlack : forall s, startsBlack (trimStart s).
Proof.
  intro s. unfold trimStart. induction s as [|c r IH]; simpl; [exact I|].
  destruct (isWhiteSpace c) eqn:Hc; [exact IH | exact Hc].
Qed.

Lemma startsBlack_trimStart : forall s, startsBlack s -> trimStart s = s.
Proof.
  intros [|c r] H; [reflexivity|]. unfold trimStart. simpl in *.
  rewrite H. reflexivity.
Qed.

Lemma trimEnd_prefix : forall s, exists post, s = trimEnd s ++ post.
Proof.
  intro s. unfold trimEnd.
  destruct (dropWhile_suffix isWhiteSpace (rev s)) as [pre H].
  exists (rev pre).
  rewrite <- rev_app_distr, <- H, rev_involutive. reflexivity.
Qed.

Lemma trimEnd_startsBlack : forall s, startsBlack s -> startsBlack (trimEnd s).
Proof.
  intros s H. destruct (trimEnd_prefix s) as [post Hs].
  destruct (trimEnd s) as [|c r]; [exact I|].
  rewrite Hs in H. exact H.
Qed.

Lemma trimEnd_idempotent : forall s, trimEnd (trimEnd s) = trimEnd s.
Proof.
  intro s. unfold trimEnd. rewrite rev_involutive, dropWhile_idempotent.
  reflexivity.
Qed.

Lemma trim_idempotent : forall s, trim (trim s) = trim s.
Proof.
  intro s. unfold trim.
  rewrite (startsBlack_trimStart (trimEnd (trimStart s))).
  - apply trimEnd_idempotent.
  - apply trimEnd_startsBlack, trimStart_startsBlack.
Qed.

Lemma forallb_dropWhile :
  forall (P p : N -> bool) s,
    forallb P s = true -> forallb P (dropWhile p s) = true.
Proof.
  intros P p s. induction s as [|c r IH]; simpl; [reflexivity|].
  intro H. destruct (p c); [|exact H].
  apply andb_true_iff in H. apply IH, H.
Qed.

Lemma forallb_trim :
  forall (P : N -> bool) s, forallb P s = true -> forallb P (trim s) = true.
Proof.
  intros P s H. unfold trim, trimEnd, trimStart.
  rewrite forallb_rev. apply forallb_dropWhile.
  rewrite forallb_rev. apply forallb_dropWhile. exact H.
Qed.

Lemma forallb_deleteMatches :
  forall (P : N -> bool) alts s skip,
    forallb P s = true -> forallb P (deleteMatches alts skip s) = true.
Proof.
  intros P alts s. induction s as [|c r IH]; intros skip H; [reflexivity|].
  simpl in H. apply andb_true_iff in H. destruct H as [Hc Hr].
  simpl. destruct skip as [|k]; [|apply IH; exact Hr].
  destruct (firstAlternative alts (c :: r)) as [[|k]|];
    try (simpl; rewrite Hc; apply IH; exact Hr).
  apply IH. exact Hr.
Qed.

Lemma forallb_collapseSpaces :
  forall s inRun,
    forallb keptChar s = true ->
    forallb letterOrSpace (collapseSpaces inRun s) = true.
Proof.
  induction s as [|c r IH]; intros inRun H; [reflexivity|].
  simpl in H. apply andb_true_iff in H. destruct H as [Hc Hr].
  simpl. destruct (isWhiteSpace c) eqn:Hws.
  - destruct inRun; [apply IH; exact Hr|].
    simpl. apply IH. exact Hr.
  - simpl. rewrite IH by exact Hr.
    unfold letterOrSpace. rewrite Hc, Hws. reflexivity.
Qed.

Lemma forallb_filter_self :
  forall (p : N -> bool) s, forallb p (filter p s) = true.
Proof.
  intros p s. induction s as [|c r IH]; [reflexivity|].
  simpl. destruct (p c) eqn:Hc; [simpl; rewrite Hc; exact IH | exact IH].
Qed.

(** X7.  Whatever the name and whatever [toLowerCase] does,
    [normalizeCityName] returns a string made only of letters of the kept
    class and of plain spaces, with no white space at either end; trimming
    it again changes nothing.  This holds for both normalizing revisions
    of [part_001]. *)
Theorem X7_normalizeCityName_shape :
  forall (toLowerCase : str -> str) (name : str),
    (forallb letterOrSpace (RevFuzzy.normalizeCityName toLowerCase name)
     = true
     /\ trim (RevFuzzy.normalizeCityName toLowerCase name)
        = RevFuzzy.normalizeCityName toLowerCase name
     /\ startsBlack (RevFuzzy.normalizeCityName toLowerCase name)
     /\ startsBlack (rev (RevFuzzy.normalizeCityName toLowerCase name)))
    /\ (forallb letterOrSpace
          (RevFuzzyExactFirst.normalizeCityName toLowerCase name) = true
        /\ trim (RevFuzzyExactFirst.normalizeCityName toLowerCase name)
           = RevFuzzyExactFirst.normalizeCityName toLowerCase name
        /\ startsBlack (RevFuzzyExactFirst.normalizeCityName toLowerCase name)
        /\ startsBlack
             (rev (RevFuzzyExactFirst.normalizeCityName toLowerCase name))).
Proof.
  intros toLowerCase name.
  assert (Hend : forall s, startsBlack (rev (trim s))).
  { intro s. unfold trim, trimEnd. rewrite rev_involutive.
    apply (trimStart_startsBlack (rev (trimStart s))). }
  assert (Hbegin : forall s, startsBlack (trim s)).
  { intro s. apply trimEnd_startsBlack, trimStart_startsBlack. }
  unfold RevFuzzy.normalizeCityName, RevFuzzyExactFirst.normalizeCityName.
  repeat match goal with |- _ /\ _ => split end;
    try apply trim_idempotent; try apply Hend; try apply Hbegin;
    apply forallb_trim; repeat apply forallb_deleteMatches;
    apply forallb_collapseSpaces, forallb_filter_self.
Qed.

(** ** Warning and disable check, tariff type by tariff type *)

Lemma trimmed_nameOrNull :
  forall toLowerCase st (c : City.t),
    RevTrim.hasWarehouse toLowerCase st (nameOrNull (Some c))
    = RevTrim.hasWarehouse toLowerCase st (Some (City.name c))
    /\ RevTrim.hasLocker toLowerCase st (nameOrNull (Some c))
       = RevTrim.hasLocker toLowerCase st (Some (City.name c)).
Proof.
  intros toLowerCase st c. unfold nameOrNull.
  destruct (City.name c) as [|x r]; split; reflexivity.
Qed.

(** Replacing the three availability flags of a goal by booleans. *)
Ltac flags_by_cases :=
  repeat match goal with
         | |- context [UseWarehouseCheck.hasWarehouse ?s ?q] =>
             destruct (UseWarehouseCheck.hasWarehouse s q)
         | |- context [UseWarehouseCheck.hasLocker ?s ?q] =>
             destruct (UseWarehouseCheck.hasLocker s q)
         | |- context [RevByName.hasWarehouse ?s ?q] =>
             destruct (RevByName.hasWarehouse s q)
         | |- context [RevByName.hasLocker ?s ?q] =>
             destruct (RevByName.hasLocker s q)
         | |- context [RevTrim.hasWarehouse ?f ?s ?q] =>
             destruct (RevTrim.hasWarehouse f s q)
         | |- context [RevTrim.hasLocker ?f ?s ?q] =>
             destruct (RevTrim.hasLocker f s q)
         | |- context [RevFuzzy.hasWarehouse ?f ?s ?q] =>
             destruct (RevFuzzy.hasWarehouse f s q)
         | |- context [RevFuzzy.hasLocker ?f ?s ?q] =>
             destruct (RevFuzzy.hasLocker f s q)
         | |- context [RevFuzzyExactFirst.hasWarehouse ?f ?s ?q] =>
             destruct (RevFuzzyExactFirst.hasWarehouse f s q)
         | |- context [RevFuzzyExactFirst.hasLocker ?f ?s ?q] =>
             destruct (RevFuzzyExactFirst.hasLocker f s q)
         end.

(** X8.  In the hook under [src/client/hooks] and in [part_000], for each
    of the six tariff types, with both cities given and the index loaded,
    the warning is shown exactly when the calculation is disabled. *)
Theorem X8_warning_iff_disabled :
  forall (i18n : I18n) (cities : list City.t) (st : HookState)
         (o d : City.t) (t : str),
    loading st = false ->
    In t tariffTypes ->
    show (UseWarehouseCheck.shouldShowWarehouseWarning i18n cities st
            (Some o) (Some d) (Some t))
    = UseWarehouseCheck.shouldDisableCalculation cities st
        (Some o) (Some d) (Some t)
    /\ show (RevByName.shouldShowWarehouseWarning i18n st
               (Some o) (Some d) (Some t))
       = RevByName.shouldDisableCalculation st (Some o) (Some d) (Some t).
Proof.
  intros i18n cities st o d t Hload Ht.
  unfold UseWarehouseCheck.shouldShowWarehouseWarning,
    UseWarehouseCheck.shouldDisableCalculation,
    RevByName.shouldShowWarehouseWarning,
    RevByName.shouldDisableCalculation.
  rewrite Hload, !getCityNameById_idOrNull. cbv zeta.
  unfold tariffTypes in Ht. simpl in Ht.
  destruct Ht as [E|[E|[E|[E|[E|[E|[]]]]]]]; subst t;
    split; flags_by_cases; reflexivity.
Qed.

(** X8 for OFFICE_OFFICE between two cities without a warehouse. *)
Lemma X8_warning_iff_disabled_witness :
  show (UseWarehouseCheck.shouldShowWarehouseWarning Sample.i18n
          Sample.cities (loadedWith [] [])
          (Some Sample.tashkent) (Some Sample.samarkand) (Some OFFICE_OFFICE))
  = UseWarehouseCheck.shouldDisableCalculation Sample.cities
      (loadedWith [] [])
      (Some Sample.tashkent) (Some Sample.samarkand) (Some OFFICE_OFFICE).
Proof.
  apply (X8_warning_iff_disabled Sample.i18n Sample.cities (loadedWith [] [])
           Sample.tashkent Sample.samarkand OFFICE_OFFICE eq_refl).
  simpl. tauto.
Defined.

(** X9.  In the three revisions of [part_001], for every tariff string
    that is not empty, with both cities given and the index loaded, the
    warning is shown exactly when the calculation is disabled. *)
Theorem X9_warning_iff_disabled_later_revisions :
  forall (toLowerCase : str -> str) (i18n : I18n) (st : HookState)
         (o d : City.t) (ao ad : AnyCity) (t : str),
    loading st = false ->
    t <> [] ->
    show (RevTrim.shouldShowWarehouseWarning toLowerCase i18n st
            (Some o) (Some d) (Some t))
    = RevTrim.shouldDisableCalculation toLowerCase st
        (Some o) (Some d) (Some t)
    /\ show (RevFuzzy.shouldShowWarehouseWarning toLowerCase i18n st
               (Some ao) (Some ad) (Some t))
       = RevFuzzy.shouldDisableCalculation toLowerCase st
           (Some ao) (Some ad) (Some t)
    /\ show (RevFuzzyExactFirst.shouldShowWarehouseWarning toLowerCase i18n
               st (Some ao) (Some ad) (Some t))
       = RevFuzzyExactFirst.shouldDisableCalculation toLowerCase st
           (Some ao) (Some ad) (Some t).
Proof.
  intros toLowerCase i18n st o d ao ad t Hload Ht.
  unfold RevTrim.shouldShowWarehouseWarning,
    RevTrim.shouldDisableCalculation,
    RevFuzzy.shouldShowWarehouseWarning,
    RevFuzzy.shouldDisableCalculation,
    RevFuzzyExactFirst.shouldShowWarehouseWarning,
    RevFuzzyExactFirst.shouldDisableCalculation.
  rewrite Hload. cbv zeta. cbn [truthy_opt orEmpty].
  rewrite (truthy_nonempty _ Ht). cbn [negb orb].
  destruct (trimmed_nameOrNull toLowerCase st o) as [Ho _].
  destruct (trimmed_nameOrNull toLowerCase st d) as [Hd Hl].
  rewrite Ho, Hd, Hl.
  unfold disableSwitch, orReturn. cbn [existsb checkedTariffs].
  tariff_case t OFFICE_OFFICE.
  { repeat split; flags_by_cases; reflexivity. }
  tariff_case t OFFICE_DOOR.
  { repeat split; flags_by_cases; reflexivity. }
  tariff_case t DOOR_OFFICE.
  { repeat split; flags_by_cases; reflexivity. }
  tariff_case t OFFICE_POSTAMAT.
  { repeat split; flags_by_cases; reflexivity. }
  tariff_case t DOOR_POSTAMAT.
  { repeat split; flags_by_cases; reflexivity. }
  destruct (str_eqb t DOOR_DOOR); repeat split; reflexivity.
Qed.

(** X9 for DOOR_POSTAMAT into a city without a locker. *)
Lemma X9_warning_iff_disabled_later_revisions_witness :
  show (RevTrim.shouldShowWarehouseWarning toLowerCaseBasic Sample.i18n
          (loadedWith [Sample.tashkentPoint] [])
          (Some Sample.tashkent) (Some Sample.samarkand) (Some DOOR_POSTAMAT))
  = RevTrim.shouldDisableCalculation toLowerCaseBasic
      (loadedWith [Sample.tashkentPoint] [])
      (Some Sample.tashkent) (Some Sample.samarkand) (Some DOOR_POSTAMAT).
Proof.
  apply (X9_warning_iff_disabled_later_revisions toLowerCaseBasic Sample.i18n
           (loadedWith [Sample.tashkentPoint] [])
           Sample.tashkent Sample.samarkand
           (PlainCity Sample.tashkent) (PlainCity Sample.samarkand)
           DOOR_POSTAMAT eq_refl).
  discriminate.
Defined.

Lemma str_eqb_outside :
  forall (t c : str) (l : list str), ~ In t l -> In c l -> str_eqb t c = false.
Proof.
  intros t c l Hout Hin. destruct (str_eqb t c) eqn:E; [|reflexivity].
  apply str_eqb_eq in E. subst c. contradiction.
Qed.

(** X10.  A tariff string that is not empty and is none of the six tariff
    types reaches the default branch of the switch: with both cities given
    and the index loaded, the hook under [src/client/hooks] and [part_000]
    disable the calculation and show no warning, whatever the index holds;
    the revisions of [part_001] neither disable nor warn. *)
Theorem X10_unknown_tariff_type :
  forall (toLowerCase : str -> str) (i18n : I18n) (cities : list City.t)
         (st : HookState) (o d : City.t) (t : str),
    loading st = false ->
    t <> [] ->
    ~ In t tariffTypes ->
    (UseWarehouseCheck.shouldDisableCalculation cities st
       (Some o) (Some d) (Some t) = true
     /\ UseWarehouseCheck.shouldShowWarehouseWarning i18n cities st
          (Some o) (Some d) (Some t) = noWarning)
    /\ (RevByName.shouldDisableCalculation st (Some o) (Some d) (Some t)
        = true
        /\ RevByName.shouldShowWarehouseWarning i18n st
             (Some o) (Some d) (Some t) = noWarning)
    /\ (RevTrim.shouldDisableCalculation toLowerCase st
          (Some o) (Some d) (Some t) = false
        /\ RevTrim.shouldShowWarehouseWarning toLowerCase i18n st
             (Some o) (Some d) (Some t) = noWarning).
Proof.
  intros toLowerCase i18n cities st o d t Hload Ht Hout.
  assert (E : forall c, In c tariffTypes -> str_eqb t c = false)
    by (intros c Hc; apply (str_eqb_outside t c tariffTypes); assumption).
  assert (E1 := E OFFICE_OFFICE ltac:(simpl; tauto)).
  assert (E2 := E OFFICE_DOOR ltac:(simpl; tauto)).
  assert (E3 := E DOOR_OFFICE ltac:(simpl; tauto)).
  assert (E4 := E OFFICE_POSTAMAT ltac:(simpl; tauto)).
  assert (E5 := E DOOR_POSTAMAT ltac:(simpl; tauto)).
  assert (E6 := E DOOR_DOOR ltac:(simpl; tauto)).
  unfold UseWarehouseCheck.shouldShowWarehouseWarning,
    UseWarehouseCheck.shouldDisableCalculation,
    RevByName.shouldShowWarehouseWarning,
    RevByName.shouldDisableCalculation,
    RevTrim.shouldShowWarehouseWarning,
    RevTrim.shouldDisableCalculation.
  rewrite Hload. cbv zeta. cbn [truthy_opt orEmpty].
  rewrite (truthy_nonempty _ Ht). cbn [negb orb].
  unfold disableSwitch, orReturn. cbn [existsb checkedTariffs].
  rewrite E1, E2, E3, E4, E5, E6.
  repeat split.
Qed.

(** X10 at a tariff type in small letters. *)
Lemma X10_unknown_tariff_type_witness :
  UseWarehouseCheck.shouldDisableCalculation Sample.cities
    (loadedWith [Sample.tashkentPoint; Sample.samarkandPoint] [])
    (Some Sample.tashkent) (Some Sample.samarkand) (Some (lit "door_door"))
  = true.
Proof.
  apply (X10_unknown_tariff_type toLowerCaseBasic Sample.i18n Sample.cities
           (loadedWith [Sample.tashkentPoint; Sample.samarkandPoint] [])
           Sample.tashkent Sample.samarkand (lit "door_door") eq_refl).
  - discriminate.
  - simpl. intuition discriminate.
Defined.

(** X11.  The hook under [src/client/hooks] reads of a city argument its
    id only: two cities with the same id give the same warning and the
    same disable check, whatever names they carry.  A city whose id is not
    among [cities] is a city without a name: every tariff type that starts
    at an office is disabled for it as origin, also when the name it
    carries is listed for a warehouse. *)
Theorem X11_city_known_by_id_only :
  forall (i18n : I18n) (cities : list City.t) (st : HookState)
         (o o' d d' : City.t) (t : option str),
    City.id o = City.id o' ->
    City.id d = City.id d' ->
    UseWarehouseCheck.shouldShowWarehouseWarning i18n cities st
      (Some o) (Some d) t
    = UseWarehouseCheck.shouldShowWarehouseWarning i18n cities st
        (Some o') (Some d') t
    /\ UseWarehouseCheck.shouldDisableCalculation cities st
         (Some o) (Some d) t
       = UseWarehouseCheck.shouldDisableCalculation cities st
           (Some o') (Some d') t
    /\ (find (fun c => Z.eqb (City.id c) (City.id o)) cities = None ->
        loading st = false ->
        UseWarehouseCheck.shouldDisableCalculation cities st
          (Some o) (Some d) (Some OFFICE_OFFICE) = true
        /\ UseWarehouseCheck.shouldDisableCalculation cities st
             (Some o) (Some d) (Some OFFICE_DOOR) = true
        /\ UseWarehouseCheck.shouldDisableCalculation cities st
             (Some o) (Some d) (Some OFFICE_POSTAMAT) = true).
Proof.
  intros i18n cities st o o' d d' t Ho Hd.
  unfold UseWarehouseCheck.shouldShowWarehouseWarning,
    UseWarehouseCheck.shouldDisableCalculation,
    UseWarehouseCheck.idOrNull.
  rewrite <- Ho, <- Hd.
  split; [reflexivity|]. split; [reflexivity|].
  intros Hfind Hload. rewrite Hload.
  assert (Hname : UseWarehouseCheck.getCityNameById cities
                    (Some (City.id o)) = None).
  { unfold UseWarehouseCheck.getCityNameById. rewrite Hfind.
    destruct (Z.eqb (City.id o) 0); reflexivity. }
  rewrite Hname. repeat split.
Qed.

(** X11 for a city object named Tashkent under an id that is not among
    the cities, with a warehouse listed in Tashkent. *)
Lemma X11_city_known_by_id_only_witness :
  UseWarehouseCheck.hasWarehouse (loadedWith [Sample.tashkentPoint] [])
    (Some (City.name Sample.unlistedTashkent)) = true
  /\ UseWarehouseCheck.shouldDisableCalculation Sample.cities
       (loadedWith [Sample.tashkentPoint] [])
       (Some Sample.unlistedTashkent) (Some Sample.samarkand)
       (Some OFFICE_DOOR) = true.
Proof.
  split; [reflexivity|].
  apply (X11_city_known_by_id_only Sample.i18n Sample.cities
           (loadedWith [Sample.tashkentPoint] [])
           Sample.unlistedTashkent Sample.unlistedTashkent
           Sample.samarkand Sample.samarkand (Some OFFICE_DOOR)
           eq_refl eq_refl); reflexivity.
Defined.

(** X12.  A side that the tariff type does not constrain plays no part:
    in the hook under [src/client/hooks] and in the third revision of
    [part_001] the warning and the disable check for OFFICE_DOOR do not
    depend on the destination city, and those for DOOR_OFFICE and
    DOOR_POSTAMAT do not depend on the origin city. *)
Theorem X12_unconstrained_side_ignored :
  forall (toLowerCase : str -> str) (i18n : I18n) (cities : list City.t)
         (st : HookState) (o o' d d' : City.t) (ao ao' ad ad' : AnyCity),
    (UseWarehouseCheck.shouldShowWarehouseWarning i18n cities st
       (Some o) (Some d) (Some OFFICE_DOOR)
     = UseWarehouseCheck.shouldShowWarehouseWarning i18n cities st
         (Some o) (Some d') (Some OFFICE_DOOR)
     /\ UseWarehouseCheck.shouldDisableCalculation cities st
          (Some o) (Some d) (Some OFFICE_DOOR)
        = UseWarehouseCheck.shouldDisableCalculation cities st
            (Some o) (Some d') (Some OFFICE_DOOR))
    /\ (forall t, t = DOOR_OFFICE \/ t = DOOR_POSTAMAT ->
          UseWarehouseCheck.shouldShowWarehouseWarning i18n cities st
            (Some o) (Some d) (Some t)
          = UseWarehouseCheck.shouldShowWarehouseWarning i18n cities st
              (Some o') (Some d) (Some t)
          /\ UseWarehouseCheck.shouldDisableCalculation cities st
               (Some o) (Some d) (Some t)
             = UseWarehouseCheck.shouldDisableCalculation cities st
                 (Some o') (Some d) (Some t))
    /\ (RevFuzzy.shouldShowWarehouseWarning toLowerCase i18n st
          (Some ao) (Some ad) (Some OFFICE_DOOR)
        = RevFuzzy.shouldShowWarehouseWarning toLowerCase i18n st
            (Some ao) (Some ad') (Some OFFICE_DOOR)
        /\ RevFuzzy.shouldDisableCalculation toLowerCase st
             (Some ao) (Some ad) (Some OFFICE_DOOR)
           = RevFuzzy.shouldDisableCalculation toLowerCase st
               (Some ao) (Some ad') (Some OFFICE_DOOR))
    /\ (forall t, t = DOOR_OFFICE \/ t = DOOR_POSTAMAT ->
          RevFuzzy.shouldShowWarehouseWarning toLowerCase i18n st
            (Some ao) (Some ad) (Some t)
          = RevFuzzy.shouldShowWarehouseWarning toLowerCase i18n st
              (Some ao') (Some ad) (Some t)
          /\ RevFuzzy.shouldDisableCalculation toLowerCase st
               (Some ao) (Some ad) (Some t)
             = RevFuzzy.shouldDisableCalculation toLowerCase st
                 (Some ao') (Some ad) (Some t)).
Proof.
  intros toLowerCase i18n cities st o o' d d' ao ao' ad ad'.
  unfold UseWarehouseCheck.shouldShowWarehouseWarning,
    UseWarehouseCheck.shouldDisableCalculation,
    RevFuzzy.shouldShowWarehouseWarning,
    RevFuzzy.shouldDisableCalculation.
  cbv zeta.
  repeat match goal with |- _ /\ _ => split end;
    try (intros t [Ht | Ht]; subst t; split);
    destruct (loading st); try reflexivity;
    flags_by_cases; reflexivity.
Qed.

(** X12 at the sample cities. *)
Lemma X12_unconstrained_side_ignored_witness :
  UseWarehouseCheck.shouldDisableCalculation Sample.cities
    (loadedWith [Sample.tashkentPoint] [Sample.tashkentPoint])
    (Some Sample.tashkent) (Some Sample.tashkent) (Some DOOR_POSTAMAT)
  = UseWarehouseCheck.shouldDisableCalculation Sample.cities
      (loadedWith [Sample.tashkentPoint] [Sample.tashkentPoint])
      (Some Sample.samarkand) (Some Sample.tashkent) (Some DOOR_POSTAMAT).
Proof.
  apply (proj1 (proj2
           (X12_unconstrained_side_ignored toLowerCaseBasic Sample.i18n
              Sample.cities
              (loadedWith [Sample.tashkentPoint] [Sample.tashkentPoint])
              Sample.tashkent Sample.samarkand
              Sample.tashkent Sample.tashkent
              (PlainCity Sample.tashkent) (PlainCity Sample.tashkent)
              (PlainCity Sample.tashkent) (PlainCity Sample.tashkent)))
           DOOR_POSTAMAT).
  right. reflexivity.
Defined.

(* ===================================================================== *)
(** * Further properties of the calculator *)
(* ===================================================================== *)

(** X13.  In the calculator a warning that is shown always comes with a
    disabled calculation, for every tariff string, form, list of API
    cities and availability data. *)
Theorem X13_calculator_warning_implies_disabled :
  forall (i18n : I18n) (form : Calc.RegionBasedTariffCalculatorForm)
         (apiCities : list City.t) (data : option Calc.WarehouseData),
    Calc.show (Calc.createWarehouseWarning i18n form apiCities data) = true ->
    Calc.isCalculationDisabled form apiCities data = true.
Proof.
  intros i18n form apiCities data.
  unfold Calc.createWarehouseWarning, Calc.isCalculationDisabled.
  destruct (Calc.originCity form) as [ro|]; [|discriminate].
  destruct (Calc.destinationCity form) as [rd|]; [|discriminate].
  destruct (Calc.tariffType form) as [t|]; [|discriminate].
  destruct (Calc.convertedOriginCity form apiCities) as [co|];
    [|discriminate].
  destruct (Calc.convertedDestinationCity form apiCities) as [cd|];
    [|discriminate].
  destruct data as [wd|]; [|discriminate].
  cbv zeta.
  destruct (negb (truthy t)); [discriminate|].
  destruct (includes t (lit "OFFICE")); [|discriminate].
  destruct (startsWith t (lit "OFFICE"));
    destruct (endsWith t (lit "OFFICE"));
    destruct (endsWith t (lit "POSTAMAT"));
    destruct (Calc.hasWarehouse wd (Some (City.name co)));
    destruct (Calc.hasLocker wd (Some (City.name co)));
    destruct (Calc.hasWarehouse wd (Some (City.name cd)));
    destruct (Calc.hasLocker wd (Some (City.name cd)));
    cbn; congruence.
Qed.

(** X13 for OFFICE_DOOR out of a city without any service point. *)
Lemma X13_calculator_warning_implies_disabled_witness :
  Calc.isCalculationDisabled (Sample.form (Some OFFICE_DOOR) (lit "5"))
    Sample.cities (Some (Sample.data [] [])) = true.
Proof.
  apply (X13_calculator_warning_implies_disabled Sample.i18n
           (Sample.form (Some OFFICE_DOOR) (lit "5")) Sample.cities
           (Some (Sample.data [] []))).
  reflexivity.
Defined.

Lemma byName_nameOrNull :
  forall st (c : City.t),
    RevByName.hasWarehouse st (nameOrNull (Some c))
    = RevByName.hasWarehouse st (Some (City.name c))
    /\ RevByName.hasLocker st (nameOrNull (Some c))
       = RevByName.hasLocker st (Some (City.name c)).
Proof.
  intros st c. unfold nameOrNull.
  destruct (City.name c) as [|x r]; split; reflexivity.
Qed.

(** X14.  The calculator blocks no more than the availability hook whose
    predicates it is given: for each of the six tariff types, with both
    cities found among the API cities and the index loaded, when
    [isCalculationDisabled] returns true so does
    [shouldDisableCalculation] of that hook on the two API cities.  This
    holds for the predicates of [part_000] and for those of the trimmed
    revision. *)
Theorem X14_calculator_blocks_no_more_than_hook :
  forall (toLowerCase : str -> str) (st : HookState)
         (form : Calc.RegionBasedTariffCalculatorForm)
         (apiCities : list City.t) (co cd : City.t) (t : str),
    loading st = false ->
    In t tariffTypes ->
    Calc.tariffType form = Some t ->
    Calc.convertedOriginCity form apiCities = Some co ->
    Calc.convertedDestinationCity form apiCities = Some cd ->
    (Calc.isCalculationDisabled form apiCities (Some (byNameData st)) = true ->
     RevByName.shouldDisableCalculation st (Some co) (Some cd) (Some t)
     = true)
    /\ (Calc.isCalculationDisabled form apiCities
          (Some (trimData toLowerCase st)) = true ->
        RevTrim.shouldDisableCalculation toLowerCase st
          (Some co) (Some cd) (Some t) = true).
Proof.
  intros toLowerCase st form apiCities co cd t Hload Ht Htariff Hco Hcd.
  unfold Calc.isCalculationDisabled,
    RevByName.shouldDisableCalculation, RevTrim.shouldDisableCalculation.
  rewrite Htariff, Hco, Hcd, Hload.
  destruct (Calc.originCity form) as [ro|] eqn:Ho;
    [|unfold Calc.convertedOriginCity in Hco; rewrite Ho in Hco;
      discriminate].
  destruct (Calc.destinationCity form) as [rd|] eqn:Hd;
    [|unfold Calc.convertedDestinationCity in Hcd; rewrite Hd in Hcd;
      discriminate].
  cbv zeta.
  destruct (byName_nameOrNull st co) as [Eow _].
  destruct (byName_nameOrNull st cd) as [Edw Edl].
  rewrite Eow, Edw, Edl.
  cbn [Calc.hasWarehouse Calc.hasLocker byNameData trimData].
  unfold tariffTypes in Ht. simpl in Ht.
  destruct Ht as [E|[E|[E|[E|[E|[E|[]]]]]]]; subst t;
    split; flags_by_cases; cbn; congruence.
Qed.

(** X14 for OFFICE_OFFICE on an empty index. *)
Lemma X14_calculator_blocks_no_more_than_hook_witness :
  RevByName.shouldDisableCalculation (loadedWith [] [])
    (Some Sample.tashkent) (Some Sample.samarkand) (Some OFFICE_OFFICE)
  = true.
Proof.
  apply (X14_calculator_blocks_no_more_than_hook toLowerCaseBasic
           (loadedWith [] []) (Sample.form (Some OFFICE_OFFICE) (lit "5"))
           Sample.cities Sample.tashkent Sample.samarkand OFFICE_OFFICE
           eq_refl ltac:(simpl; tauto) eq_refl eq_refl eq_refl).
  reflexivity.
Defined.

(** ** [calculateTariff], [canCalculate] and [loadCities] *)

Lemma valid_weight_passes_recheck :
  forall form,
    Calc.isFormValid form = true ->
    isNaN (parseFloat (Calc.weight form))
    || le0 (parseFloat (Calc.weight form)) = false.
Proof.
  intros form H. unfold Calc.isFormValid in H.
  destruct (Calc.originCity form); [|discriminate].
  destruct (Calc.destinationCity form); [|discriminate].
  cbv zeta in H.
  apply andb_true_iff in H. destruct H as [H Hgt].
  apply andb_true_iff in H. destruct H as [_ Hnan].
  apply negb_true_iff in Hnan.
  unfold le0. rewrite Hnan, Hgt. reflexivity.
Qed.

(** What [calculateTariff] leaves when the form is valid. *)
Lemma calculateTariff_valid :
  forall (R : Type) (i18n : I18n) (form : Calc.RegionBasedTariffCalculatorForm)
         (apiCities : list City.t)
         (server : Calc.TariffRequest -> Calc.Reply R) (s : Calc.CalcState R),
    Calc.isFormValid form = true ->
    Eff.exec (Calc.calculateTariff i18n form apiCities server) s
    = match Calc.convertedOriginCity form apiCities,
            Calc.convertedDestinationCity form apiCities with
      | Some co, Some cd =>
          let request :=
            {| Calc.from_latitude := City.center_latitude co;
               Calc.from_longitude := City.center_longitude co;
               Calc.to_latitude := City.center_latitude cd;
               Calc.to_longitude := City.center_longitude cd;
               Calc.req_weight := parseFloat (Calc.weight form);
               Calc.tariff_type := Calc.tariffType form |} in
          match server request with
          | Calc.Reply_ true (Some body) =>
              {| Calc.result := Some body; Calc.loading := false;
                 Calc.error := None;
                 Calc.posted := Calc.posted s ++ [request] |}
          | _ =>
              {| Calc.result := Calc.result s; Calc.loading := false;
                 Calc.error := Some (calculationError i18n);
                 Calc.posted := Calc.posted s ++ [request] |}
          end
      | _, _ =>
          {| Calc.result := Calc.result s; Calc.loading := false;
             Calc.error := Some (calculationError i18n);
             Calc.posted := Calc.posted s |}
      end.
Proof.
  intros R i18n form apiCities server s Hvalid.
  unfold Calc.calculateTariff. rewrite Hvalid. cbn [negb]. cbv zeta.
  rewrite (valid_weight_passes_recheck _ Hvalid).
  unfold Eff.exec, Eff.bind, Eff.tryCatchFinally, Calc.post, Calc.deref,
    Calc.setLoading, Calc.setError, Calc.setResult, Eff.modify, Eff.ret,
    Eff.throw, Eff.bind.
  destruct (Calc.convertedOriginCity form apiCities) as [co|];
    [|reflexivity].
  destruct (Calc.convertedDestinationCity form apiCities) as [cd|];
    [|reflexivity].
  cbn.
  match goal with
  | |- context [server ?r] => destruct (server r) as [|[|] [body|]]
  end; reflexivity.
Qed.



(** X16.  When the form is valid but a selected city has no API city
    with its id, [calculateTariff] posts no request: reading the
    coordinates of the missing city throws inside the [try], and the hook
    ends with the calculation error, the loading flag off and the result
    untouched. *)
Theorem X16_calculateTariff_city_not_found :
  forall (R : Type) (i18n : I18n) (form : Calc.RegionBasedTariffCalculatorForm)
         (apiCities : list City.t)
         (server : Calc.TariffRequest -> Calc.Reply R) (s : Calc.CalcState R),
    Calc.isFormValid form = true ->
    Calc.convertedOriginCity form apiCities = None
    \/ Calc.convertedDestinationCity form apiCities = None ->
    Eff.exec (Calc.calculateTariff i18n form apiCities server) s
    = {| Calc.result := Calc.result s; Calc.loading := false;
         Calc.error := Some (calculationError i18n);
         Calc.posted := Calc.posted s |}.
Proof.
  intros R i18n form apiCities server s Hvalid Hmissing.
  rewrite (calculateTariff_valid R i18n form apiCities server s Hvalid).
  destruct Hmissing as [H | H]; rewrite H; [reflexivity|].
  destruct (Calc.convertedOriginCity form apiCities); reflexivity.
Qed.

(** X16 from Tashkent to a city that the API does not list. *)
Lemma X16_calculateTariff_city_not_found_witness :
  Eff.exec
    (Calc.calculateTariff Sample.i18n
       {| Calc.originCity := Some Sample.regionTashkent;
          Calc.destinationCity := Some Sample.regionElsewhere;
          Calc.tariffType := Some DOOR_DOOR; Calc.weight := lit "3" |}
       Sample.cities (fun _ => Calc.Reply_ true (Some tt))) Sample.idle
  = {| Calc.result := None; Calc.loading := false;
       Calc.error := Some (lit "calculationError"); Calc.posted := [] |}.
Proof.
  apply (X16_calculateTariff_city_not_found unit Sample.i18n
           {| Calc.originCity := Some Sample.regionTashkent;
              Calc.destinationCity := Some Sample.regionElsewhere;
              Calc.tariffType := Some DOOR_DOOR; Calc.weight := lit "3" |}
           Sample.cities (fun _ => Calc.Reply_ true (Some tt)) Sample.idle).
  - reflexivity.
  - right. reflexivity.
Defined.



Lemma gt0_readExponent_negative :
  forall m e rest, gt0 (readExponent true m e rest) = false.
Proof.
  intros m e rest. unfold readExponent.
  destruct rest as [|c r]; [reflexivity|].
  destruct (N.eqb c 101 || N.eqb c 69); [|reflexivity].
  destruct (readSign r) as [eneg r'].
  destruct (readDigits r' 0 0) as [[ev ne] rest'].
  destruct (Nat.eqb ne 0); [reflexivity|].
  destruct eneg; reflexivity.
Qed.

Lemma parseFloat_minus :
  forall pre r,
    forallb isWhiteSpace pre = true ->
    gt0 (parseFloat (pre ++ 45%N :: r)) = false.
Proof.
  intros pre r Hpre. unfold parseFloat.
  assert (Htrim : trimStart (pre ++ 45%N :: r) = 45%N :: r).
  { unfold trimStart. rewrite dropWhile_app_all by exact Hpre. reflexivity. }
  rewrite Htrim.
  change (readSign (45%N :: r)) with (true, r).
  cbv beta iota zeta.
  destruct (startsWith r _); [reflexivity|].
  destruct (readDigits r 0 0) as [[i ni] s3]. cbv beta iota zeta.
  destruct s3 as [|c s4].
  - destruct (Nat.eqb ni 0); [reflexivity|].
    apply gt0_readExponent_negative.
  - destruct (N.eqb c 46).
    + destruct (readDigits s4 i 0) as [[m nf] s5].
      destruct (Nat.eqb ni 0 && Nat.eqb nf 0); [reflexivity|].
      apply gt0_readExponent_negative.
    + destruct (Nat.eqb ni 0); [reflexivity|].
      apply gt0_readExponent_negative.
Qed.

(** X18.  A weight whose first character after any white space is a minus
    sign is never accepted, whatever follows the sign: [isFormValid]
    rejects the form, and [calculateTariff] posts nothing and stores the
    fill-all-fields message (not the correct-weight message). *)
Theorem X18_negative_weight_rejected :
  forall (R : Type) (i18n : I18n) (form : Calc.RegionBasedTariffCalculatorForm)
         (apiCities : list City.t)
         (server : Calc.TariffRequest -> Calc.Reply R) (s : Calc.CalcState R)
         (pre rest : str),
    forallb isWhiteSpace pre = true ->
    Calc.weight form = pre ++ 45%N :: rest ->
    Calc.isFormValid form = false
    /\ Eff.exec (Calc.calculateTariff i18n form apiCities server) s
       = {| Calc.result := Calc.result s; Calc.loading := Calc.loading s;
            Calc.error := Some (fillAllFields i18n);
            Calc.posted := Calc.posted s |}.
Proof.
  intros R i18n form apiCities server s pre rest Hpre Hweight.
  assert (Hvalid : Calc.isFormValid form = false).
  { unfold Calc.isFormValid. rewrite Hweight.
    rewrite (parseFloat_minus pre rest Hpre).
    destruct (Calc.originCity form); [|reflexivity].
    destruct (Calc.destinationCity form); [|reflexivity].
    cbv zeta. apply andb_false_r. }
  split; [exact Hvalid|].
  unfold Calc.calculateTariff. rewrite Hvalid. reflexivity.
Qed.

(** X18 at the weight [ -5]. *)
Lemma X18_negative_weight_rejected_witness :
  Calc.isFormValid (Sample.form (Some OFFICE_DOOR) (lit " -5")) = false
  /\ Eff.exec (Calc.calculateTariff Sample.i18n
                 (Sample.form (Some OFFICE_DOOR) (lit " -5")) Sample.cities
                 (fun _ => @Calc.NoReply unit)) Sample.idle
     = {| Calc.result := None; Calc.loading := false;
          Calc.error := Some (lit "fillAllFields"); Calc.posted := [] |}.
Proof.
  apply (X18_negative_weight_rejected unit Sample.i18n
           (Sample.form (Some OFFICE_DOOR) (lit " -5")) Sample.cities
           (fun _ => @Calc.NoReply unit) Sample.idle (lit " ") (lit "5")).
  - reflexivity.
  - reflexivity.
Defined.

(** X19.  [loadCities] always leaves its loading flag off, and it stores
    cities only from an OK response whose body parses.  After any other
    outcome the list of API cities is empty, and then, for every form and
    all availability data, no selected city is found: the calculator
    shows no warehouse warning, does not disable the calculation on
    availability, and [canCalculate] is false. *)
Theorem X19_cities_not_loaded :
  forall (i18n : I18n) (form : Calc.RegionBasedTariffCalculatorForm)
         (data : option Calc.WarehouseData) (citiesFetch : Calc.CitiesFetch),
    (forall l, citiesFetch <> Calc.CitiesResponse true (Some (Some l))) ->
    Calc.mountedCities citiesFetch = Calc.initialCities
    /\ Calc.show
         (Calc.createWarehouseWarning i18n form
            (Calc.apiCities (Calc.mountedCities citiesFetch)) data) = false
    /\ Calc.isCalculationDisabled form
         (Calc.apiCities (Calc.mountedCities citiesFetch)) data = false
    /\ Calc.canCalculate form
         (Calc.apiCities (Calc.mountedCities citiesFetch)) = false.
Proof.
  intros i18n form data citiesFetch Hfail.
  assert (Hm : Calc.mountedCities citiesFetch = Calc.initialCities).
  { destruct citiesFetch as [|[|] [[l|]|]]; try reflexivity.
    exfalso. apply (Hfail l). reflexivity. }
  rewrite Hm. split; [reflexivity|]. cbn [Calc.apiCities Calc.initialCities].
  assert (Ho : Calc.convertedOriginCity form [] = None)
    by (unfold Calc.convertedOriginCity;
        destruct (Calc.originCity form); reflexivity).
  unfold Calc.createWarehouseWarning, Calc.isCalculationDisabled,
    Calc.canCalculate.
  rewrite Ho.
  repeat split.
  - destruct (Calc.originCity form); [|reflexivity].
    destruct (Calc.destinationCity form); [|reflexivity].
    destruct (Calc.tariffType form); reflexivity.
  - destruct (Calc.originCity form); [|reflexivity].
    destruct (Calc.destinationCity form); [|reflexivity].
    destruct (Calc.tariffType form); reflexivity.
  - apply andb_false_r.
Qed.

(** X19 when the cities request rejects. *)
Lemma X19_cities_not_loaded_witness :
  Calc.canCalculate (Sample.form (Some DOOR_DOOR) (lit "5"))
    (Calc.apiCities (Calc.mountedCities Calc.CitiesRejected)) = false.
Proof.
  apply (X19_cities_not_loaded Sample.i18n
           (Sample.form (Some DOOR_DOOR) (lit "5")) None
           Calc.CitiesRejected).
  intros l. discriminate.
Defined.

(** X20.  [loadCities] stores the cities of an OK response whose body
    parses, an empty list when the body has no [data].  For a selected
    region city the hook then finds only a stored city whose id is its
    [shipox_id], and finds none exactly when no stored city has that
    id. *)
Theorem X20_cities_loaded_and_found :
  forall (body : option (list City.t)) (regionCity : RegionCity.t),
    let cities := Calc.apiCities
                    (Calc.mountedCities (Calc.CitiesResponse true (Some body)))
    in
    cities = match body with Some l => l | None => [] end
    /\ Calc.citiesLoading
         (Calc.mountedCities (Calc.CitiesResponse true (Some body))) = false
    /\ (forall c, Calc.findApiCityByShipoxId cities regionCity = Some c ->
                  In c cities /\ City.id c = RegionCity.shipox_id regionCity)
    /\ (Calc.findApiCityByShipoxId cities regionCity = None <->
        forall c, In c cities ->
                  City.id c <> RegionCity.shipox_id regionCity).
Proof.
  intros body regionCity cities.
  split; [reflexivity|]. split; [reflexivity|]. split.
  - intros c H. unfold Calc.findApiCityByShipoxId in H.
    apply find_some in H. destruct H as [Hin Hid].
    split; [exact Hin | apply Z.eqb_eq; exact Hid].
  - unfold Calc.findApiCityByShipoxId. split.
    + intros H c Hin. apply Z.eqb_neq. apply (find_none _ _ H c Hin).
    + generalize cities. intro l.
      induction l as [|c r IH]; intro H; [reflexivity|].
      simpl.
      destruct (Z.eqb_spec (City.id c) (RegionCity.shipox_id regionCity))
        as [E|E].
      * exfalso. apply (H c); [left; reflexivity | exact E].
      * apply IH. intros c' Hin. apply H. right. exact Hin.
Qed.

(** X20 at the sample cities. *)
Lemma X20_cities_loaded_and_found_witness :
  In Sample.samarkand Sample.cities
  /\ City.id Sample.samarkand = RegionCity.shipox_id Sample.regionSamarkand.
Proof.
  apply (proj1 (proj2 (proj2
           (X20_cities_loaded_and_found (Some Sample.cities)
              Sample.regionSamarkand)))).
  reflexivity.
Defined.

(** ** A failed load and the evaluator *)

Lemma empty_index_finds_nothing :
  forall (toLowerCase : str -> str) (e : option str) (b : bool)
         (q : option str),
    let st := {| warehouses := []; lockers := []; loading := b; error := e |}
    in
    UseWarehouseCheck.hasWarehouse st q = false
    /\ UseWarehouseCheck.hasLocker st q = false
    /\ RevTrim.hasWarehouse toLowerCase st q = false
    /\ RevTrim.hasLocker toLowerCase st q = false.
Proof.
  intros toLowerCase e b q st.
  destruct q as [[|c r]|]; repeat split.
Qed.

(** X21.  When a request of [fetchData] rejects, the index stays empty
    and the evaluator blocks conservatively: for every pair of cities,
    each of the five tariff types that need an office or a locker is
    disabled and warned about, and DOOR_DOOR is neither.  This holds for
    the hook under [src/client/hooks] when the lockers request rejects,
    and for the trimmed revision when the warehouses request rejects. *)
Theorem X21_rejected_load_blocks :
  forall (toLowerCase : str -> str) (i18n : I18n) (cities : list City.t)
         (other : Fetch) (o d : City.t) (t : str),
    In t checkedTariffs ->
    (UseWarehouseCheck.shouldDisableCalculation cities
       (UseWarehouseCheck.mounted other Rejected) (Some o) (Some d) (Some t)
     = true
     /\ show (UseWarehouseCheck.shouldShowWarehouseWarning i18n cities
                (UseWarehouseCheck.mounted other Rejected)
                (Some o) (Some d) (Some t)) = true
     /\ UseWarehouseCheck.shouldDisableCalculation cities
          (UseWarehouseCheck.mounted other Rejected)
          (Some o) (Some d) (Some DOOR_DOOR) = false)
    /\ (RevTrim.shouldDisableCalculation toLowerCase
          (RevTrim.mounted Rejected other) (Some o) (Some d) (Some t) = true
        /\ show (RevTrim.shouldShowWarehouseWarning toLowerCase i18n
                   (RevTrim.mounted Rejected other)
                   (Some o) (Some d) (Some t)) = true
        /\ RevTrim.shouldDisableCalculation toLowerCase
             (RevTrim.mounted Rejected other)
             (Some o) (Some d) (Some DOOR_DOOR) = false).
Proof.
  intros toLowerCase i18n cities other o d t Ht.
  assert (Hnamed : UseWarehouseCheck.mounted other Rejected
                   = {| warehouses := []; lockers := []; loading := false;
                        error := Some UseWarehouseCheck.loadError |})
    by (each_fetch other; reflexivity).
  assert (Htrim : RevTrim.mounted Rejected other
                  = {| warehouses := []; lockers := []; loading := false;
                       error := Some RevTrim.loadError |}) by reflexivity.
  rewrite Hnamed, Htrim.
  unfold UseWarehouseCheck.shouldShowWarehouseWarning,
    UseWarehouseCheck.shouldDisableCalculation,
    RevTrim.shouldShowWarehouseWarning, RevTrim.shouldDisableCalculation.
  cbv zeta. cbn [loading].
  repeat match goal with
         | |- context [UseWarehouseCheck.hasWarehouse ?s ?q] =>
             rewrite (proj1 (empty_index_finds_nothing toLowerCase _ _ q))
         | |- context [UseWarehouseCheck.hasLocker ?s ?q] =>
             rewrite (proj1 (proj2
                        (empty_index_finds_nothing toLowerCase _ _ q)))
         | |- context [RevTrim.hasWarehouse ?f ?s ?q] =>
             rewrite (proj1 (proj2 (proj2
                        (empty_index_finds_nothing toLowerCase _ _ q))))
         | |- context [RevTrim.hasLocker ?f ?s ?q] =>
             rewrite (proj2 (proj2 (proj2
                        (empty_index_finds_nothing toLowerCase _ _ q))))
         end.
  unfold checkedTariffs in Ht. simpl in Ht.
  destruct Ht as [E|[E|[E|[E|[E|[]]]]]]; subst t; repeat split.
Qed.

(** X21 for OFFICE_DOOR after a rejected lockers request. *)
Lemma X21_rejected_load_blocks_witness :
  UseWarehouseCheck.shouldDisableCalculation Sample.cities
    (UseWarehouseCheck.mounted
       (Response true (Some (DataObject (Some [Sample.tashkentPoint]))))
       Rejected)
    (Some Sample.tashkent) (Some Sample.samarkand) (Some OFFICE_DOOR) = true.
Proof.
  apply (X21_rejected_load_blocks toLowerCaseBasic Sample.i18n Sample.cities
           (Response true (Some (DataObject (Some [Sample.tashkentPoint]))))
           Sample.tashkent Sample.samarkand OFFICE_DOOR).
  simpl. tauto.
Defined.
